(** * oplog_events: snapshot models and the idb_event taxonomy

    A model of [plugins/oplog/oplog_events.py].  The module declares
    pydantic [BaseModel] subclasses: seven snapshot models that copy fields
    out of host structures, and one event class per database notification,
    joined in the union [idb_event].

    The declarations are data interpreted by pydantic, so the development
    has two layers:
    - a small model of the part of pydantic the module relies on (field
      collection, validation at construction, attribute assignment), and
    - the module's own text: class bodies, field validators, converters and
      the union, transcribed declaration by declaration. *)

From Stdlib Require Import ZArith List String Ascii Bool Lia.
From Stdlib Require Import DecimalString DecimalPos DecimalZ.
Import ListNotations.
Open Scope string_scope.
Open Scope list_scope.
Open Scope Z_scope.
Set Warnings "-register-all".
Unset Elimination Schemes.

(** ** Python values *)

(** The values that reach the models: scalars, lists, dictionaries (keyword
    arguments and dumped models), instances of the module's classes (class
    name and instance dictionary) and host objects, which stay opaque. *)
Inductive pyobj : Type :=
| PyNone
| PyInt (z : Z)
| PyBool (b : bool)
| PyStr (s : string)
| PyDatetime (t : Z)
| PyHost (handle : N)
| PyList (items : list pyobj)
| PyDict (entries : list (string * pyobj))
| PyObject (cls : string) (attrs : list (string * pyobj)).

(** One line of a pydantic validation error: what failed, where, and on
    which input. *)
Inductive error_type : Type :=
| missing
| int_type
| string_type
| bool_type
| datetime_type
| list_type
| literal_error
| model_type
| value_error (msg : string).

Inductive loc_item : Type :=
| at_field (name : string)
| at_index (i : nat).

Record ErrorDetails : Type := {
  err_type : error_type;
  err_loc : list loc_item;
  err_input : pyobj
}.

(** Exceptions: the ones the module raises or meets on host data, and
    pydantic's [ValidationError] with its list of error lines. *)
Inductive exn : Type :=
| ValueError (msg : string)
| IndexError (msg : string)
| TypeError (msg : string)
| ValidationError (errors : list ErrorDetails).

Inductive result (A : Type) : Type :=
| Return (a : A)
| Raise (e : exn).
Arguments Return {A} a.
Arguments Raise {A} e.

Definition bind {A B} (m : result A) (k : A -> result B) : result B :=
  match m with
  | Return a => k a
  | Raise e => Raise e
  end.

Notation "x <- m ;; k" := (bind m (fun x => k))
  (at level 61, m at next level, right associativity).

Fixpoint mapM {A B} (f : A -> result B) (l : list A) : result (list B) :=
  match l with
  | [] => Return []
  | a :: l' => b <- f a ;; bs <- mapM f l' ;; Return (b :: bs)
  end.

(** [str(v)] of an integer, as an f-string renders it: the decimal digits,
    and a [ValueError] when there are more of them than the interpreter
    turns into text (4300 by default, from CPython 3.11). *)
Definition int_max_str_digits : Z := 4300.

Definition decimal (v : Z) : string := NilZero.string_of_int (Z.to_int v).

Definition digits (v : Z) : Z :=
  Z.of_nat (String.length (decimal (Z.abs v))).

Definition str_int (v : Z) : result string :=
  if int_max_str_digits <? digits v then
    Raise (ValueError
      "Exceeds the limit (4300 digits) for integer string conversion; use sys.set_int_max_str_digits() to increase the limit")
  else Return (decimal v).

(** [raise ValueError(f"...{v}")] with the integer at the end of the
    text, and the text the exception carries. *)
Definition raise_got {A} (prefix : string) (v : Z) : result A :=
  s <- str_int v ;; Raise (ValueError (prefix ++ s)%string).

Definition got_text (prefix : string) (v : Z) : string :=
  if int_max_str_digits <? digits v then
    "Exceeds the limit (4300 digits) for integer string conversion; use sys.set_int_max_str_digits() to increase the limit"
  else (prefix ++ decimal v)%string.

(** Dictionary lookup by key; a Python dict has each key once. *)
Fixpoint dict_get (key : string) (d : list (string * pyobj)) : option pyobj :=
  match d with
  | [] => None
  | (k, v) :: d' => if String.eqb k key then Some v else dict_get key d'
  end.

(** Assignment to a key already present keeps the key's position. *)
Fixpoint dict_set (key : string) (v : pyobj) (d : list (string * pyobj))
  : list (string * pyobj) :=
  match d with
  | [] => [(key, v)]
  | (k, w) :: d' =>
      if String.eqb k key then (k, v) :: d' else (k, w) :: dict_set key v d'
  end.

(** ** Class declarations *)

(** The model configuration a class body may assign to [model_config]. *)
Record ConfigDict : Type := {
  frozen : bool;
  validate_assignment : bool;
  extra_forbid : bool
}.

(** The annotations the module uses.  [Model_ c] is a field whose type is
    another class of the module.  A class statement is its name, the
    annotated attributes of its body, the field validators it registers and
    the [model_config] it assigns, if it assigns one. *)
Inductive annotation : Type :=
| int_
| str_
| bool_
| Any_
| datetime_
| Literal_ (s : string)
| list_ (item : annotation)
| Optional_ (a : annotation)
| Model_ (c : ClassDef)
with ClassDef : Type :=
| class_ (name : string)
         (body : list attribute)
         (validators : list (string * (pyobj -> result pyobj)))
         (config : option ConfigDict)
with attribute : Type :=
| attr (name : string) (ann : annotation) (default : option pyobj).

Definition cls_name (c : ClassDef) : string :=
  match c with class_ n _ _ _ => n end.
Definition cls_body (c : ClassDef) : list attribute :=
  match c with class_ _ b _ _ => b end.
Definition cls_validators (c : ClassDef)
  : list (string * (pyobj -> result pyobj)) :=
  match c with class_ _ _ v _ => v end.
Definition cls_config (c : ClassDef) : option ConfigDict :=
  match c with class_ _ _ _ g => g end.
Definition attr_name (a : attribute) : string :=
  match a with attr n _ _ => n end.
Definition attr_ann (a : attribute) : annotation :=
  match a with attr _ t _ => t end.
Definition attr_default (a : attribute) : option pyobj :=
  match a with attr _ _ d => d end.

(** A required attribute [name: ann] and one with a default [name: ann = d]. *)
Notation "n ':::' t" := (attr n t None) (at level 60, no associativity).
Notation "n ':::' t ':=' d" := (attr n t (Some d))
  (at level 60, t at next level, no associativity).

(** ** The part of pydantic the module relies on *)

(** An annotated name with a leading underscore is a private attribute, not
    a field: it is neither validated nor taken from the keyword arguments. *)
Definition is_private_name (n : string) : bool :=
  match n with
  | String c _ => Ascii.eqb c "_"
  | EmptyString => false
  end.

Definition model_fields (c : ClassDef) : list attribute :=
  filter (fun a => negb (is_private_name (attr_name a))) (cls_body c).

Definition private_attributes (c : ClassDef) : list attribute :=
  filter (fun a => is_private_name (attr_name a)) (cls_body c).

Definition field_names (c : ClassDef) : list string :=
  map attr_name (model_fields c).

(** The configuration of a class: what its body assigns to [model_config],
    else pydantic's defaults. *)
Definition default_config : ConfigDict :=
  {| frozen := false; validate_assignment := false; extra_forbid := false |}.

Definition model_config (c : ClassDef) : ConfigDict :=
  match cls_config c with
  | Some g => g
  | None => default_config
  end.

Definition fail (t : error_type) (input : pyobj) : result pyobj :=
  Raise (ValidationError
    [{| err_type := t; err_loc := []; err_input := input |}]).

Definition under (l : loc_item) (e : ErrorDetails) : ErrorDetails :=
  {| err_type := err_type e; err_loc := l :: err_loc e;
     err_input := err_input e |}.

(** Run a validation step, catching a validation error so that the other
    steps still run; any other exception escapes. *)
Definition attempt {A} (m : result A) : result (A + list ErrorDetails) :=
  match m with
  | Return a => Return (inl a)
  | Raise (ValidationError es) => Return (inr es)
  | Raise e => Raise e
  end.

(** The values gathered so far, or the error lines when there are any. *)
Definition finish {A} (r : A * list ErrorDetails) (build : A -> pyobj)
  : result pyobj :=
  match r with
  | (a, []) => Return (build a)
  | (_, es) => Raise (ValidationError es)
  end.

(** Validate every item of a list, keeping all errors under their index. *)
Fixpoint validate_items (f : pyobj -> result pyobj) (i : nat)
    (l : list pyobj) : result (list pyobj * list ErrorDetails) :=
  match l with
  | [] => Return ([], [])
  | v :: l' =>
      r <- attempt (f v) ;;
      rest <- validate_items f (S i) l' ;;
      Return (match r with
              | inl v' => (v' :: fst rest, snd rest)
              | inr e => (fst rest, map (under (at_index i)) e ++ snd rest)
              end)
  end.

(** The field validators registered for a field run in declaration order on
    the value the annotation accepted; a [ValueError] becomes an error line
    of the field, which reports the [input] the field was given. *)
Fixpoint run_validators (name : string)
    (vs : list (string * (pyobj -> result pyobj))) (input v : pyobj)
  : result pyobj :=
  match vs with
  | [] => Return v
  | (n, f) :: vs' =>
      if String.eqb n name then
        match f v with
        | Return v' => run_validators name vs' input v'
        | Raise (ValueError msg) => fail (value_error msg) input
        | Raise e => Raise e
        end
      else run_validators name vs' input v
  end.

(** One field of a class against a dictionary: the field takes its value
    from the dictionary, else its default; a required field that is absent
    is an error line. *)
Definition field_value (f : annotation -> pyobj -> result pyobj)
    (vs : list (string * (pyobj -> result pyobj)))
    (data : list (string * pyobj)) (a : attribute)
  : result (pyobj + list ErrorDetails) :=
  match a with
  | attr name ann default =>
      match dict_get name data with
      | Some v => attempt (v' <- f ann v ;; run_validators name vs v v')
      | None =>
          match default with
          | Some d => Return (inl d)
          | None =>
              Return (inr [{| err_type := missing; err_loc := [];
                              err_input := PyDict data |}])
          end
      end
  end.

Definition push (name : string) (r : pyobj + list ErrorDetails)
    (rest : list (string * pyobj) * list ErrorDetails)
  : list (string * pyobj) * list ErrorDetails :=
  match r with
  | inl v => ((name, v) :: fst rest, snd rest)
  | inr e => (fst rest, map (under (at_field name)) e ++ snd rest)
  end.

(** Validate the fields of a class against a dictionary.  All fields are
    tried, in declaration order, and all error lines kept.  Keys of the
    dictionary that name no field are ignored, and so are the private
    attributes of the class body. *)
Fixpoint validate_fields (f : annotation -> pyobj -> result pyobj)
    (vs : list (string * (pyobj -> result pyobj)))
    (data : list (string * pyobj)) (body : list attribute)
  : result (list (string * pyobj) * list ErrorDetails) :=
  match body with
  | [] => Return ([], [])
  | a :: body' =>
      if is_private_name (attr_name a) then validate_fields f vs data body'
      else
        r <- field_value f vs data a ;;
        rest <- validate_fields f vs data body' ;;
        Return (push (attr_name a) r rest)
  end.

(** Validation of a value against an annotation when no conversion between
    types applies: an [int] for [int], a [str] for [str], and any other
    input takes the error branch.  This is [validate_with] below at
    [no_conversion]; it is what a call with arguments of the annotated
    types meets.  An instance of the annotated class is accepted as it
    is. *)
Fixpoint validate (a : annotation) (v : pyobj) {struct a} : result pyobj :=
  match a with
  | int_ => match v with PyInt _ => Return v | _ => fail int_type v end
  | str_ => match v with PyStr _ => Return v | _ => fail string_type v end
  | bool_ => match v with PyBool _ => Return v | _ => fail bool_type v end
  | Any_ => Return v
  | datetime_ =>
      match v with PyDatetime _ => Return v | _ => fail datetime_type v end
  | Literal_ s =>
      match v with
      | PyStr s' => if String.eqb s' s then Return v else fail literal_error v
      | _ => fail literal_error v
      end
  | list_ item =>
      match v with
      | PyList l =>
          r <- validate_items (validate item) 0 l ;; finish r PyList
      | _ => fail list_type v
      end
  | Optional_ a' =>
      match v with PyNone => Return PyNone | _ => validate a' v end
  | Model_ c =>
      match c with
      | class_ name body validators _ =>
          match v with
          | PyObject cls _ =>
              if String.eqb cls name then Return v else fail model_type v
          | PyDict data =>
              r <- validate_fields (fun t => validate t) validators data body ;;
              finish r (PyObject name)
          | _ => fail model_type v
          end
      end
  end.

(** Calling the class with keyword arguments of the annotated types: they
    are validated against the class; the instance is built when no field
    reports an error. *)
Definition BaseModel_init (c : ClassDef) (kwargs : list (string * pyobj))
  : result pyobj :=
  validate (Model_ c) (PyDict kwargs).

(** Pydantic's conversions.  In its default mode pydantic converts some
    inputs of another type to the annotated one (a [bool] or a numeric
    string given for an [int], for instance) and refuses the others with an
    error line.  Which inputs convert, and to what, is pydantic's: the
    conversions are a parameter, one function for each scalar type and one
    for the lists, and what is proved with them holds whatever they are. *)
Record Conversions : Type := {
  to_int : pyobj -> Z + error_type;
  to_str : pyobj -> string + error_type;
  to_bool : pyobj -> bool + error_type;
  to_datetime : pyobj -> Z + error_type;
  to_list : pyobj -> list pyobj + error_type
}.

Definition no_conversion : Conversions :=
  {| to_int := fun _ => inr int_type;
     to_str := fun _ => inr string_type;
     to_bool := fun _ => inr bool_type;
     to_datetime := fun _ => inr datetime_type;
     to_list := fun _ => inr list_type |}.

Definition converted {A} (r : A + error_type) (build : A -> pyobj)
    (v : pyobj) : result pyobj :=
  match r with
  | inl a => Return (build a)
  | inr t => fail t v
  end.

(** Validation of any value against an annotation.  A value of the
    annotated type is accepted as it is; another one is converted, or
    refused, as the conversions say.  The items of a list, the fields of a
    dictionary given for a model, and the field validators see the
    converted values. *)
Fixpoint validate_with (conv : Conversions) (a : annotation) (v : pyobj)
    {struct a} : result pyobj :=
  match a with
  | int_ =>
      match v with
      | PyInt _ => Return v
      | _ => converted (to_int conv v) PyInt v
      end
  | str_ =>
      match v with
      | PyStr _ => Return v
      | _ => converted (to_str conv v) PyStr v
      end
  | bool_ =>
      match v with
      | PyBool _ => Return v
      | _ => converted (to_bool conv v) PyBool v
      end
  | Any_ => Return v
  | datetime_ =>
      match v with
      | PyDatetime _ => Return v
      | _ => converted (to_datetime conv v) PyDatetime v
      end
  | Literal_ s =>
      match v with
      | PyStr s' => if String.eqb s' s then Return v else fail literal_error v
      | _ => fail literal_error v
      end
  | list_ item =>
      match (match v with PyList l => inl l | _ => to_list conv v end) with
      | inl l =>
          r <- validate_items (validate_with conv item) 0 l ;; finish r PyList
      | inr t => fail t v
      end
  | Optional_ a' =>
      match v with PyNone => Return PyNone | _ => validate_with conv a' v end
  | Model_ c =>
      match c with
      | class_ name body validators _ =>
          match v with
          | PyObject cls _ =>
              if String.eqb cls name then Return v else fail model_type v
          | PyDict data =>
              r <- validate_fields (fun t => validate_with conv t) validators
                     data body ;;
              finish r (PyObject name)
          | _ => fail model_type v
          end
      end
  end.

(** Calling the class with any keyword arguments. *)
Definition BaseModel_init_with (conv : Conversions) (c : ClassDef)
    (kwargs : list (string * pyobj)) : result pyobj :=
  validate_with conv (Model_ c) (PyDict kwargs).

(** Attribute access on an instance: the instance dictionary. *)
Definition getattr (o : pyobj) (name : string) : option pyobj :=
  match o with
  | PyObject _ d => dict_get name d
  | _ => None
  end.

(** Assignment to an attribute of an instance of [c]; [None] is the
    assignment refused with an exception.  A name with a leading
    underscore is not a field: be it a private attribute of the class or
    not, the value is stored on the instance as it is, and [frozen] is not
    consulted.  (Pydantic keeps the private attributes in a dictionary of
    their own; here the instance has one dictionary for all it holds.)
    For the other names a frozen model refuses the assignment;
    with [validate_assignment] the value is validated as the field's, with
    the field validators, and the validated value stored; otherwise a field
    is stored as given, and a name that is no field is refused. *)
Definition BaseModel_setattr_with (conv : Conversions) (c : ClassDef)
    (o : pyobj) (name : string) (v : pyobj) : option pyobj :=
  match o with
  | PyObject cls d =>
      if is_private_name name then Some (PyObject cls (dict_set name v d))
      else if frozen (model_config c) then None
      else if validate_assignment (model_config c) then
        match find (fun a => String.eqb (attr_name a) name) (model_fields c)
        with
        | Some a =>
            match v' <- validate_with conv (attr_ann a) v ;;
                  run_validators name (cls_validators c) v v' with
            | Return v' => Some (PyObject cls (dict_set name v' d))
            | Raise _ => None
            end
        | None => None
        end
      else if existsb (String.eqb name) (field_names c)
      then Some (PyObject cls (dict_set name v d))
      else None
  | _ => None
  end.

(** The assignment when no conversion applies; for a class without
    [validate_assignment], as the classes of the module are, it is the
    assignment whatever the conversions. *)
Definition BaseModel_setattr (c : ClassDef) (o : pyobj) (name : string)
    (v : pyobj) : option pyobj :=
  BaseModel_setattr_with no_conversion c o name v.

(** Registering a validator for a field, and the typed view a validator
    has of its argument: by the time it runs the annotation has accepted
    the value, so an [int] field hands it an integer and a [list[int]]
    field a list of integers. *)
Definition field_validator (field : string) (f : pyobj -> result pyobj)
  : string * (pyobj -> result pyobj) := (field, f).

Definition on_int (f : Z -> result Z) (v : pyobj) : result pyobj :=
  match v with
  | PyInt z => z' <- f z ;; Return (PyInt z')
  | _ => Raise (TypeError "int expected")
  end.

Fixpoint as_ints (l : list pyobj) : option (list Z) :=
  match l with
  | [] => Some []
  | PyInt z :: l' =>
      match as_ints l' with Some zs => Some (z :: zs) | None => None end
  | _ => None
  end.

Definition on_int_list (f : list Z -> result (list Z)) (v : pyobj)
  : result pyobj :=
  match v with
  | PyList l =>
      match as_ints l with
      | Some zs => zs' <- f zs ;; Return (PyList (map PyInt zs'))
      | None => Raise (TypeError "list of int expected")
      end
  | _ => Raise (TypeError "list expected")
  end.

(** ** The snapshot models *)

Definition len {A} (l : list A) : Z := Z.of_nat (List.length l).

(** [v in (a, b, c)] on integers. *)
Definition py_in (v : Z) (t : list Z) : bool := existsb (Z.eqb v) t.

Definition validate_bitness (v : Z) : result Z :=
  if negb (py_in v [0; 1; 2]) then
    Raise (ValueError "bitness must be 0 (16bit), 1 (32bit), or 2 (64bit)")
  else Return v.

Definition validate_defsr_length (v : list Z) : result (list Z) :=
  if negb (len v =? 16) then
    raise_got "defsr must have exactly 16 elements, got " (len v)
  else Return v.

Definition validate_align (v : Z) : result Z :=
  if negb ((0 <=? v) && (v <=? 255)) then
    raise_got "align must be in range 0-255, got " v
  else Return v.

Definition validate_comb (v : Z) : result Z :=
  if negb ((0 <=? v) && (v <=? 255)) then
    raise_got "comb must be in range 0-255, got " v
  else Return v.

Definition validate_perm (v : Z) : result Z :=
  if negb ((0 <=? v) && (v <=? 255)) then
    raise_got "perm must be in range 0-255, got " v
  else Return v.

Definition validate_type (v : Z) : result Z :=
  if negb ((0 <=? v) && (v <=? 255)) then
    raise_got "type must be in range 0-255, got " v
  else Return v.

Definition validate_flags (v : Z) : result Z :=
  if negb ((0 <=? v) && (v <=? 65535)) then
    raise_got "flags must be in range 0-65535, got " v
  else Return v.

Definition FuncModel : ClassDef :=
  class_ "FuncModel"
    [ "start_ea" ::: int_;
      "end_ea" ::: int_;
      "flags" ::: int_;
      "frame" ::: int_;
      "frsize" ::: int_;
      "frregs" ::: int_;
      "argsize" ::: int_;
      "fpd" ::: int_;
      "color" ::: int_;
      "pntqty" ::: int_;
      "regvarqty" ::: int_;
      "regargqty" ::: int_;
      "tailqty" ::: int_;
      "owner" ::: int_;
      "refqty" ::: int_;
      "name" ::: Optional_ str_ := PyNone ]
    []
    None.

Definition OpModel : ClassDef :=
  class_ "OpModel"
    [ "n" ::: int_;
      "type" ::: int_;
      "offb" ::: int_;
      "offo" ::: int_;
      "flags" ::: int_;
      "dtype" ::: int_;
      "reg" ::: int_;
      "phrase" ::: int_;
      "value" ::: int_;
      "addr" ::: int_;
      "specval" ::: int_;
      "specflag1" ::: int_;
      "specflag2" ::: int_;
      "specflag3" ::: int_;
      "specflag4" ::: int_ ]
    []
    None.

Definition InsnModel : ClassDef :=
  class_ "InsnModel"
    [ "cs" ::: int_;
      "ip" ::: int_;
      "ea" ::: int_;
      "itype" ::: int_;
      "size" ::: int_;
      "auxpref" ::: int_;
      "auxpref_u16" ::: list_ int_;
      "auxpref_u8" ::: list_ int_;
      "segpref" ::: int_;
      "insnpref" ::: int_;
      "flags" ::: int_;
      "ops" ::: list_ (Model_ OpModel) ]
    []
    None.

Definition SegmentModel : ClassDef :=
  class_ "SegmentModel"
    [ "start_ea" ::: int_;
      "end_ea" ::: int_;
      "name" ::: int_;
      "sclass" ::: int_;
      "orgbase" ::: int_;
      "align" ::: int_;
      "comb" ::: int_;
      "perm" ::: int_;
      "bitness" ::: int_;
      "flags" ::: int_;
      "sel" ::: int_;
      "defsr" ::: list_ int_;
      "type" ::: int_;
      "color" ::: int_;
      "segment_name" ::: Optional_ str_ := PyNone;
      "segment_class" ::: Optional_ str_ := PyNone ]
    [ field_validator "bitness" (on_int validate_bitness);
      field_validator "defsr" (on_int_list validate_defsr_length);
      field_validator "align" (on_int validate_align);
      field_validator "comb" (on_int validate_comb);
      field_validator "perm" (on_int validate_perm);
      field_validator "type" (on_int validate_type);
      field_validator "flags" (on_int validate_flags) ]
    None.

Definition RangeModel : ClassDef :=
  class_ "RangeModel"
    [ "start_ea" ::: int_;
      "end_ea" ::: int_ ]
    []
    None.

Definition UdmModel : ClassDef :=
  class_ "UdmModel"
    [ "offset" ::: int_;
      "size" ::: int_;
      "name" ::: str_;
      "cmt" ::: str_;
      "tid" ::: int_;
      "repr" ::: str_;
      "effalign" ::: int_;
      "tafld_bits" ::: int_;
      "fda" ::: int_ ]
    []
    None.

Definition EdmModel : ClassDef :=
  class_ "EdmModel"
    [ "name" ::: str_;
      "comment" ::: str_;
      "value" ::: int_;
      "tid" ::: int_ ]
    []
    None.

(** ** Host structures

    The structures of the host's Python modules that the converters read.
    They belong to the host; only the attributes read here are listed.
    The operand array and the default-register array are host arrays,
    read by index. *)
Module ida_ua.
Record op_t : Type := {
  op_n : Z; op_type : Z; op_offb : Z; op_offo : Z; op_flags : Z;
  op_dtype : Z; op_reg : Z; op_phrase : Z; op_value : Z; op_addr : Z;
  op_specval : Z; op_specflag1 : Z; op_specflag2 : Z; op_specflag3 : Z;
  op_specflag4 : Z
}.

Record insn_t : Type := {
  insn_cs : Z; insn_ip : Z; insn_ea : Z; insn_itype : Z; insn_size : Z;
  insn_auxpref : Z; insn_auxpref_u16 : list Z; insn_auxpref_u8 : list Z;
  insn_segpref : Z; insn_insnpref : Z; insn_flags : Z;
  insn_ops : list op_t
}.
End ida_ua.

Module ida_segment.
Record segment_t : Type := {
  seg_start_ea : Z; seg_end_ea : Z; seg_name : Z; seg_sclass : Z;
  seg_orgbase : Z; seg_align : Z; seg_comb : Z; seg_perm : Z;
  seg_bitness : Z; seg_flags : Z; seg_sel : Z; seg_defsr : list Z;
  seg_type : Z; seg_color : Z;
  (* what the host's get_segm_name and get_segm_class answer for it *)
  get_segm_name : string;
  get_segm_class : string
}.
End ida_segment.

(** [a[i]] on a host array and [range(n)]. *)
Definition getitem {A} (a : list A) (i : nat) : result A :=
  match nth_error a i with
  | Some x => Return x
  | None => Raise (IndexError "index out of range")
  end.

Definition range (n : nat) : list nat := seq 0 n.

(** ** Converters *)

Definition from_op_t (op : ida_ua.op_t) : result pyobj :=
  BaseModel_init OpModel
    [ ("n", PyInt (ida_ua.op_n op));
      ("type", PyInt (ida_ua.op_type op));
      ("offb", PyInt (ida_ua.op_offb op));
      ("offo", PyInt (ida_ua.op_offo op));
      ("flags", PyInt (ida_ua.op_flags op));
      ("dtype", PyInt (ida_ua.op_dtype op));
      ("reg", PyInt (ida_ua.op_reg op));
      ("phrase", PyInt (ida_ua.op_phrase op));
      ("value", PyInt (ida_ua.op_value op));
      ("addr", PyInt (ida_ua.op_addr op));
      ("specval", PyInt (ida_ua.op_specval op));
      ("specflag1", PyInt (ida_ua.op_specflag1 op));
      ("specflag2", PyInt (ida_ua.op_specflag2 op));
      ("specflag3", PyInt (ida_ua.op_specflag3 op));
      ("specflag4", PyInt (ida_ua.op_specflag4 op)) ].

Definition from_insn_t (insn : ida_ua.insn_t) : result pyobj :=
  ops <- mapM (fun i => op <- getitem (ida_ua.insn_ops insn) i ;;
                        from_op_t op) (range 8) ;;
  BaseModel_init InsnModel
    [ ("cs", PyInt (ida_ua.insn_cs insn));
      ("ip", PyInt (ida_ua.insn_ip insn));
      ("ea", PyInt (ida_ua.insn_ea insn));
      ("itype", PyInt (ida_ua.insn_itype insn));
      ("size", PyInt (ida_ua.insn_size insn));
      ("auxpref", PyInt (ida_ua.insn_auxpref insn));
      ("auxpref_u16", PyList (map PyInt (ida_ua.insn_auxpref_u16 insn)));
      ("auxpref_u8", PyList (map PyInt (ida_ua.insn_auxpref_u8 insn)));
      ("segpref", PyInt (ida_ua.insn_segpref insn));
      ("insnpref", PyInt (ida_ua.insn_insnpref insn));
      ("flags", PyInt (ida_ua.insn_flags insn));
      ("ops", PyList ops) ].

(** The segment reference is a live host object, hence true in the two
    conditional expressions that read its name and class. *)
Definition from_segment_t (segment : ida_segment.segment_t) : result pyobj :=
  defsr_list <- mapM (fun i => getitem (ida_segment.seg_defsr segment) i)
                     (range 16) ;;
  BaseModel_init SegmentModel
    [ ("start_ea", PyInt (ida_segment.seg_start_ea segment));
      ("end_ea", PyInt (ida_segment.seg_end_ea segment));
      ("name", PyInt (ida_segment.seg_name segment));
      ("sclass", PyInt (ida_segment.seg_sclass segment));
      ("orgbase", PyInt (ida_segment.seg_orgbase segment));
      ("align", PyInt (ida_segment.seg_align segment));
      ("comb", PyInt (ida_segment.seg_comb segment));
      ("perm", PyInt (ida_segment.seg_perm segment));
      ("bitness", PyInt (ida_segment.seg_bitness segment));
      ("flags", PyInt (ida_segment.seg_flags segment));
      ("sel", PyInt (ida_segment.seg_sel segment));
      ("defsr", PyList (map PyInt defsr_list));
      ("type", PyInt (ida_segment.seg_type segment));
      ("color", PyInt (ida_segment.seg_color segment));
      ("segment_name", PyStr (ida_segment.get_segm_name segment));
      ("segment_class", PyStr (ida_segment.get_segm_class segment)) ].

(** ** The event classes *)

Definition adding_segm_event : ClassDef :=
  class_ "adding_segm_event"
    [ "event_name" ::: Literal_ "adding_segm";
      "timestamp" ::: datetime_;
      "s" ::: Model_ SegmentModel ]
    []
    None.

Definition segm_added_event : ClassDef :=
  class_ "segm_added_event"
    [ "event_name" ::: Literal_ "segm_added";
      "timestamp" ::: datetime_;
      "s" ::: Model_ SegmentModel ]
    []
    None.

Definition deleting_segm_event : ClassDef :=
  class_ "deleting_segm_event"
    [ "event_name" ::: Literal_ "deleting_segm";
      "timestamp" ::: datetime_;
      "start_ea" ::: int_ ]
    []
    None.

Definition segm_deleted_event : ClassDef :=
  class_ "segm_deleted_event"
    [ "event_name" ::: Literal_ "segm_deleted";
      "timestamp" ::: datetime_;
      "start_ea" ::: int_;
      "end_ea" ::: int_;
      "flags" ::: int_ ]
    []
    None.

Definition changing_segm_start_event : ClassDef :=
  class_ "changing_segm_start_event"
    [ "event_name" ::: Literal_ "changing_segm_start";
      "timestamp" ::: datetime_;
      "s" ::: Model_ SegmentModel;
      "new_start" ::: int_;
      "segmod_flags" ::: int_ ]
    []
    None.

Definition segm_start_changed_event : ClassDef :=
  class_ "segm_start_changed_event"
    [ "event_name" ::: Literal_ "segm_start_changed";
      "timestamp" ::: datetime_;
      "s" ::: Model_ SegmentModel;
      "oldstart" ::: int_ ]
    []
    None.

Definition changing_segm_end_event : ClassDef :=
  class_ "changing_segm_end_event"
    [ "event_name" ::: Literal_ "changing_segm_end";
      "timestamp" ::: datetime_;
      "s" ::: Model_ SegmentModel;
      "new_end" ::: int_;
      "segmod_flags" ::: int_ ]
    []
    None.

Definition segm_end_changed_event : ClassDef :=
  class_ "segm_end_changed_event"
    [ "event_name" ::: Literal_ "segm_end_changed";
      "timestamp" ::: datetime_;
      "s" ::: Model_ SegmentModel;
      "oldend" ::: int_ ]
    []
    None.

Definition changing_segm_name_event : ClassDef :=
  class_ "changing_segm_name_event"
    [ "event_name" ::: Literal_ "changing_segm_name";
      "timestamp" ::: datetime_;
      "s" ::: Model_ SegmentModel;
      "oldname" ::: str_ ]
    []
    None.

Definition segm_name_changed_event : ClassDef :=
  class_ "segm_name_changed_event"
    [ "event_name" ::: Literal_ "segm_name_changed";
      "timestamp" ::: datetime_;
      "s" ::: Model_ SegmentModel;
      "name" ::: str_ ]
    []
    None.

Definition changing_segm_class_event : ClassDef :=
  class_ "changing_segm_class_event"
    [ "event_name" ::: Literal_ "changing_segm_class";
      "timestamp" ::: datetime_;
      "s" ::: Model_ SegmentModel ]
    []
    None.

Definition segm_class_changed_event : ClassDef :=
  class_ "segm_class_changed_event"
    [ "event_name" ::: Literal_ "segm_class_changed";
      "timestamp" ::: datetime_;
      "s" ::: Model_ SegmentModel;
      "sclass" ::: str_ ]
    []
    None.

Definition segm_attrs_updated_event : ClassDef :=
  class_ "segm_attrs_updated_event"
    [ "event_name" ::: Literal_ "segm_attrs_updated";
      "timestamp" ::: datetime_;
      "s" ::: Model_ SegmentModel ]
    []
    None.

Definition segm_moved_event : ClassDef :=
  class_ "segm_moved_event"
    [ "event_name" ::: Literal_ "segm_moved";
      "timestamp" ::: datetime_;
      "_from" ::: int_;
      "to" ::: int_;
      "size" ::: int_;
      "changed_netmap" ::: bool_ ]
    []
    None.

Definition allsegs_moved_event : ClassDef :=
  class_ "allsegs_moved_event"
    [ "event_name" ::: Literal_ "allsegs_moved";
      "timestamp" ::: datetime_;
      "info" ::: Any_ ]
    []
    None.

Definition func_added_event : ClassDef :=
  class_ "func_added_event"
    [ "event_name" ::: Literal_ "func_added";
      "timestamp" ::: datetime_;
      "pfn" ::: Model_ FuncModel ]
    []
    None.

Definition func_updated_event : ClassDef :=
  class_ "func_updated_event"
    [ "event_name" ::: Literal_ "func_updated";
      "timestamp" ::: datetime_;
      "pfn" ::: Model_ FuncModel ]
    []
    None.

Definition set_func_start_event : ClassDef :=
  class_ "set_func_start_event"
    [ "event_name" ::: Literal_ "set_func_start";
      "timestamp" ::: datetime_;
      "pfn" ::: Model_ FuncModel;
      "new_start" ::: int_ ]
    []
    None.

Definition set_func_end_event : ClassDef :=
  class_ "set_func_end_event"
    [ "event_name" ::: Literal_ "set_func_end";
      "timestamp" ::: datetime_;
      "pfn" ::: Model_ FuncModel;
      "new_end" ::: int_ ]
    []
    None.

Definition deleting_func_event : ClassDef :=
  class_ "deleting_func_event"
    [ "event_name" ::: Literal_ "deleting_func";
      "timestamp" ::: datetime_;
      "pfn" ::: Model_ FuncModel ]
    []
    None.

Definition func_deleted_event : ClassDef :=
  class_ "func_deleted_event"
    [ "event_name" ::: Literal_ "func_deleted";
      "timestamp" ::: datetime_;
      "func_ea" ::: int_ ]
    []
    None.

Definition thunk_func_created_event : ClassDef :=
  class_ "thunk_func_created_event"
    [ "event_name" ::: Literal_ "thunk_func_created";
      "timestamp" ::: datetime_;
      "pfn" ::: Model_ FuncModel ]
    []
    None.

Definition func_tail_appended_event : ClassDef :=
  class_ "func_tail_appended_event"
    [ "event_name" ::: Literal_ "func_tail_appended";
      "timestamp" ::: datetime_;
      "pfn" ::: Model_ FuncModel;
      "tail" ::: Model_ FuncModel ]
    []
    None.

Definition deleting_func_tail_event : ClassDef :=
  class_ "deleting_func_tail_event"
    [ "event_name" ::: Literal_ "deleting_func_tail";
      "timestamp" ::: datetime_;
      "pfn" ::: Model_ FuncModel;
      "tail" ::: Model_ RangeModel ]
    []
    None.

Definition func_tail_deleted_event : ClassDef :=
  class_ "func_tail_deleted_event"
    [ "event_name" ::: Literal_ "func_tail_deleted";
      "timestamp" ::: datetime_;
      "pfn" ::: Model_ FuncModel;
      "tail_ea" ::: int_ ]
    []
    None.

Definition tail_owner_changed_event : ClassDef :=
  class_ "tail_owner_changed_event"
    [ "event_name" ::: Literal_ "tail_owner_changed";
      "timestamp" ::: datetime_;
      "tail" ::: Model_ FuncModel;
      "owner_func" ::: int_;
      "old_owner" ::: int_ ]
    []
    None.

Definition func_noret_changed_event : ClassDef :=
  class_ "func_noret_changed_event"
    [ "event_name" ::: Literal_ "func_noret_changed";
      "timestamp" ::: datetime_;
      "pfn" ::: Model_ FuncModel ]
    []
    None.

Definition updating_tryblks_event : ClassDef :=
  class_ "updating_tryblks_event"
    [ "event_name" ::: Literal_ "updating_tryblks";
      "timestamp" ::: datetime_;
      "tbv" ::: Any_ ]
    []
    None.

Definition tryblks_updated_event : ClassDef :=
  class_ "tryblks_updated_event"
    [ "event_name" ::: Literal_ "tryblks_updated";
      "timestamp" ::: datetime_;
      "tbv" ::: Any_ ]
    []
    None.

Definition deleting_tryblks_event : ClassDef :=
  class_ "deleting_tryblks_event"
    [ "event_name" ::: Literal_ "deleting_tryblks";
      "timestamp" ::: datetime_;
      "range" ::: Model_ RangeModel ]
    []
    None.

Definition changing_cmt_event : ClassDef :=
  class_ "changing_cmt_event"
    [ "event_name" ::: Literal_ "changing_cmt";
      "timestamp" ::: datetime_;
      "ea" ::: int_;
      "repeatable_cmt" ::: bool_;
      "newcmt" ::: str_ ]
    []
    None.

Definition cmt_changed_event : ClassDef :=
  class_ "cmt_changed_event"
    [ "event_name" ::: Literal_ "cmt_changed";
      "timestamp" ::: datetime_;
      "ea" ::: int_;
      "repeatable_cmt" ::: bool_ ]
    []
    None.

Definition changing_range_cmt_event : ClassDef :=
  class_ "changing_range_cmt_event"
    [ "event_name" ::: Literal_ "changing_range_cmt";
      "timestamp" ::: datetime_;
      "kind" ::: Any_;
      "a" ::: Model_ RangeModel;
      "cmt" ::: str_;
      "repeatable" ::: bool_ ]
    []
    None.

Definition range_cmt_changed_event : ClassDef :=
  class_ "range_cmt_changed_event"
    [ "event_name" ::: Literal_ "range_cmt_changed";
      "timestamp" ::: datetime_;
      "kind" ::: Any_;
      "a" ::: Model_ RangeModel;
      "cmt" ::: str_;
      "repeatable" ::: bool_ ]
    []
    None.

Definition extra_cmt_changed_event : ClassDef :=
  class_ "extra_cmt_changed_event"
    [ "event_name" ::: Literal_ "extra_cmt_changed";
      "timestamp" ::: datetime_;
      "ea" ::: int_;
      "line_idx" ::: int_;
      "cmt" ::: str_ ]
    []
    None.

Definition sgr_changed_event : ClassDef :=
  class_ "sgr_changed_event"
    [ "event_name" ::: Literal_ "sgr_changed";
      "timestamp" ::: datetime_;
      "start_ea" ::: int_;
      "end_ea" ::: int_;
      "regnum" ::: int_;
      "value" ::: Any_;
      "old_value" ::: Any_;
      "tag" ::: int_ ]
    []
    None.

Definition sgr_deleted_event : ClassDef :=
  class_ "sgr_deleted_event"
    [ "event_name" ::: Literal_ "sgr_deleted";
      "timestamp" ::: datetime_;
      "start_ea" ::: int_;
      "end_ea" ::: int_;
      "regnum" ::: int_ ]
    []
    None.

Definition make_code_event : ClassDef :=
  class_ "make_code_event"
    [ "event_name" ::: Literal_ "make_code";
      "timestamp" ::: datetime_;
      "insn" ::: Model_ InsnModel ]
    []
    None.

Definition make_data_event : ClassDef :=
  class_ "make_data_event"
    [ "event_name" ::: Literal_ "make_data";
      "timestamp" ::: datetime_;
      "ea" ::: int_;
      "flags" ::: int_;
      "tid" ::: int_;
      "len" ::: int_ ]
    []
    None.

Definition destroyed_items_event : ClassDef :=
  class_ "destroyed_items_event"
    [ "event_name" ::: Literal_ "destroyed_items";
      "timestamp" ::: datetime_;
      "ea1" ::: int_;
      "ea2" ::: int_;
      "will_disable_range" ::: bool_ ]
    []
    None.

Definition renamed_event : ClassDef :=
  class_ "renamed_event"
    [ "event_name" ::: Literal_ "renamed";
      "timestamp" ::: datetime_;
      "ea" ::: int_;
      "new_name" ::: str_;
      "local_name" ::: bool_;
      "old_name" ::: str_ ]
    []
    None.

Definition byte_patched_event : ClassDef :=
  class_ "byte_patched_event"
    [ "event_name" ::: Literal_ "byte_patched";
      "timestamp" ::: datetime_;
      "ea" ::: int_;
      "old_value" ::: int_ ]
    []
    None.

Definition item_color_changed_event : ClassDef :=
  class_ "item_color_changed_event"
    [ "event_name" ::: Literal_ "item_color_changed";
      "timestamp" ::: datetime_;
      "ea" ::: int_;
      "color" ::: Any_ ]
    []
    None.

Definition callee_addr_changed_event : ClassDef :=
  class_ "callee_addr_changed_event"
    [ "event_name" ::: Literal_ "callee_addr_changed";
      "timestamp" ::: datetime_;
      "ea" ::: int_;
      "callee" ::: int_ ]
    []
    None.

Definition bookmark_changed_event : ClassDef :=
  class_ "bookmark_changed_event"
    [ "event_name" ::: Literal_ "bookmark_changed";
      "timestamp" ::: datetime_;
      "index" ::: int_;
      "ea" ::: int_;
      "desc" ::: str_;
      "operation" ::: int_ ]
    []
    None.

Definition changing_op_type_event : ClassDef :=
  class_ "changing_op_type_event"
    [ "event_name" ::: Literal_ "changing_op_type";
      "timestamp" ::: datetime_;
      "ea" ::: int_;
      "n" ::: int_;
      "opinfo" ::: Any_ ]
    []
    None.

Definition op_type_changed_event : ClassDef :=
  class_ "op_type_changed_event"
    [ "event_name" ::: Literal_ "op_type_changed";
      "timestamp" ::: datetime_;
      "ea" ::: int_;
      "n" ::: int_ ]
    []
    None.

Definition dirtree_mkdir_event : ClassDef :=
  class_ "dirtree_mkdir_event"
    [ "event_name" ::: Literal_ "dirtree_mkdir";
      "timestamp" ::: datetime_;
      "path" ::: str_ ]
    []
    None.

Definition dirtree_rmdir_event : ClassDef :=
  class_ "dirtree_rmdir_event"
    [ "event_name" ::: Literal_ "dirtree_rmdir";
      "timestamp" ::: datetime_;
      "path" ::: str_ ]
    []
    None.

Definition dirtree_link_event : ClassDef :=
  class_ "dirtree_link_event"
    [ "event_name" ::: Literal_ "dirtree_link";
      "timestamp" ::: datetime_;
      "path" ::: str_;
      "link" ::: bool_ ]
    []
    None.

Definition dirtree_move_event : ClassDef :=
  class_ "dirtree_move_event"
    [ "event_name" ::: Literal_ "dirtree_move";
      "timestamp" ::: datetime_;
      "_from" ::: str_;
      "to" ::: str_ ]
    []
    None.

Definition dirtree_rank_event : ClassDef :=
  class_ "dirtree_rank_event"
    [ "event_name" ::: Literal_ "dirtree_rank";
      "timestamp" ::: datetime_;
      "path" ::: str_;
      "rank" ::: int_ ]
    []
    None.

Definition dirtree_rminode_event : ClassDef :=
  class_ "dirtree_rminode_event"
    [ "event_name" ::: Literal_ "dirtree_rminode";
      "timestamp" ::: datetime_;
      "inode" ::: int_ ]
    []
    None.

Definition dirtree_segm_moved_event : ClassDef :=
  class_ "dirtree_segm_moved_event"
    [ "event_name" ::: Literal_ "dirtree_segm_moved";
      "timestamp" ::: datetime_ ]
    []
    None.

Definition changing_ti_event : ClassDef :=
  class_ "changing_ti_event"
    [ "event_name" ::: Literal_ "changing_ti";
      "timestamp" ::: datetime_;
      "ea" ::: int_;
      "new_type" ::: Any_;
      "new_fnames" ::: Any_ ]
    []
    None.

Definition ti_changed_event : ClassDef :=
  class_ "ti_changed_event"
    [ "event_name" ::: Literal_ "ti_changed";
      "timestamp" ::: datetime_;
      "ea" ::: int_;
      "type" ::: Any_;
      "fnames" ::: Any_ ]
    []
    None.

Definition changing_op_ti_event : ClassDef :=
  class_ "changing_op_ti_event"
    [ "event_name" ::: Literal_ "changing_op_ti";
      "timestamp" ::: datetime_;
      "ea" ::: int_;
      "n" ::: int_;
      "new_type" ::: Any_;
      "new_fnames" ::: Any_ ]
    []
    None.

Definition op_ti_changed_event : ClassDef :=
  class_ "op_ti_changed_event"
    [ "event_name" ::: Literal_ "op_ti_changed";
      "timestamp" ::: datetime_;
      "ea" ::: int_;
      "n" ::: int_;
      "type" ::: Any_;
      "fnames" ::: Any_ ]
    []
    None.

Definition local_types_changed_event : ClassDef :=
  class_ "local_types_changed_event"
    [ "event_name" ::: Literal_ "local_types_changed";
      "timestamp" ::: datetime_;
      "ltc" ::: Any_;
      "ordinal" ::: int_;
      "name" ::: str_ ]
    []
    None.

Definition lt_udm_created_event : ClassDef :=
  class_ "lt_udm_created_event"
    [ "event_name" ::: Literal_ "lt_udm_created";
      "timestamp" ::: datetime_;
      "udtname" ::: str_;
      "udm" ::: Model_ UdmModel ]
    []
    None.

Definition lt_udm_deleted_event : ClassDef :=
  class_ "lt_udm_deleted_event"
    [ "event_name" ::: Literal_ "lt_udm_deleted";
      "timestamp" ::: datetime_;
      "udtname" ::: str_;
      "udm_tid" ::: int_;
      "udm" ::: Model_ UdmModel ]
    []
    None.

Definition lt_udm_renamed_event : ClassDef :=
  class_ "lt_udm_renamed_event"
    [ "event_name" ::: Literal_ "lt_udm_renamed";
      "timestamp" ::: datetime_;
      "udtname" ::: str_;
      "udm" ::: Model_ UdmModel;
      "oldname" ::: str_ ]
    []
    None.

Definition lt_udm_changed_event : ClassDef :=
  class_ "lt_udm_changed_event"
    [ "event_name" ::: Literal_ "lt_udm_changed";
      "timestamp" ::: datetime_;
      "udtname" ::: str_;
      "udm_tid" ::: int_;
      "udmold" ::: Model_ UdmModel;
      "udmnew" ::: Model_ UdmModel ]
    []
    None.

Definition lt_udt_expanded_event : ClassDef :=
  class_ "lt_udt_expanded_event"
    [ "event_name" ::: Literal_ "lt_udt_expanded";
      "timestamp" ::: datetime_;
      "udtname" ::: str_;
      "udm_tid" ::: int_;
      "delta" ::: int_ ]
    []
    None.

Definition lt_edm_created_event : ClassDef :=
  class_ "lt_edm_created_event"
    [ "event_name" ::: Literal_ "lt_edm_created";
      "timestamp" ::: datetime_;
      "enumname" ::: str_;
      "edm" ::: Model_ EdmModel ]
    []
    None.

Definition lt_edm_deleted_event : ClassDef :=
  class_ "lt_edm_deleted_event"
    [ "event_name" ::: Literal_ "lt_edm_deleted";
      "timestamp" ::: datetime_;
      "enumname" ::: str_;
      "edm_tid" ::: int_;
      "edm" ::: Model_ EdmModel ]
    []
    None.

Definition lt_edm_renamed_event : ClassDef :=
  class_ "lt_edm_renamed_event"
    [ "event_name" ::: Literal_ "lt_edm_renamed";
      "timestamp" ::: datetime_;
      "enumname" ::: str_;
      "edm" ::: Model_ EdmModel;
      "oldname" ::: str_ ]
    []
    None.

Definition lt_edm_changed_event : ClassDef :=
  class_ "lt_edm_changed_event"
    [ "event_name" ::: Literal_ "lt_edm_changed";
      "timestamp" ::: datetime_;
      "enumname" ::: str_;
      "edm_tid" ::: int_;
      "edmold" ::: Model_ EdmModel;
      "edmnew" ::: Model_ EdmModel ]
    []
    None.

Definition stkpnts_changed_event : ClassDef :=
  class_ "stkpnts_changed_event"
    [ "event_name" ::: Literal_ "stkpnts_changed";
      "timestamp" ::: datetime_;
      "pfn" ::: Model_ FuncModel ]
    []
    None.

Definition frame_created_event : ClassDef :=
  class_ "frame_created_event"
    [ "event_name" ::: Literal_ "frame_created";
      "timestamp" ::: datetime_;
      "func_ea" ::: int_ ]
    []
    None.

Definition frame_expanded_event : ClassDef :=
  class_ "frame_expanded_event"
    [ "event_name" ::: Literal_ "frame_expanded";
      "timestamp" ::: datetime_;
      "func_ea" ::: int_;
      "udm_tid" ::: int_;
      "delta" ::: int_ ]
    []
    None.

Definition frame_deleted_event : ClassDef :=
  class_ "frame_deleted_event"
    [ "event_name" ::: Literal_ "frame_deleted";
      "timestamp" ::: datetime_;
      "pfn" ::: Model_ FuncModel ]
    []
    None.

Definition frame_udm_created_event : ClassDef :=
  class_ "frame_udm_created_event"
    [ "event_name" ::: Literal_ "frame_udm_created";
      "timestamp" ::: datetime_;
      "func_ea" ::: int_;
      "udm" ::: Model_ UdmModel ]
    []
    None.

Definition frame_udm_deleted_event : ClassDef :=
  class_ "frame_udm_deleted_event"
    [ "event_name" ::: Literal_ "frame_udm_deleted";
      "timestamp" ::: datetime_;
      "func_ea" ::: int_;
      "udm_tid" ::: int_;
      "udm" ::: Model_ UdmModel ]
    []
    None.

Definition frame_udm_renamed_event : ClassDef :=
  class_ "frame_udm_renamed_event"
    [ "event_name" ::: Literal_ "frame_udm_renamed";
      "timestamp" ::: datetime_;
      "func_ea" ::: int_;
      "udm" ::: Model_ UdmModel;
      "oldname" ::: str_ ]
    []
    None.

Definition frame_udm_changed_event : ClassDef :=
  class_ "frame_udm_changed_event"
    [ "event_name" ::: Literal_ "frame_udm_changed";
      "timestamp" ::: datetime_;
      "func_ea" ::: int_;
      "udm_tid" ::: int_;
      "udmold" ::: Model_ UdmModel;
      "udmnew" ::: Model_ UdmModel ]
    []
    None.

Definition determined_main_event : ClassDef :=
  class_ "determined_main_event"
    [ "event_name" ::: Literal_ "determined_main";
      "timestamp" ::: datetime_;
      "main" ::: int_ ]
    []
    None.

Definition extlang_changed_event : ClassDef :=
  class_ "extlang_changed_event"
    [ "event_name" ::: Literal_ "extlang_changed";
      "timestamp" ::: datetime_;
      "kind" ::: int_;
      "el" ::: Any_;
      "idx" ::: int_ ]
    []
    None.

Definition idasgn_matched_ea_event : ClassDef :=
  class_ "idasgn_matched_ea_event"
    [ "event_name" ::: Literal_ "idasgn_matched_ea";
      "timestamp" ::: datetime_;
      "ea" ::: int_;
      "name" ::: str_;
      "lib_name" ::: str_ ]
    []
    None.

(** Every class statement of the module, in source order, and the union
    [idb_event], member by member as it is written. *)
Definition module_classes : list ClassDef :=
  [ FuncModel;
    OpModel;
    InsnModel;
    SegmentModel;
    RangeModel;
    UdmModel;
    EdmModel;
    adding_segm_event;
    segm_added_event;
    deleting_segm_event;
    segm_deleted_event;
    changing_segm_start_event;
    segm_start_changed_event;
    changing_segm_end_event;
    segm_end_changed_event;
    changing_segm_name_event;
    segm_name_changed_event;
    changing_segm_class_event;
    segm_class_changed_event;
    segm_attrs_updated_event;
    segm_moved_event;
    allsegs_moved_event;
    func_added_event;
    func_updated_event;
    set_func_start_event;
    set_func_end_event;
    deleting_func_event;
    func_deleted_event;
    thunk_func_created_event;
    func_tail_appended_event;
    deleting_func_tail_event;
    func_tail_deleted_event;
    tail_owner_changed_event;
    func_noret_changed_event;
    updating_tryblks_event;
    tryblks_updated_event;
    deleting_tryblks_event;
    changing_cmt_event;
    cmt_changed_event;
    changing_range_cmt_event;
    range_cmt_changed_event;
    extra_cmt_changed_event;
    sgr_changed_event;
    sgr_deleted_event;
    make_code_event;
    make_data_event;
    destroyed_items_event;
    renamed_event;
    byte_patched_event;
    item_color_changed_event;
    callee_addr_changed_event;
    bookmark_changed_event;
    changing_op_type_event;
    op_type_changed_event;
    dirtree_mkdir_event;
    dirtree_rmdir_event;
    dirtree_link_event;
    dirtree_move_event;
    dirtree_rank_event;
    dirtree_rminode_event;
    dirtree_segm_moved_event;
    changing_ti_event;
    ti_changed_event;
    changing_op_ti_event;
    op_ti_changed_event;
    local_types_changed_event;
    lt_udm_created_event;
    lt_udm_deleted_event;
    lt_udm_renamed_event;
    lt_udm_changed_event;
    lt_udt_expanded_event;
    lt_edm_created_event;
    lt_edm_deleted_event;
    lt_edm_renamed_event;
    lt_edm_changed_event;
    stkpnts_changed_event;
    frame_created_event;
    frame_expanded_event;
    frame_deleted_event;
    frame_udm_created_event;
    frame_udm_deleted_event;
    frame_udm_renamed_event;
    frame_udm_changed_event;
    determined_main_event;
    extlang_changed_event;
    idasgn_matched_ea_event ].

Definition idb_event : list ClassDef :=
  [ renamed_event;
    make_code_event;
    make_data_event;
    func_added_event;
    segm_added_event;
    segm_moved_event;
    ti_changed_event;
    adding_segm_event;
    changing_ti_event;
    cmt_changed_event;
    sgr_changed_event;
    sgr_deleted_event;
    byte_patched_event;
    changing_cmt_event;
    dirtree_link_event;
    dirtree_move_event;
    dirtree_rank_event;
    func_deleted_event;
    func_updated_event;
    segm_deleted_event;
    set_func_end_event;
    allsegs_moved_event;
    deleting_func_event;
    deleting_segm_event;
    dirtree_mkdir_event;
    dirtree_rmdir_event;
    frame_created_event;
    frame_deleted_event;
    op_ti_changed_event;
    changing_op_ti_event;
    frame_expanded_event;
    lt_edm_changed_event;
    lt_edm_created_event;
    lt_edm_deleted_event;
    lt_edm_renamed_event;
    lt_udm_changed_event;
    lt_udm_created_event;
    lt_udm_deleted_event;
    lt_udm_renamed_event;
    set_func_start_event;
    destroyed_items_event;
    determined_main_event;
    dirtree_rminode_event;
    extlang_changed_event;
    lt_udt_expanded_event;
    op_type_changed_event;
    stkpnts_changed_event;
    tryblks_updated_event;
    bookmark_changed_event;
    changing_op_type_event;
    deleting_tryblks_event;
    segm_end_changed_event;
    updating_tryblks_event;
    changing_segm_end_event;
    extra_cmt_changed_event;
    frame_udm_changed_event;
    frame_udm_created_event;
    frame_udm_deleted_event;
    frame_udm_renamed_event;
    func_tail_deleted_event;
    idasgn_matched_ea_event;
    range_cmt_changed_event;
    segm_name_changed_event;
    changing_range_cmt_event;
    changing_segm_name_event;
    deleting_func_tail_event;
    dirtree_segm_moved_event;
    func_noret_changed_event;
    func_tail_appended_event;
    item_color_changed_event;
    segm_attrs_updated_event;
    segm_class_changed_event;
    segm_start_changed_event;
    tail_owner_changed_event;
    thunk_func_created_event;
    callee_addr_changed_event;
    changing_segm_class_event;
    changing_segm_start_event;
    local_types_changed_event ].


(** ** Event classes and discriminants *)

Definition is_suffix (suffix s : string) : bool :=
  let n := String.length s in
  let m := String.length suffix in
  (m <=? n)%nat && String.eqb (substring (n - m) m s) suffix.

(** The event classes are the classes named [..._event]. *)
Definition is_event_class (c : ClassDef) : bool :=
  is_suffix "_event" (cls_name c).

(** The discriminant of an event class: the literal its [event_name]
    attribute is annotated with. *)
Definition event_name_literal (c : ClassDef) : option string :=
  match find (fun a => String.eqb (attr_name a) "event_name") (cls_body c) with
  | Some (attr _ (Literal_ s) _) => Some s
  | _ => None
  end.

Fixpoint distinct (l : list (option string)) : bool :=
  match l with
  | [] => true
  | x :: l' =>
      negb (existsb (fun y =>
              match x, y with
              | Some a, Some b => String.eqb a b
              | None, None => true
              | _, _ => false
              end) l') && distinct l'
  end.


(** ** Calls and their outcomes *)

Definition opt_str (s : option string) : pyobj :=
  match s with
  | Some s => PyStr s
  | None => PyNone
  end.

(** The keyword arguments of a [SegmentModel(...)] call whose arguments
    have the annotated types. *)
Definition SegmentModel_kwargs (start_ea end_ea name sclass orgbase align
    comb perm bitness flags sel : Z) (defsr : list Z) (type color : Z)
    (segment_name segment_class : option string) : list (string * pyobj) :=
  [ ("start_ea", PyInt start_ea); ("end_ea", PyInt end_ea);
    ("name", PyInt name); ("sclass", PyInt sclass);
    ("orgbase", PyInt orgbase); ("align", PyInt align);
    ("comb", PyInt comb); ("perm", PyInt perm);
    ("bitness", PyInt bitness); ("flags", PyInt flags);
    ("sel", PyInt sel); ("defsr", PyList (map PyInt defsr));
    ("type", PyInt type); ("color", PyInt color);
    ("segment_name", opt_str segment_name);
    ("segment_class", opt_str segment_class) ].

(** [kvs] are the values of the fields of [body], each accepted. *)
Fixpoint fields_accept (f : annotation -> pyobj -> result pyobj)
    (vs : list (string * (pyobj -> result pyobj)))
    (data : list (string * pyobj)) (body : list attribute)
    (kvs : list (string * pyobj)) : Prop :=
  match body with
  | [] => kvs = []
  | a :: body' =>
      if is_private_name (attr_name a) then fields_accept f vs data body' kvs
      else
        match kvs with
        | [] => False
        | (n, v) :: kvs' =>
            n = attr_name a /\
            field_value f vs data a = Return (inl v) /\
            fields_accept f vs data body' kvs'
        end
  end.

(** Every field of [body] answers, with a value or with error lines. *)
Definition fields_answer (f : annotation -> pyobj -> result pyobj)
    (vs : list (string * (pyobj -> result pyobj)))
    (data : list (string * pyobj)) (body : list attribute) : Prop :=
  Forall (fun a => is_private_name (attr_name a) = false ->
                   exists r, field_value f vs data a = Return r) body.

(** [v] already is a value of the annotated type. *)
Fixpoint isinstance (a : annotation) (v : pyobj) {struct a} : bool :=
  match a with
  | int_ => match v with PyInt _ => true | _ => false end
  | str_ => match v with PyStr _ => true | _ => false end
  | bool_ => match v with PyBool _ => true | _ => false end
  | Any_ => true
  | datetime_ => match v with PyDatetime _ => true | _ => false end
  | Literal_ s => match v with PyStr s' => String.eqb s' s | _ => false end
  | list_ item =>
      match v with PyList l => forallb (isinstance item) l | _ => false end
  | Optional_ a' =>
      match v with PyNone => true | _ => isinstance a' v end
  | Model_ c =>
      match v with
      | PyObject cls _ => String.eqb cls (cls_name c)
      | _ => false
      end
  end.

(** What a call supplies for a field: the keyword argument, else the
    default of the field. *)
Definition supplied (kwargs : list (string * pyobj)) (a : attribute)
  : option pyobj :=
  match dict_get (attr_name a) kwargs with
  | Some v => Some v
  | None => attr_default a
  end.

(** A call that gives every field a value of its annotated type (or leaves
    out a field that has a default). *)
Definition well_typed_call (c : ClassDef) (kwargs : list (string * pyobj))
  : bool :=
  forallb (fun a =>
             match dict_get (attr_name a) kwargs with
             | Some v => isinstance (attr_ann a) v
             | None =>
                 match attr_default a with Some _ => true | None => false end
             end) (model_fields c).

(** The instance holding, field by field, what the call supplied. *)
Definition instance_of_call (c : ClassDef) (kwargs : list (string * pyobj))
  : pyobj :=
  PyObject (cls_name c)
    (flat_map (fun a =>
                 match supplied kwargs a with
                 | Some v => [(attr_name a, v)]
                 | None => []
                 end) (model_fields c)).

(** The snapshot models other than [SegmentModel]. *)
Definition plain_snapshot_models : list ClassDef :=
  [FuncModel; OpModel; InsnModel; RangeModel; UdmModel; EdmModel].

(** The keyword arguments of an [InsnModel] call. *)
Definition InsnModel_kwargs (cs ip ea itype size auxpref : Z)
    (auxpref_u16 auxpref_u8 : list Z) (segpref insnpref flags : Z)
    (ops : list pyobj) : list (string * pyobj) :=
  [ ("cs", PyInt cs); ("ip", PyInt ip); ("ea", PyInt ea);
    ("itype", PyInt itype); ("size", PyInt size);
    ("auxpref", PyInt auxpref);
    ("auxpref_u16", PyList (map PyInt auxpref_u16));
    ("auxpref_u8", PyList (map PyInt auxpref_u8));
    ("segpref", PyInt segpref); ("insnpref", PyInt insnpref);
    ("flags", PyInt flags); ("ops", PyList ops) ].

(** A host operand slot that is not in use: type [o_void] (0), number [n],
    every other attribute zero. *)
Definition op_void (n : Z) : ida_ua.op_t :=
  {| ida_ua.op_n := n; ida_ua.op_type := 0; ida_ua.op_offb := 0;
     ida_ua.op_offo := 0; ida_ua.op_flags := 0; ida_ua.op_dtype := 0;
     ida_ua.op_reg := 0; ida_ua.op_phrase := 0; ida_ua.op_value := 0;
     ida_ua.op_addr := 0; ida_ua.op_specval := 0; ida_ua.op_specflag1 := 0;
     ida_ua.op_specflag2 := 0; ida_ua.op_specflag3 := 0;
     ida_ua.op_specflag4 := 0 |}.

(** The instruction of the scenario: at 0x402010, two operands in use (a
    register and an immediate) and six slots not in use. *)
Definition example_insn : ida_ua.insn_t :=
  {| ida_ua.insn_cs := 0; ida_ua.insn_ip := 4202512;
     ida_ua.insn_ea := 4202512; ida_ua.insn_itype := 122;
     ida_ua.insn_size := 5; ida_ua.insn_auxpref := 0;
     ida_ua.insn_auxpref_u16 := [0; 0]; ida_ua.insn_auxpref_u8 := [0; 0; 0; 0];
     ida_ua.insn_segpref := 0; ida_ua.insn_insnpref := 0;
     ida_ua.insn_flags := 0;
     ida_ua.insn_ops :=
       [ {| ida_ua.op_n := 0; ida_ua.op_type := 1; ida_ua.op_offb := 0;
            ida_ua.op_offo := 0; ida_ua.op_flags := 8; ida_ua.op_dtype := 2;
            ida_ua.op_reg := 0; ida_ua.op_phrase := 0; ida_ua.op_value := 0;
            ida_ua.op_addr := 0; ida_ua.op_specval := 0;
            ida_ua.op_specflag1 := 0; ida_ua.op_specflag2 := 0;
            ida_ua.op_specflag3 := 0; ida_ua.op_specflag4 := 0 |};
         {| ida_ua.op_n := 1; ida_ua.op_type := 5; ida_ua.op_offb := 1;
            ida_ua.op_offo := 0; ida_ua.op_flags := 8; ida_ua.op_dtype := 2;
            ida_ua.op_reg := 0; ida_ua.op_phrase := 0; ida_ua.op_value := 1;
            ida_ua.op_addr := 0; ida_ua.op_specval := 0;
            ida_ua.op_specflag1 := 0; ida_ua.op_specflag2 := 0;
            ida_ua.op_specflag3 := 0; ida_ua.op_specflag4 := 0 |};
         op_void 2; op_void 3; op_void 4; op_void 5; op_void 6; op_void 7 ]
  |}.

(** The host segment of the scenario, with the addressing width left open. *)
Definition scenario_segment (bitness : Z) : ida_segment.segment_t :=
  {| ida_segment.seg_start_ea := 4096; ida_segment.seg_end_ea := 8192;
     ida_segment.seg_name := 1; ida_segment.seg_sclass := 2;
     ida_segment.seg_orgbase := 0; ida_segment.seg_align := 16;
     ida_segment.seg_comb := 1; ida_segment.seg_perm := 7;
     ida_segment.seg_bitness := bitness; ida_segment.seg_flags := 8;
     ida_segment.seg_sel := 1; ida_segment.seg_defsr := repeat 0 16;
     ida_segment.seg_type := 2; ida_segment.seg_color := 0;
     ida_segment.get_segm_name := ".text";
     ida_segment.get_segm_class := "CODE" |}.

(** ** Serialized form of the events *)

(** Equality of Python values. *)
Fixpoint pyobj_eqb (a b : pyobj) {struct a} : bool :=
  let fix items (l m : list pyobj) {struct l} : bool :=
    match l, m with
    | [], [] => true
    | x :: l', y :: m' => pyobj_eqb x y && items l' m'
    | _, _ => false
    end in
  let fix entries (d e : list (string * pyobj)) {struct d} : bool :=
    match d, e with
    | [], [] => true
    | (k, x) :: d', (k', y) :: e' =>
        String.eqb k k' && pyobj_eqb x y && entries d' e'
    | _, _ => false
    end in
  match a, b with
  | PyNone, PyNone => true
  | PyInt x, PyInt y => Z.eqb x y
  | PyBool x, PyBool y => Bool.eqb x y
  | PyStr x, PyStr y => String.eqb x y
  | PyDatetime x, PyDatetime y => Z.eqb x y
  | PyHost x, PyHost y => N.eqb x y
  | PyList l, PyList m => items l m
  | PyDict d, PyDict e => entries d e
  | PyObject c d, PyObject c' e => String.eqb c c' && entries d e
  | _, _ => false
  end.

Fixpoint names_distinct (l : list string) : bool :=
  match l with
  | [] => true
  | n :: l' => negb (existsb (String.eqb n) l') && names_distinct l'
  end.

Fixpoint names_eqb (l m : list string) : bool :=
  match l, m with
  | [], [] => true
  | x :: l', y :: m' => String.eqb x y && names_eqb l' m'
  | _, _ => false
  end.

(** The field validators of a field accept [v] and leave it as it is. *)
Definition accepts (vs : list (string * (pyobj -> result pyobj)))
    (name : string) (v : pyobj) : bool :=
  match run_validators name vs v v with
  | Return v' => pyobj_eqb v' v
  | Raise _ => false
  end.

(** Every field of [body] has in [d] a value its annotation and its
    validators accept. *)
Fixpoint valid_fields (f : annotation -> pyobj -> bool)
    (vs : list (string * (pyobj -> result pyobj)))
    (d : list (string * pyobj)) (body : list attribute) : bool :=
  match body with
  | [] => true
  | a :: body' =>
      (if is_private_name (attr_name a) then true
       else match dict_get (attr_name a) d with
            | Some v => f (attr_ann a) v && accepts vs (attr_name a) v
            | None => false
            end)
      && valid_fields f vs d body'
  end.

(** [v] is a value of the annotated type in full: an instance of a class
    holds exactly the fields of the class, in declaration order, each with
    a value of its own annotation that the validators of the class accept.
    These are the instances validation builds. *)
Fixpoint valid (a : annotation) (v : pyobj) {struct a} : bool :=
  match a with
  | int_ => match v with PyInt _ => true | _ => false end
  | str_ => match v with PyStr _ => true | _ => false end
  | bool_ => match v with PyBool _ => true | _ => false end
  | Any_ => true
  | datetime_ => match v with PyDatetime _ => true | _ => false end
  | Literal_ s => match v with PyStr s' => String.eqb s' s | _ => false end
  | list_ item =>
      match v with PyList l => forallb (valid item) l | _ => false end
  | Optional_ a' =>
      match v with PyNone => true | _ => valid a' v end
  | Model_ c =>
      match c with
      | class_ name body validators _ =>
          match v with
          | PyObject cls d =>
              String.eqb cls name
              && names_eqb (map fst d)
                   (map attr_name
                      (filter (fun a => negb (is_private_name (attr_name a)))
                              body))
              && names_distinct (map fst d)
              && valid_fields (fun t => valid t) validators d body
          | _ => false
          end
      end
  end.

(** Modelled from the spec: the serializer, which the module leaves to the
    layer built on it.  Following the shape contract, an event serializes
    its discriminant, its timestamp and its other fields under their names;
    a snapshot inside it serializes all of its fields, lists in full and in
    order; an optional field serializes [None] when absent, which no string
    equals; a field annotated [Any] is carried as it is. *)
Fixpoint dump_fields (f : annotation -> pyobj -> pyobj)
    (d : list (string * pyobj)) (body : list attribute)
  : list (string * pyobj) :=
  match body with
  | [] => []
  | a :: body' =>
      (if is_private_name (attr_name a) then []
       else match dict_get (attr_name a) d with
            | Some v => [(attr_name a, f (attr_ann a) v)]
            | None => []
            end)
      ++ dump_fields f d body'
  end.

Fixpoint dump (a : annotation) (v : pyobj) {struct a} : pyobj :=
  match a with
  | list_ item =>
      match v with PyList l => PyList (map (dump item) l) | _ => v end
  | Optional_ a' =>
      match v with PyNone => PyNone | _ => dump a' v end
  | Model_ c =>
      match c with
      | class_ _ body _ _ =>
          match v with
          | PyObject _ d => PyDict (dump_fields (fun t => dump t) d body)
          | _ => v
          end
      end
  | _ => v
  end.

(** The member of [idb_event] an event is an instance of, and the member a
    discriminant selects. *)
Definition class_of (e : pyobj) : option ClassDef :=
  match e with
  | PyObject cls _ => find (fun c => String.eqb (cls_name c) cls) idb_event
  | _ => None
  end.

Definition by_tag (tag : string) : option ClassDef :=
  find (fun c => match event_name_literal c with
                 | Some t => String.eqb t tag
                 | None => false
                 end) idb_event.

Definition serialize (e : pyobj) : option pyobj :=
  match class_of e with
  | Some c => Some (dump (Model_ c) e)
  | None => None
  end.

(** Modelled from the spec: the deserializer.  The discriminant is the one
    field that selects the payload shape; the serialized fields are then
    validated against the class it selects. *)
Definition deserialize (w : pyobj) : result pyobj :=
  match w with
  | PyDict d =>
      match dict_get "event_name" d with
      | Some (PyStr tag) =>
          match by_tag tag with
          | Some c => validate (Model_ c) w
          | None => fail literal_error (PyStr tag)
          end
      | Some v => fail literal_error v
      | None => fail missing w
      end
  | _ => fail model_type w
  end.

(** An event value: a valid instance of a member of [idb_event]. *)
Definition is_event (e : pyobj) : bool :=
  existsb (fun c => valid (Model_ c) e) idb_event.

(** An event of the taxonomy: a segment about to be added, its name not
    resolved and its class resolved. *)
Definition example_segment : pyobj :=
  PyObject "SegmentModel"
    [ ("start_ea", PyInt 4198400); ("end_ea", PyInt 4202496);
      ("name", PyInt 1); ("sclass", PyInt 2); ("orgbase", PyInt 0);
      ("align", PyInt 16); ("comb", PyInt 1); ("perm", PyInt 7);
      ("bitness", PyInt 2); ("flags", PyInt 8); ("sel", PyInt 1);
      ("defsr", PyList (repeat (PyInt 0) 16)); ("type", PyInt 2);
      ("color", PyInt 0); ("segment_name", PyNone);
      ("segment_class", PyStr "CODE") ].

Definition example_event : pyobj :=
  PyObject "adding_segm_event"
    [ ("event_name", PyStr "adding_segm");
      ("timestamp", PyDatetime 1730700000000);
      ("s", example_segment) ].

(** ** The other host structures and their converters *)

(** A host function: [get_name] is the name the method answers when the
    object has that method, and absent when it has not. *)
Module ida_funcs.
Record func_t : Type := {
  func_start_ea : Z; func_end_ea : Z; func_flags : Z; func_frame : Z;
  func_frsize : Z; func_frregs : Z; func_argsize : Z; func_fpd : Z;
  func_color : Z; func_pntqty : Z; func_regvarqty : Z; func_regargqty : Z;
  func_tailqty : Z; func_owner : Z; func_refqty : Z;
  func_get_name : option string
}.
End ida_funcs.

Module ida_range.
Record range_t : Type := {
  range_start_ea : Z; range_end_ea : Z
}.
End ida_range.

(** Type members: [udm_type_tid] is what [udm.type.get_tid()] answers,
    [udm_repr_str] what [str(udm.repr)] gives, [edm_get_tid] what
    [edm.get_tid()] answers. *)
Module ida_typeinf.
Record udm_t : Type := {
  udm_offset : Z; udm_size : Z; udm_name : string; udm_cmt : string;
  udm_type_tid : Z; udm_repr_str : string; udm_effalign : Z;
  udm_tafld_bits : Z; udm_fda : Z
}.

Record edm_t : Type := {
  edm_name : string; edm_cmt : string; edm_value : Z; edm_get_tid : Z
}.
End ida_typeinf.

Definition from_func_t (func : ida_funcs.func_t) : result pyobj :=
  BaseModel_init FuncModel
    [ ("start_ea", PyInt (ida_funcs.func_start_ea func));
      ("end_ea", PyInt (ida_funcs.func_end_ea func));
      ("flags", PyInt (ida_funcs.func_flags func));
      ("frame", PyInt (ida_funcs.func_frame func));
      ("frsize", PyInt (ida_funcs.func_frsize func));
      ("frregs", PyInt (ida_funcs.func_frregs func));
      ("argsize", PyInt (ida_funcs.func_argsize func));
      ("fpd", PyInt (ida_funcs.func_fpd func));
      ("color", PyInt (ida_funcs.func_color func));
      ("pntqty", PyInt (ida_funcs.func_pntqty func));
      ("regvarqty", PyInt (ida_funcs.func_regvarqty func));
      ("regargqty", PyInt (ida_funcs.func_regargqty func));
      ("tailqty", PyInt (ida_funcs.func_tailqty func));
      ("owner", PyInt (ida_funcs.func_owner func));
      ("refqty", PyInt (ida_funcs.func_refqty func));
      ("name", match ida_funcs.func_get_name func with
               | Some s => PyStr s
               | None => PyNone
               end) ].

Definition from_range_t (range_obj : ida_range.range_t) : result pyobj :=
  BaseModel_init RangeModel
    [ ("start_ea", PyInt (ida_range.range_start_ea range_obj));
      ("end_ea", PyInt (ida_range.range_end_ea range_obj)) ].

Definition from_udm_t (udm : ida_typeinf.udm_t) : result pyobj :=
  BaseModel_init UdmModel
    [ ("offset", PyInt (ida_typeinf.udm_offset udm));
      ("size", PyInt (ida_typeinf.udm_size udm));
      ("name", PyStr (ida_typeinf.udm_name udm));
      ("cmt", PyStr (ida_typeinf.udm_cmt udm));
      ("tid", PyInt (ida_typeinf.udm_type_tid udm));
      ("repr", PyStr (ida_typeinf.udm_repr_str udm));
      ("effalign", PyInt (ida_typeinf.udm_effalign udm));
      ("tafld_bits", PyInt (ida_typeinf.udm_tafld_bits udm));
      ("fda", PyInt (ida_typeinf.udm_fda udm)) ].

Definition from_edm_t (edm : ida_typeinf.edm_t) : result pyobj :=
  let name := ida_typeinf.edm_name edm in
  let comment := ida_typeinf.edm_cmt edm in
  let value := ida_typeinf.edm_value edm in
  let tid := ida_typeinf.edm_get_tid edm in
  BaseModel_init EdmModel
    [ ("name", PyStr name); ("comment", PyStr comment);
      ("value", PyInt value); ("tid", PyInt tid) ].

(** A host instruction or segment with its array replaced. *)
Definition insn_with_ops (insn : ida_ua.insn_t) (ops : list ida_ua.op_t)
  : ida_ua.insn_t :=
  {| ida_ua.insn_cs := ida_ua.insn_cs insn;
     ida_ua.insn_ip := ida_ua.insn_ip insn;
     ida_ua.insn_ea := ida_ua.insn_ea insn;
     ida_ua.insn_itype := ida_ua.insn_itype insn;
     ida_ua.insn_size := ida_ua.insn_size insn;
     ida_ua.insn_auxpref := ida_ua.insn_auxpref insn;
     ida_ua.insn_auxpref_u16 := ida_ua.insn_auxpref_u16 insn;
     ida_ua.insn_auxpref_u8 := ida_ua.insn_auxpref_u8 insn;
     ida_ua.insn_segpref := ida_ua.insn_segpref insn;
     ida_ua.insn_insnpref := ida_ua.insn_insnpref insn;
     ida_ua.insn_flags := ida_ua.insn_flags insn;
     ida_ua.insn_ops := ops |}.

(** The error lines of an exception, none when it is not a validation
    error, and the field an error line is under. *)
Definition errors_of (r : result pyobj) : list ErrorDetails :=
  match r with
  | Raise (ValidationError es) => es
  | _ => []
  end.

Definition error_field (e : ErrorDetails) : option string :=
  match err_loc e with
  | at_field n :: _ => Some n
  | _ => None
  end.

(** Validators that raise nothing but [ValueError] or [TypeError]. *)
Definition plain_validators
    (vs : list (string * (pyobj -> result pyobj))) : Prop :=
  forall n f, In (n, f) vs ->
    forall v e, f v = Raise e ->
      (exists msg, e = ValueError msg) \/ (exists msg, e = TypeError msg).

(** Conversions to run examples on: a [bool] given for an [int] is 0 or 1,
    and a string that is a decimal numeral, with a minus sign or without,
    is its number; nothing else converts. *)
Definition example_conversions : Conversions :=
  {| to_int := fun v =>
       match v with
       | PyBool b => inl (Z.b2z b)
       | PyStr s =>
           match NilZero.int_of_string s with
           | Some d => inl (Z.of_int d)
           | None => inr int_type
           end
       | _ => inr int_type
       end;
     to_str := fun _ => inr string_type;
     to_bool := fun _ => inr bool_type;
     to_datetime := fun _ => inr datetime_type;
     to_list := fun _ => inr list_type |}.

(** ** tag_func: moving a function under a tag of the function dirtree

    A model of [plugins/tag_func.py].  The directory tree, the database
    and the dialogs belong to the host: their operations are the fields of
    [Host], and everything below holds for any host. *)
Module tag_func.

(** Python string operations the module uses: [s.split(c)] and
    [sep.join(parts)] for a one-character separator, [s.lstrip(c)], and
    the slice [s[:-k]]. *)
Fixpoint split (sep : ascii) (s : string) : list string :=
  match s with
  | EmptyString => [EmptyString]
  | String c s' =>
      if Ascii.eqb c sep then EmptyString :: split sep s'
      else match split sep s' with
           | p :: ps => String c p :: ps
           | [] => [String c EmptyString]
           end
  end.

Fixpoint join (sep : string) (parts : list string) : string :=
  match parts with
  | [] => EmptyString
  | p :: ps =>
      match ps with
      | [] => p
      | _ :: _ => (p ++ sep ++ join sep ps)%string
      end
  end.

Fixpoint lstrip (c : ascii) (s : string) : string :=
  match s with
  | EmptyString => EmptyString
  | String x s' => if Ascii.eqb x c then lstrip c s' else s
  end.

Definition slice_until_minus (s : string) (k : nat) : string :=
  match k with
  | O => EmptyString
  | S _ => substring 0 (String.length s - k) s
  end.

(** [range(a, b)]. *)
Definition range_from (a b : nat) : list nat := seq a (b - a).

(** A call of the logger: level, format and arguments. *)
Inductive log_arg : Type :=
| arg_str (s : string)
| arg_int (z : Z).

Record log_record : Type := {
  log_level : string;
  log_format : string;
  log_args : list log_arg
}.

(** The host: the dirtree with its operations, the name and function
    lookups of the database, and the dialogs.  The operations that change
    the tree return the new tree with their error code.  [find] is the
    list of cursors that [findfirst] and [findnext] enumerate for a
    pattern. *)
Record Host : Type := {
  dirtree_t : Type;
  dirtree_cursor_t : Type;
  direntry_t : Type;
  DTE_OK : Z;
  dirtree_t_errstr : Z -> string;
  isdir : dirtree_t -> string -> bool;
  mkdir : dirtree_t -> string -> dirtree_t * Z;
  rename : dirtree_t -> string -> string -> dirtree_t * Z;
  find : dirtree_t -> string -> list dirtree_cursor_t;
  resolve_cursor : dirtree_t -> dirtree_cursor_t -> direntry_t;
  resolve_path : dirtree_t -> string -> direntry_t;
  get_entry_name : dirtree_t -> direntry_t -> string;
  direntry_isdir : direntry_t -> bool;
  get_abspath : dirtree_t -> dirtree_cursor_t -> string;
  get_name : Z -> option string;
  get_screen_ea : Z;
  get_func : Z -> option Z;
  ask_str : string -> Z -> string -> option string
}.

(** What the plugin changes: the function dirtree and the log. *)
Record State (h : Host) : Type := {
  func_dir : dirtree_t h;
  logged : list log_record
}.
Arguments func_dir {h} s.
Arguments logged {h} s.

Definition log_call {h : Host} (level format : string) (args : list log_arg)
    (st : State h) : State h :=
  {| func_dir := func_dir st;
     logged := logged st ++ [ {| log_level := level; log_format := format;
                                 log_args := args |} ] |}.

Definition with_dir {h : Host} (st : State h) (dir : dirtree_t h) : State h :=
  {| func_dir := dir; logged := logged st |}.

(** [not s] on an optional string. *)
Definition falsy (s : option string) : bool :=
  match s with
  | None => true
  | Some EmptyString => true
  | Some _ => false
  end.

Definition dirtree_find (h : Host) (dir : dirtree_t h) (pattern : string)
  : list (dirtree_cursor_t h) :=
  find h dir pattern.

(** The search by name, breadth first from the root.  The generator may
    run for ever on a tree that never ends, so it is run for at most
    [fuel] directories: the result is the cursors yielded so far, in
    order, and whether the search came to its end. *)
Fixpoint dirtree_find_name (h : Host) (fuel : nat) (dir : dirtree_t h)
    (name : string) (directories : list string)
  : list (dirtree_cursor_t h) * bool :=
  match directories with
  | [] => ([], true)
  | directory :: rest =>
      match fuel with
      | O => ([], false)
      | S fuel' =>
          let cursors := dirtree_find h dir (directory ++ "*")%string in
          let yielded :=
            filter (fun cursor =>
                      String.eqb
                        (get_entry_name h dir (resolve_cursor h dir cursor))
                        name) cursors in
          let found :=
            flat_map (fun cursor =>
                        if direntry_isdir h (resolve_cursor h dir cursor)
                        then [(get_abspath h dir cursor ++ "/")%string]
                        else []) cursors in
          let (more, ended) :=
            dirtree_find_name h fuel' dir name (rest ++ found) in
          (yielded ++ more, ended)
      end
  end.

(** The path of a function in the dirtree: [Some None] is the answer
    [None], and the outer [None] means the search did not end within the
    fuel. *)
Definition find_function_dirtree_path (h : Host) (fuel : nat)
    (dir : dirtree_t h) (va : Z) : option (option string) :=
  match get_name h va with
  | None => Some None
  | Some EmptyString => Some None
  | Some name =>
      match dirtree_find_name h fuel dir name ["/"] with
      | (cursor :: _, _) => Some (Some (get_abspath h dir cursor))
      | ([], true) => Some None
      | ([], false) => None
      end
  end.

Fixpoint dirtree_mkdirs_loop (h : Host) (st : State h) (parts : list string)
    (indices : list nat) : State h * Z :=
  match indices with
  | [] => (st, DTE_OK h)
  | i :: indices' =>
      let prefix := join "/" (firstn i parts) in
      if negb (isdir h (func_dir st) prefix) then
        let (dir', e) := mkdir h (func_dir st) prefix in
        if negb (e =? DTE_OK h) then
          (log_call "error" "error: %s" [arg_str (dirtree_t_errstr h e)]
             (with_dir st dir'), e)
        else dirtree_mkdirs_loop h (with_dir st dir') parts indices'
      else dirtree_mkdirs_loop h st parts indices'
  end.

Definition dirtree_mkdirs (h : Host) (st : State h) (path : string)
  : State h * Z :=
  let parts := split "/" path in
  dirtree_mkdirs_loop h st parts (range_from 2 (List.length parts + 1)).

(** The tag a path is under: the path without its last component and
    without the slashes in front. *)
Definition existing_tag_of (path name : string) : string :=
  lstrip "/"
    (slice_until_minus path (String.length "/" + String.length name)).

Definition main (h : Host) (fuel : nat) (st : State h) : option (State h) :=
  let va := get_screen_ea h in
  match get_func h va with
  | None =>
      Some (log_call "error" "function not found: 0x%x" [arg_int va] st)
  | Some start_ea =>
      match find_function_dirtree_path h fuel (func_dir st) start_ea with
      | None => None
      | Some path_opt =>
          if falsy path_opt then
            Some (log_call "error"
                    "function directory entry not found: 0x%x"
                    [arg_int start_ea] st)
          else
            let path := match path_opt with Some p => p | None => "" end in
            let dirent := resolve_path h (func_dir st) path in
            let name := get_entry_name h (func_dir st) dirent in
            let existing_tag := existing_tag_of path name in
            let tag_opt := ask_str h existing_tag 69 "tag:" in
            if falsy tag_opt then Some st
            else
              let tag := match tag_opt with Some t => t | None => "" end in
              let tag_path := ("/" ++ tag)%string in
              let created :=
                if negb (isdir h (func_dir st) tag_path) then
                  dirtree_mkdirs h
                    (log_call "info" "creating tag: %s" [arg_str tag] st)
                    tag_path
                else
                  (log_call "debug" "tag exists: %s" [arg_str tag] st,
                   DTE_OK h) in
              let (st1, e) := created in
              if negb (e =? DTE_OK h) then
                Some (log_call "error" "error: failed to create tag: %s"
                        [arg_str tag] st1)
              else
                let src_path := path in
                let src_dirent := resolve_path h (func_dir st1) src_path in
                let src_name := get_entry_name h (func_dir st1) src_dirent in
                let dst_name := src_name in
                let dst_path := (tag_path ++ "/" ++ dst_name)%string in
                if String.eqb src_path dst_path then
                  Some (log_call "info" "skipping move to itself" [] st1)
                else
                  let st2 :=
                    log_call "info" "moving %s from %s to %s"
                      [arg_str src_name; arg_str src_path; arg_str dst_path]
                      st1 in
                  let (dir', e') :=
                    rename h (func_dir st2) src_path dst_path in
                  if negb (e' =? DTE_OK h) then
                    Some (log_call "error" "error: %s"
                            [arg_str (dirtree_t_errstr h e')]
                            (with_dir st2 dir'))
                  else Some (with_dir st2 dir')
      end
  end.

(** A host to run the plugin on.  Its dirtree is the list of the entries,
    each with its absolute path and whether it is a directory, and a
    cursor is a path.  [mkdir] adds the directory, unless the host was
    made with a [refusal] other than [DTE_OK], which it then answers. *)
Definition listed (pattern path : string) : bool :=
  let directory := substring 0 (String.length pattern - 1) pattern in
  let tail :=
    substring (String.length directory)
      (String.length path - String.length directory) path in
  prefix directory path && negb (String.eqb tail EmptyString)
  && negb (existsb (Ascii.eqb "/") (list_ascii_of_string tail)).

Definition entry_at (d : list (string * bool)) (path : string)
  : string * bool :=
  match List.find (fun e => String.eqb (fst e) path) d with
  | Some e => e
  | None => (path, false)
  end.

Definition example_host (refusal : Z) : Host :=
  {| dirtree_t := list (string * bool);
     dirtree_cursor_t := string;
     direntry_t := string * bool;
     DTE_OK := 0;
     dirtree_t_errstr := fun e => if e =? 0 then "no error" else "refused";
     isdir := fun d p =>
       existsb (fun e => String.eqb (fst e) p && snd e) d;
     mkdir := fun d p =>
       if refusal =? 0 then ((p, true) :: d, 0) else (d, refusal);
     rename := fun d src dst =>
       (map (fun e => if String.eqb (fst e) src then (dst, snd e) else e) d,
        0);
     find := fun d pattern =>
       map fst (filter (fun e => listed pattern (fst e)) d);
     resolve_cursor := entry_at;
     resolve_path := entry_at;
     get_entry_name := fun _ e => last (split "/" (fst e)) EmptyString;
     direntry_isdir := snd;
     get_abspath := fun _ c => c;
     get_name := fun va => if va =? 4198400 then Some "memcpy" else None;
     get_screen_ea := 4198404;
     get_func := fun va =>
       if (4198400 <=? va) && (va <? 4198464) then Some 4198400 else None;
     ask_str := fun default _ _ => Some default |}.

Definition example_state (refusal : Z) (d : list (string * bool))
  : State (example_host refusal) :=
  {| func_dir := (d : dirtree_t (example_host refusal)); logged := [] |}.

Definition example_tree : list (string * bool) :=
  [ ("/main", false); ("/lib", true); ("/lib/memcpy", false) ].

End tag_func.


(** ** Construction of the snapshot models *)

Lemma validate_items_ints (f : pyobj -> result pyobj) (l : list Z) :
  (forall z, f (PyInt z) = Return (PyInt z)) ->
  forall i, validate_items f i (map PyInt l) = Return (map PyInt l, []).
Proof.
  intros Hf. induction l as [|z l IH]; intros i; simpl.
  - reflexivity.
  - rewrite Hf. simpl. rewrite IH. reflexivity.
Qed.

Lemma as_ints_map (l : list Z) : as_ints (map PyInt l) = Some l.
Proof.
  induction l as [|z l IH]; simpl; [reflexivity | now rewrite IH].
Qed.



(** *** How the fields decide the outcome of a construction *)


Lemma validate_fields_accept f vs data body kvs :
  fields_accept f vs data body kvs ->
  validate_fields f vs data body = Return (kvs, []).
Proof.
  revert kvs. induction body as [|a body IH]; simpl; intros kvs H.
  - now subst.
  - destruct (is_private_name (attr_name a)); [now apply IH|].
    destruct kvs as [|[n v] kvs]; [contradiction|].
    destruct H as (-> & Hv & H). rewrite Hv. simpl.
    rewrite (IH _ H). reflexivity.
Qed.


Lemma validate_fields_answer f vs data body :
  fields_answer f vs data body ->
  exists kvs es, validate_fields f vs data body = Return (kvs, es).
Proof.
  induction 1 as [|a body Ha _ IH]; simpl.
  - now exists [], [].
  - destruct (is_private_name (attr_name a)); [exact IH|].
    destruct (Ha eq_refl) as [r ->]. destruct IH as (kvs & es & ->). simpl.
    destruct r; simpl; eauto.
Qed.

Lemma validate_fields_reject f vs data body a e es :
  fields_answer f vs data body ->
  In a body -> is_private_name (attr_name a) = false ->
  field_value f vs data a = Return (inr (e :: es)) ->
  exists kvs e' es',
    validate_fields f vs data body = Return (kvs, e' :: es').
Proof.
  induction 1 as [|b body Hb Hall IH]; simpl; [contradiction|].
  intros [->|Hin] Hpub Hrej.
  - rewrite Hpub, Hrej. simpl.
    destruct (validate_fields_answer _ _ _ _ Hall) as (kvs & es0 & ->).
    simpl. eauto.
  - destruct (is_private_name (attr_name b)); [now apply IH|].
    destruct (Hb eq_refl) as [r ->].
    destruct (IH Hin Hpub Hrej) as (kvs & e' & es' & ->). simpl.
    destruct r as [v|[|e0 es0]]; simpl; eauto.
Qed.

Lemma init_accept c kwargs kvs :
  fields_accept (fun t => validate t) (cls_validators c) kwargs
    (cls_body c) kvs ->
  BaseModel_init c kwargs = Return (PyObject (cls_name c) kvs).
Proof.
  destruct c as [name body vs cfg]. unfold BaseModel_init. simpl. intros H.
  rewrite (validate_fields_accept _ _ _ _ _ H). reflexivity.
Qed.

Lemma init_reject c kwargs a e es :
  fields_answer (fun t => validate t) (cls_validators c) kwargs (cls_body c) ->
  In a (cls_body c) -> is_private_name (attr_name a) = false ->
  field_value (fun t => validate t) (cls_validators c) kwargs a
    = Return (inr (e :: es)) ->
  exists errors, BaseModel_init c kwargs = Raise (ValidationError errors).
Proof.
  destruct c as [name body vs cfg]. unfold BaseModel_init. simpl.
  intros Hall Hin Hpub Hrej.
  destruct (validate_fields_reject _ _ _ _ _ _ _ Hall Hin Hpub Hrej)
    as (kvs & e' & es' & ->).
  simpl. eauto.
Qed.

(** *** Exceptions and error lines *)

Lemma attempt_Raise {A} (m : result A) (e : exn) :
  attempt m = Raise e -> forall es, e <> ValidationError es.
Proof.
  destruct m as [a|[msg|msg|msg|es']]; simpl; intros H es; try discriminate;
    injection H as <-; discriminate.
Qed.

Lemma attempt_inl {A} (m : result A) (a : A) :
  attempt m = Return (inl a) -> m = Return a.
Proof.
  destruct m as [a'|[msg|msg|msg|es']]; simpl; intros H; try discriminate.
  now injection H as ->.
Qed.

Lemma attempt_inr {A} (m : result A) (es : list ErrorDetails) :
  attempt m = Return (inr es) -> m = Raise (ValidationError es).
Proof.
  destruct m as [a'|[msg|msg|msg|es']]; simpl; intros H; try discriminate.
  now injection H as ->.
Qed.

Lemma validate_items_Raise f i l e :
  validate_items f i l = Raise e -> forall es, e <> ValidationError es.
Proof.
  revert i. induction l as [|v l IH]; simpl; intros i H; [discriminate|].
  destruct (attempt (f v)) as [r|e'] eqn:Ea; simpl in H.
  - destruct (validate_items f (S i) l) as [rest|e'] eqn:El; simpl in H;
      [discriminate|].
    injection H as <-. eapply IH. exact El.
  - injection H as <-. eapply attempt_Raise. exact Ea.
Qed.

Lemma field_value_Raise f vs data a e :
  field_value f vs data a = Raise e -> forall es, e <> ValidationError es.
Proof.
  destruct a as [name ann default]. simpl.
  destruct (dict_get name data).
  - apply attempt_Raise.
  - destruct default; discriminate.
Qed.

Lemma validate_fields_Raise f vs data body e :
  validate_fields f vs data body = Raise e ->
  forall es, e <> ValidationError es.
Proof.
  induction body as [|a body IH]; simpl; intros H; [discriminate|].
  destruct (is_private_name (attr_name a)); [now apply IH|].
  destruct (field_value f vs data a) as [r|e'] eqn:Ea; simpl in H.
  - destruct (validate_fields f vs data body) as [rest|e'] eqn:El;
      simpl in H; [discriminate|].
    injection H as <-. now apply IH.
  - injection H as <-. eapply field_value_Raise. exact Ea.
Qed.

Lemma finish_Raise {A} (r : A * list ErrorDetails) build es :
  finish r build = Raise (ValidationError es) -> es <> [].
Proof.
  destruct r as [a [|e l]]; simpl; intros H; [discriminate|].
  injection H as <-. discriminate.
Qed.



Lemma in_range_true (lo hi v : Z) :
  (lo <=? v) && (v <=? hi) = true -> lo <= v <= hi.
Proof. intros H. apply andb_prop in H as [H1 H2]. lia. Qed.

Lemma in_range_false (lo hi v : Z) :
  (lo <=? v) && (v <=? hi) = false -> ~ lo <= v <= hi.
Proof. intros H. apply andb_false_iff in H as [H|H]; lia. Qed.

Lemma py_in_true (v : Z) (t : list Z) : py_in v t = true -> In v t.
Proof.
  unfold py_in. intros H. apply existsb_exists in H as [x [Hx E]].
  apply Z.eqb_eq in E. now subst.
Qed.

Lemma py_in_false (v : Z) (t : list Z) : py_in v t = false -> ~ In v t.
Proof.
  unfold py_in. intros H Hin.
  assert (E : existsb (Z.eqb v) t = true).
  { apply existsb_exists. exists v. split; [exact Hin | apply Z.eqb_refl]. }
  congruence.
Qed.

Lemma len_16_true {A} (l : list A) :
  (len l =? 16) = true -> List.length l = 16%nat.
Proof. unfold len. intros H. apply Z.eqb_eq in H. lia. Qed.

Lemma len_16_false {A} (l : list A) :
  (len l =? 16) = false -> List.length l <> 16%nat.
Proof. unfold len. intros H. apply Z.eqb_neq in H. lia. Qed.

Ltac to_props :=
  repeat match goal with
  | H : (_ <=? _) && (_ <=? _) = true |- _ => apply in_range_true in H
  | H : (_ <=? _) && (_ <=? _) = false |- _ => apply in_range_false in H
  | H : py_in _ _ = true |- _ => apply py_in_true in H
  | H : py_in _ _ = false |- _ => apply py_in_false in H
  | H : (len _ =? 16) = true |- _ => apply len_16_true in H
  | H : (len _ =? 16) = false |- _ => apply len_16_false in H
  end.


(** *** Values of the annotated types are accepted as they are *)

Lemma validate_int_list (l : list Z) :
  validate (list_ int_) (PyList (map PyInt l)) = Return (PyList (map PyInt l)).
Proof.
  cbn [validate]. rewrite validate_items_ints by reflexivity. reflexivity.
Qed.

Lemma validate_opt_str (s : option string) :
  validate (Optional_ str_) (opt_str s) = Return (opt_str s).
Proof. destruct s; reflexivity. Qed.

(** *** The field validators of [SegmentModel], case by case *)

Lemma validate_bitness_cases (v : Z) :
  (In v [0; 1; 2] /\ validate_bitness v = Return v) \/
  (~ In v [0; 1; 2] /\
   validate_bitness v =
     Raise (ValueError "bitness must be 0 (16bit), 1 (32bit), or 2 (64bit)")).
Proof.
  unfold validate_bitness.
  destruct (py_in v [0; 1; 2]) eqn:E; simpl; to_props; auto.
Qed.

Lemma raise_got_text {A} (prefix : string) (v : Z) :
  @raise_got A prefix v = Raise (ValueError (got_text prefix v)).
Proof.
  unfold raise_got, got_text, str_int.
  destruct (int_max_str_digits <? digits v); reflexivity.
Qed.

Lemma validate_defsr_length_cases (v : list Z) :
  (List.length v = 16%nat /\ validate_defsr_length v = Return v) \/
  (List.length v <> 16%nat /\
   validate_defsr_length v =
     Raise (ValueError
       (got_text "defsr must have exactly 16 elements, got " (len v)))).
Proof.
  unfold validate_defsr_length. rewrite raise_got_text.
  destruct (len v =? 16) eqn:E; simpl; to_props; auto.
Qed.

Ltac range_cases f :=
  unfold f; rewrite raise_got_text;
  match goal with
  | |- context [(?lo <=? ?v) && (?v <=? ?hi)] =>
      destruct ((lo <=? v) && (v <=? hi)) eqn:E; simpl; to_props; auto
  end.

Lemma validate_align_cases (v : Z) :
  (0 <= v <= 255 /\ validate_align v = Return v) \/
  (~ 0 <= v <= 255 /\
   validate_align v =
     Raise (ValueError
       (got_text "align must be in range 0-255, got " v))).
Proof. range_cases validate_align. Qed.

Lemma validate_comb_cases (v : Z) :
  (0 <= v <= 255 /\ validate_comb v = Return v) \/
  (~ 0 <= v <= 255 /\
   validate_comb v =
     Raise (ValueError
       (got_text "comb must be in range 0-255, got " v))).
Proof. range_cases validate_comb. Qed.

Lemma validate_perm_cases (v : Z) :
  (0 <= v <= 255 /\ validate_perm v = Return v) \/
  (~ 0 <= v <= 255 /\
   validate_perm v =
     Raise (ValueError
       (got_text "perm must be in range 0-255, got " v))).
Proof. range_cases validate_perm. Qed.

Lemma validate_type_cases (v : Z) :
  (0 <= v <= 255 /\ validate_type v = Return v) \/
  (~ 0 <= v <= 255 /\
   validate_type v =
     Raise (ValueError
       (got_text "type must be in range 0-255, got " v))).
Proof. range_cases validate_type. Qed.

Lemma validate_flags_cases (v : Z) :
  (0 <= v <= 65535 /\ validate_flags v = Return v) \/
  (~ 0 <= v <= 65535 /\
   validate_flags v =
     Raise (ValueError
       (got_text "flags must be in range 0-65535, got " v))).
Proof. range_cases validate_flags. Qed.

(** Evaluate one field of a constructor call on arguments of the annotated
    types, up to the calls of the field validators. *)
Ltac eval_field :=
  cbn [field_value dict_get String.eqb Ascii.eqb Bool.eqb attr_name
       is_private_name];
  rewrite ?validate_int_list, ?validate_opt_str;
  cbn [validate bind run_validators field_validator String.eqb Ascii.eqb
       Bool.eqb on_int on_int_list];
  rewrite ?as_ints_map.

Ltac finish_field :=
  cbn [bind attempt fail]; try reflexivity; eauto.

Lemma SegmentModel_fields_answer start_ea end_ea name sclass orgbase align
    comb perm bitness flags sel defsr type color segment_name segment_class :
  fields_answer (fun t => validate t) (cls_validators SegmentModel)
    (SegmentModel_kwargs start_ea end_ea name sclass orgbase align comb perm
       bitness flags sel defsr type color segment_name segment_class)
    (cls_body SegmentModel).
Proof.
  unfold fields_answer, SegmentModel, SegmentModel_kwargs, cls_body,
    cls_validators.
  repeat (apply Forall_cons; [intros _; eval_field|]);
    [ .. | apply Forall_nil ]; try (finish_field; fail).
  - destruct (validate_align_cases align) as [[_ E]|[_ E]]; rewrite E;
      finish_field.
  - destruct (validate_comb_cases comb) as [[_ E]|[_ E]]; rewrite E;
      finish_field.
  - destruct (validate_perm_cases perm) as [[_ E]|[_ E]]; rewrite E;
      finish_field.
  - destruct (validate_bitness_cases bitness) as [[_ E]|[_ E]]; rewrite E;
      finish_field.
  - destruct (validate_flags_cases flags) as [[_ E]|[_ E]]; rewrite E;
      finish_field.
  - destruct (validate_defsr_length_cases defsr) as [[_ E]|[_ E]]; rewrite E;
      finish_field.
  - destruct (validate_type_cases type) as [[_ E]|[_ E]]; rewrite E;
      finish_field.
Qed.
(** C1. Construction of a [SegmentModel] from arguments of the annotated
    types fails exactly when [bitness] is not 0, 1 or 2, or one of
    [align], [comb], [perm], [type] is outside 0..255, or [flags] is
    outside 0..65535, or [defsr] does not have 16 entries.  The segment
    with bitness 2, align 16, comb 1, perm 7, type 2, flags 8 and sixteen
    zero registers is built; with bitness 3 it is refused with the
    bitness error, and only that one. *)
Theorem SegmentModel_construction_fails_iff :
  (forall start_ea end_ea name sclass orgbase align comb perm bitness flags
          sel defsr type color segment_name segment_class,
     (exists errors,
        BaseModel_init SegmentModel
          (SegmentModel_kwargs start_ea end_ea name sclass orgbase align
             comb perm bitness flags sel defsr type color segment_name
             segment_class)
        = Raise (ValidationError errors))
     <->
     (~ In bitness [0; 1; 2] \/
      ~ 0 <= align <= 255 \/ ~ 0 <= comb <= 255 \/ ~ 0 <= perm <= 255 \/
      ~ 0 <= type <= 255 \/ ~ 0 <= flags <= 65535 \/
      List.length defsr <> 16%nat)) /\
  (exists m,
     BaseModel_init SegmentModel
       (SegmentModel_kwargs 4096 8192 1 2 0 16 1 7 2 8 1 (repeat 0 16) 2 0
          None None) = Return m /\
     getattr m "bitness" = Some (PyInt 2) /\
     getattr m "defsr" = Some (PyList (repeat (PyInt 0) 16))) /\
  BaseModel_init SegmentModel
    (SegmentModel_kwargs 4096 8192 1 2 0 16 1 7 3 8 1 (repeat 0 16) 2 0
       None None)
  = Raise (ValidationError
      [ {| err_type :=
             value_error "bitness must be 0 (16bit), 1 (32bit), or 2 (64bit)";
           err_loc := [at_field "bitness"];
           err_input := PyInt 3 |} ]).
Proof.
  split; [| split; [eexists; split; [reflexivity | split; reflexivity]
                   | reflexivity]].
  intros. split.
  - intros [errors Hr].
    destruct (validate_bitness_cases bitness) as [[Hb Eb]|[Hb _]];
      [| tauto].
    destruct (validate_align_cases align) as [[Ha Ea]|[Ha _]]; [| tauto].
    destruct (validate_comb_cases comb) as [[Hc Ec]|[Hc _]]; [| tauto].
    destruct (validate_perm_cases perm) as [[Hp Ep]|[Hp _]]; [| tauto].
    destruct (validate_type_cases type) as [[Ht Et]|[Ht _]]; [| tauto].
    destruct (validate_flags_cases flags) as [[Hf Ef]|[Hf _]]; [| tauto].
    destruct (validate_defsr_length_cases defsr) as [[Hl El]|[Hl _]];
      [| tauto].
    exfalso.
    rewrite (init_accept SegmentModel _
      [ ("start_ea", PyInt start_ea); ("end_ea", PyInt end_ea);
        ("name", PyInt name); ("sclass", PyInt sclass);
        ("orgbase", PyInt orgbase); ("align", PyInt align);
        ("comb", PyInt comb); ("perm", PyInt perm);
        ("bitness", PyInt bitness); ("flags", PyInt flags);
        ("sel", PyInt sel); ("defsr", PyList (map PyInt defsr));
        ("type", PyInt type); ("color", PyInt color);
        ("segment_name", opt_str segment_name);
        ("segment_class", opt_str segment_class) ]) in Hr;
      [discriminate Hr|].
    unfold SegmentModel, SegmentModel_kwargs, cls_body, cls_validators.
    cbn [fields_accept attr_name is_private_name Ascii.eqb Bool.eqb].
    repeat (split; [reflexivity|]).
    repeat (split; [eval_field; rewrite ?Eb, ?Ea, ?Ec, ?Ep, ?Et, ?Ef, ?El;
                    reflexivity|]).
    reflexivity.
  - pose proof (SegmentModel_fields_answer start_ea end_ea name sclass
      orgbase align comb perm bitness flags sel defsr type color
      segment_name segment_class) as Hall.
    intros [H|[H|[H|[H|[H|[H|H]]]]]].
    + destruct (validate_bitness_cases bitness) as [[H' _]|[_ E]];
        [contradiction|].
      eapply (init_reject SegmentModel _ ("bitness" ::: int_));
        [exact Hall | simpl; tauto | reflexivity |].
      unfold SegmentModel, SegmentModel_kwargs, cls_validators.
      eval_field. rewrite E. reflexivity.
    + destruct (validate_align_cases align) as [[H' _]|[_ E]];
        [contradiction|].
      eapply (init_reject SegmentModel _ ("align" ::: int_));
        [exact Hall | simpl; tauto | reflexivity |].
      unfold SegmentModel, SegmentModel_kwargs, cls_validators.
      eval_field. rewrite E. reflexivity.
    + destruct (validate_comb_cases comb) as [[H' _]|[_ E]];
        [contradiction|].
      eapply (init_reject SegmentModel _ ("comb" ::: int_));
        [exact Hall | simpl; tauto | reflexivity |].
      unfold SegmentModel, SegmentModel_kwargs, cls_validators.
      eval_field. rewrite E. reflexivity.
    + destruct (validate_perm_cases perm) as [[H' _]|[_ E]];
        [contradiction|].
      eapply (init_reject SegmentModel _ ("perm" ::: int_));
        [exact Hall | simpl; tauto | reflexivity |].
      unfold SegmentModel, SegmentModel_kwargs, cls_validators.
      eval_field. rewrite E. reflexivity.
    + destruct (validate_type_cases type) as [[H' _]|[_ E]];
        [contradiction|].
      eapply (init_reject SegmentModel _ ("type" ::: int_));
        [exact Hall | simpl; tauto | reflexivity |].
      unfold SegmentModel, SegmentModel_kwargs, cls_validators.
      eval_field. rewrite E. reflexivity.
    + destruct (validate_flags_cases flags) as [[H' _]|[_ E]];
        [contradiction|].
      eapply (init_reject SegmentModel _ ("flags" ::: int_));
        [exact Hall | simpl; tauto | reflexivity |].
      unfold SegmentModel, SegmentModel_kwargs, cls_validators.
      eval_field. rewrite E. reflexivity.
    + destruct (validate_defsr_length_cases defsr) as [[H' _]|[_ E]];
        [contradiction|].
      eapply (init_reject SegmentModel _ ("defsr" ::: list_ int_));
        [exact Hall | simpl; tauto | reflexivity |].
      unfold SegmentModel, SegmentModel_kwargs, cls_validators.
      eval_field. rewrite E. reflexivity.
Qed.

(** The scenario through the converter: the host segment converts, and the
    same segment with bitness 3 is refused on [bitness] alone. *)
Lemma from_segment_t_scenario :
  (exists m,
     from_segment_t (scenario_segment 2) = Return m /\
     getattr m "bitness" = Some (PyInt 2) /\
     getattr m "defsr" = Some (PyList (repeat (PyInt 0) 16)) /\
     getattr m "segment_name" = Some (PyStr ".text")) /\
  from_segment_t (scenario_segment 3)
  = Raise (ValidationError
      [ {| err_type :=
             value_error "bitness must be 0 (16bit), 1 (32bit), or 2 (64bit)";
           err_loc := [at_field "bitness"];
           err_input := PyInt 3 |} ]).
Proof.
  split; [eexists; split; [reflexivity|]; repeat split | reflexivity].
Qed.

(** *** Calls with arguments of the annotated types *)

Lemma annotation_ind (P : annotation -> Prop) :
  P int_ -> P str_ -> P bool_ -> P Any_ -> P datetime_ ->
  (forall s, P (Literal_ s)) ->
  (forall item, P item -> P (list_ item)) ->
  (forall a, P a -> P (Optional_ a)) ->
  (forall c, P (Model_ c)) ->
  forall a, P a.
Proof.
  intros Hi Hs Hb Ha Hd Hl Hlist Hopt Hm.
  fix IH 1. intros [| | | | | s | item | a | c].
  - exact Hi.
  - exact Hs.
  - exact Hb.
  - exact Ha.
  - exact Hd.
  - apply Hl.
  - apply Hlist, IH.
  - apply Hopt, IH.
  - apply Hm.
Qed.

Lemma validate_items_isinstance (f : pyobj -> result pyobj)
    (p : pyobj -> bool) (l : list pyobj) :
  (forall v, p v = true -> f v = Return v) ->
  forallb p l = true ->
  forall i, validate_items f i l = Return (l, []).
Proof.
  intros Hf. induction l as [|v l IH]; simpl; intros H i; [reflexivity|].
  apply andb_prop in H as [Hv Hl].
  rewrite (Hf _ Hv). simpl. rewrite (IH Hl). reflexivity.
Qed.

Lemma validate_isinstance (a : annotation) :
  forall v, isinstance a v = true -> validate a v = Return v.
Proof.
  induction a using annotation_ind; intros v H;
    try (destruct v; simpl in *; congruence).
  - destruct v; simpl in *; try discriminate. now rewrite H.
  - destruct v; try discriminate. simpl in *.
    rewrite (validate_items_isinstance _ _ _ IHa H). reflexivity.
  - destruct v; simpl in *; auto.
  - destruct c as [name body vs cfg]. destruct v; simpl in *; try discriminate.
    now rewrite H.
Qed.

Lemma forallb_map_PyInt (l : list Z) :
  forallb (isinstance int_) (map PyInt l) = true.
Proof. induction l; simpl; auto. Qed.

Lemma fields_accept_well_typed (kwargs : list (string * pyobj))
    (body : list attribute) :
  forallb (fun a =>
             match dict_get (attr_name a) kwargs with
             | Some v => isinstance (attr_ann a) v
             | None =>
                 match attr_default a with Some _ => true | None => false end
             end)
          (filter (fun a => negb (is_private_name (attr_name a))) body)
    = true ->
  fields_accept (fun t => validate t) [] kwargs body
    (flat_map (fun a =>
                 match supplied kwargs a with
                 | Some v => [(attr_name a, v)]
                 | None => []
                 end)
       (filter (fun a => negb (is_private_name (attr_name a))) body)).
Proof.
  induction body as [|[name ann default] body IH]; intros H;
    [reflexivity|].
  cbn [filter attr_name] in *. cbn [fields_accept attr_name].
  destruct (is_private_name name) eqn:Hp; cbn [negb] in *; [auto|].
  cbn [forallb flat_map attr_name attr_ann attr_default] in *.
  apply andb_prop in H as [Ha Hrest].
  unfold supplied at 1. cbn [attr_name attr_default field_value].
  destruct (dict_get name kwargs) as [v|] eqn:Hget.
  - cbn [app]. rewrite (validate_isinstance _ _ Ha). simpl. auto.
  - destruct default as [d|]; [|discriminate]. simpl. auto.
Qed.

Lemma init_well_typed (c : ClassDef) (kwargs : list (string * pyobj)) :
  cls_validators c = [] ->
  well_typed_call c kwargs = true ->
  BaseModel_init c kwargs = Return (instance_of_call c kwargs).
Proof.
  intros Hv H. apply init_accept. rewrite Hv.
  apply fields_accept_well_typed. exact H.
Qed.

(** C10. Only [SegmentModel] registers field validators.  For each of the
    other snapshot models a call that gives every field a value of its
    annotated type returns the instance holding exactly those values:
    whatever the integers given for [int] fields, none is refused and none
    is changed. *)
Theorem only_SegmentModel_validates :
  (forall c, In c module_classes ->
             cls_validators c <> [] -> c = SegmentModel) /\
  cls_validators SegmentModel <> [] /\
  (forall c kwargs,
     In c plain_snapshot_models ->
     well_typed_call c kwargs = true ->
     BaseModel_init c kwargs = Return (instance_of_call c kwargs)) /\
  (forall start_ea end_ea,
     BaseModel_init RangeModel
       [("start_ea", PyInt start_ea); ("end_ea", PyInt end_ea)]
     = Return (PyObject "RangeModel"
         [("start_ea", PyInt start_ea); ("end_ea", PyInt end_ea)])).
Proof.
  split; [| split; [| split]].
  - intros c Hc Hv. unfold module_classes in Hc.
    repeat (destruct Hc as [<- | Hc];
            [ first [ reflexivity | exfalso; apply Hv; reflexivity ] | ]).
    destruct Hc.
  - discriminate.
  - intros c kwargs Hc H. apply init_well_typed; [|exact H].
    unfold plain_snapshot_models in Hc.
    repeat (destruct Hc as [<- | Hc]; [reflexivity|]). destruct Hc.
  - intros. reflexivity.
Qed.

Lemma only_SegmentModel_validates_witness :
  BaseModel_init OpModel
    [ ("n", PyInt 0); ("type", PyInt (-1)); ("offb", PyInt 0);
      ("offo", PyInt 0); ("flags", PyInt (-65536)); ("dtype", PyInt 300);
      ("reg", PyInt 0); ("phrase", PyInt 0);
      ("value", PyInt 340282366920938463463374607431768211456);
      ("addr", PyInt 0); ("specval", PyInt 0); ("specflag1", PyInt 0);
      ("specflag2", PyInt 0); ("specflag3", PyInt 0);
      ("specflag4", PyInt 0) ]
  = Return (PyObject "OpModel"
    [ ("n", PyInt 0); ("type", PyInt (-1)); ("offb", PyInt 0);
      ("offo", PyInt 0); ("flags", PyInt (-65536)); ("dtype", PyInt 300);
      ("reg", PyInt 0); ("phrase", PyInt 0);
      ("value", PyInt 340282366920938463463374607431768211456);
      ("addr", PyInt 0); ("specval", PyInt 0); ("specflag1", PyInt 0);
      ("specflag2", PyInt 0); ("specflag3", PyInt 0);
      ("specflag4", PyInt 0) ]).
Proof.
  apply (proj1 (proj2 (proj2 only_SegmentModel_validates)) OpModel).
  - simpl. tauto.
  - reflexivity.
Defined.

(** ** Instructions *)

Lemma forallb_OpModel_instances (ops : list (list (string * pyobj))) :
  forallb (isinstance (Model_ OpModel)) (map (PyObject "OpModel") ops) = true.
Proof. induction ops; simpl; auto. Qed.

Lemma InsnModel_init_typed cs ip ea itype size auxpref auxpref_u16
    auxpref_u8 segpref insnpref flags (ops : list (list (string * pyobj))) :
  BaseModel_init InsnModel
    (InsnModel_kwargs cs ip ea itype size auxpref auxpref_u16 auxpref_u8
       segpref insnpref flags (map (PyObject "OpModel") ops))
  = Return (PyObject "InsnModel"
      (InsnModel_kwargs cs ip ea itype size auxpref auxpref_u16 auxpref_u8
         segpref insnpref flags (map (PyObject "OpModel") ops))).
Proof.
  rewrite init_well_typed; [reflexivity | reflexivity |].
  unfold well_typed_call, InsnModel_kwargs. simpl.
  rewrite !forallb_map_PyInt, forallb_OpModel_instances. reflexivity.
Qed.

(** C3, as the module has it.  [InsnModel] registers no validator, so the
    length of [ops] is not checked: a call with arguments of the annotated
    types and any list of [OpModel] instances, of any length, returns the
    instance holding that very list. *)
Theorem InsnModel_accepts_any_ops_length :
  forall cs ip ea itype size auxpref auxpref_u16 auxpref_u8 segpref insnpref
         flags (ops : list (list (string * pyobj))),
    BaseModel_init InsnModel
      (InsnModel_kwargs cs ip ea itype size auxpref auxpref_u16 auxpref_u8
         segpref insnpref flags (map (PyObject "OpModel") ops))
    = Return (PyObject "InsnModel"
        (InsnModel_kwargs cs ip ea itype size auxpref auxpref_u16 auxpref_u8
           segpref insnpref flags (map (PyObject "OpModel") ops))).
Proof. intros. apply InsnModel_init_typed. Qed.

(** C3 as stated fails: an [InsnModel] whose [ops] list is empty, or holds
    a single operand, is constructed. *)
Lemma InsnModel_ops_length_not_checked :
  (exists m,
     BaseModel_init InsnModel
       (InsnModel_kwargs 0 0 4202512 0 0 0 [] [] 0 0 0 []) = Return m /\
     getattr m "ops" = Some (PyList [])) /\
  (exists o m,
     from_op_t (op_void 0) = Return o /\
     BaseModel_init InsnModel
       (InsnModel_kwargs 0 0 4202512 0 0 0 [] [] 0 0 0 [o]) = Return m /\
     getattr m "ops" = Some (PyList [o])).
Proof.
  split.
  - eexists. split; reflexivity.
  - eexists. eexists. split; [reflexivity|]. split; reflexivity.
Qed.

Lemma from_op_t_returns (op : ida_ua.op_t) :
  from_op_t op = Return (PyObject "OpModel"
    [ ("n", PyInt (ida_ua.op_n op));
      ("type", PyInt (ida_ua.op_type op));
      ("offb", PyInt (ida_ua.op_offb op));
      ("offo", PyInt (ida_ua.op_offo op));
      ("flags", PyInt (ida_ua.op_flags op));
      ("dtype", PyInt (ida_ua.op_dtype op));
      ("reg", PyInt (ida_ua.op_reg op));
      ("phrase", PyInt (ida_ua.op_phrase op));
      ("value", PyInt (ida_ua.op_value op));
      ("addr", PyInt (ida_ua.op_addr op));
      ("specval", PyInt (ida_ua.op_specval op));
      ("specflag1", PyInt (ida_ua.op_specflag1 op));
      ("specflag2", PyInt (ida_ua.op_specflag2 op));
      ("specflag3", PyInt (ida_ua.op_specflag3 op));
      ("specflag4", PyInt (ida_ua.op_specflag4 op)) ]).
Proof. reflexivity. Qed.

(** The model of an operand, as [from_op_t] builds it. *)
Lemma from_op_t_attrs (op : ida_ua.op_t) :
  exists o, from_op_t op = Return o /\
            getattr o "n" = Some (PyInt (ida_ua.op_n op)) /\
            getattr o "type" = Some (PyInt (ida_ua.op_type op)).
Proof. eexists. split; [apply from_op_t_returns|]. split; reflexivity. Qed.

Lemma from_insn_t_returns insn o0 o1 o2 o3 o4 o5 o6 o7 rest :
  ida_ua.insn_ops insn = o0 :: o1 :: o2 :: o3 :: o4 :: o5 :: o6 :: o7 :: rest ->
  exists m ops,
    from_insn_t insn = Return m /\
    getattr m "ops" = Some (PyList ops) /\
    mapM from_op_t [o0; o1; o2; o3; o4; o5; o6; o7] = Return ops.
Proof.
  intros Hops. unfold from_insn_t. rewrite Hops.
  cbn [mapM range seq getitem nth_error bind].
  rewrite !from_op_t_returns. cbn [bind].
  match goal with
  | |- context [PyList (PyObject "OpModel" ?d0 :: PyObject "OpModel" ?d1 ::
                        PyObject "OpModel" ?d2 :: PyObject "OpModel" ?d3 ::
                        PyObject "OpModel" ?d4 :: PyObject "OpModel" ?d5 ::
                        PyObject "OpModel" ?d6 :: PyObject "OpModel" ?d7 ::
                        nil)] =>
      pose proof (InsnModel_init_typed (ida_ua.insn_cs insn)
        (ida_ua.insn_ip insn) (ida_ua.insn_ea insn) (ida_ua.insn_itype insn)
        (ida_ua.insn_size insn) (ida_ua.insn_auxpref insn)
        (ida_ua.insn_auxpref_u16 insn) (ida_ua.insn_auxpref_u8 insn)
        (ida_ua.insn_segpref insn) (ida_ua.insn_insnpref insn)
        (ida_ua.insn_flags insn) [d0; d1; d2; d3; d4; d5; d6; d7]) as E
  end.
  unfold InsnModel_kwargs in E. cbn [map] in E.
  eexists. eexists. split; [exact E|]. split; reflexivity.
Qed.

(** C2. When the host instruction has its operand slots 0 to 7,
    [from_insn_t] returns a model whose [ops] list has exactly 8 entries,
    entry [i] being the model of slot [i], whatever the slot's type: a slot
    not in use is copied like any other.  And a model returned by
    [from_insn_t] never has another number of operands. *)
Theorem from_insn_t_ops_fixed_shape :
  (forall insn,
     (8 <= List.length (ida_ua.insn_ops insn))%nat ->
     exists m ops,
       from_insn_t insn = Return m /\
       getattr m "ops" = Some (PyList ops) /\
       List.length ops = 8%nat /\
       forall i, (i < 8)%nat ->
         exists op o,
           nth_error (ida_ua.insn_ops insn) i = Some op /\
           nth_error ops i = Some o /\
           from_op_t op = Return o /\
           getattr o "n" = Some (PyInt (ida_ua.op_n op)) /\
           getattr o "type" = Some (PyInt (ida_ua.op_type op))) /\
  (forall insn m,
     from_insn_t insn = Return m ->
     exists ops,
       getattr m "ops" = Some (PyList ops) /\ List.length ops = 8%nat).
Proof.
  split.
  - intros insn Hlen.
    destruct (ida_ua.insn_ops insn)
      as [|o0 [|o1 [|o2 [|o3 [|o4 [|o5 [|o6 [|o7 rest]]]]]]]] eqn:Hops;
      simpl in Hlen; try lia.
    destruct (from_insn_t_returns _ _ _ _ _ _ _ _ _ _ Hops)
      as (m & ops & Hm & Hget & Hmap).
    cbn [mapM] in Hmap. rewrite !from_op_t_returns in Hmap.
    cbn [bind] in Hmap. injection Hmap as <-.
    exists m. eexists. split; [exact Hm|]. split; [exact Hget|].
    split; [reflexivity|].
    intros i Hi.
    do 8 (destruct i as [|i];
          [ eexists; eexists; split; [reflexivity|]; split; [reflexivity|];
            split; [apply from_op_t_returns|]; split; reflexivity | ]).
    lia.
  - intros insn m Hm.
    destruct (ida_ua.insn_ops insn)
      as [|o0 [|o1 [|o2 [|o3 [|o4 [|o5 [|o6 [|o7 rest]]]]]]]] eqn:Hops;
      try (unfold from_insn_t in Hm; rewrite Hops in Hm;
           cbn [mapM range seq getitem nth_error bind] in Hm;
           rewrite ?from_op_t_returns in Hm; cbn [bind] in Hm;
           discriminate Hm).
    destruct (from_insn_t_returns _ _ _ _ _ _ _ _ _ _ Hops)
      as (m' & ops & Hm' & Hget & Hmap).
    rewrite Hm' in Hm. injection Hm as <-.
    exists ops. split; [exact Hget|].
    cbn [mapM] in Hmap. rewrite !from_op_t_returns in Hmap.
    cbn [bind] in Hmap. injection Hmap as <-. reflexivity.
Qed.

Lemma from_insn_t_ops_fixed_shape_witness :
  (8 <= List.length (ida_ua.insn_ops example_insn))%nat /\
  (exists m ops,
     from_insn_t example_insn = Return m /\
     getattr m "ops" = Some (PyList ops) /\
     List.length ops = 8%nat /\
     forall i, (i < 8)%nat ->
       exists op o,
         nth_error (ida_ua.insn_ops example_insn) i = Some op /\
         nth_error ops i = Some o /\
         from_op_t op = Return o /\
         getattr o "n" = Some (PyInt (ida_ua.op_n op)) /\
         getattr o "type" = Some (PyInt (ida_ua.op_type op))) /\
  (forall m, from_insn_t example_insn = Return m ->
     exists ops,
       getattr m "ops" = Some (PyList ops) /\ List.length ops = 8%nat).
Proof.
  split; [simpl; lia|]. split.
  - apply (proj1 from_insn_t_ops_fixed_shape example_insn). simpl. lia.
  - apply (proj2 from_insn_t_ops_fixed_shape example_insn).
Defined.

(** ** Assignment to the fields of an instance *)

Lemma dict_get_set_same (name : string) (v : pyobj)
    (d : list (string * pyobj)) :
  dict_get name (dict_set name v d) = Some v.
Proof.
  induction d as [|[k w] d IH]; simpl.
  - now rewrite String.eqb_refl.
  - destruct (String.eqb k name) eqn:E; simpl; rewrite E; auto.
Qed.

Lemma dict_get_set_other (name other : string) (v : pyobj)
    (d : list (string * pyobj)) :
  other <> name ->
  dict_get other (dict_set name v d) = dict_get other d.
Proof.
  intros Hne. induction d as [|[k w] d IH]; simpl.
  - destruct (String.eqb name other) eqn:E; [|reflexivity].
    apply String.eqb_eq in E. congruence.
  - destruct (String.eqb k name) eqn:E; simpl.
    + apply String.eqb_eq in E. subst k.
      destruct (String.eqb name other) eqn:E'; [|reflexivity].
      apply String.eqb_eq in E'. congruence.
    + now rewrite IH.
Qed.

Lemma field_name_is_public (c : ClassDef) (name : string) :
  In name (field_names c) -> is_private_name name = false.
Proof.
  unfold field_names, model_fields. intros H.
  apply in_map_iff in H as (a & <- & Ha).
  apply filter_In in Ha as [_ Ha]. now apply negb_true_iff in Ha.
Qed.

Lemma field_name_found (c : ClassDef) (name : string) :
  In name (field_names c) ->
  existsb (String.eqb name) (field_names c) = true.
Proof.
  intros H. apply existsb_exists. exists name. split; [exact H|].
  apply String.eqb_refl.
Qed.

Lemma module_classes_not_frozen (c : ClassDef) :
  In c module_classes -> frozen (model_config c) = false.
Proof.
  unfold module_classes. intros Hc.
  repeat (destruct Hc as [<- | Hc]; [reflexivity|]). destruct Hc.
Qed.

Lemma module_classes_assign_unvalidated (c : ClassDef) :
  In c module_classes -> validate_assignment (model_config c) = false.
Proof.
  unfold module_classes. intros Hc.
  repeat (destruct Hc as [<- | Hc]; [reflexivity|]). destruct Hc.
Qed.

(** Without [validate_assignment] an assignment does not look at the
    conversions. *)
Lemma setattr_needs_no_conversion (conv : Conversions) (c : ClassDef)
    (o : pyobj) (name : string) (v : pyobj) :
  validate_assignment (model_config c) = false ->
  BaseModel_setattr_with conv c o name v = BaseModel_setattr c o name v.
Proof.
  intros H. unfold BaseModel_setattr, BaseModel_setattr_with.
  destruct o; try reflexivity. now rewrite H.
Qed.

(** C6, as the module has it.  No class of the module is frozen: on an
    instance of any of them, assigning to a declared field succeeds, the
    field then holds the assigned value, whatever it is, and every other
    attribute keeps its value. *)
Theorem fields_can_be_reassigned :
  forall c, In c module_classes ->
    frozen (model_config c) = false /\
    forall cls d name v,
      In name (field_names c) ->
      exists o',
        BaseModel_setattr c (PyObject cls d) name v = Some o' /\
        getattr o' name = Some v /\
        forall other, other <> name ->
          getattr o' other = getattr (PyObject cls d) other.
Proof.
  intros c Hc. pose proof (module_classes_not_frozen c Hc) as Hfrozen.
  split; [exact Hfrozen|].
  intros cls d name v Hin.
  exists (PyObject cls (dict_set name v d)). split.
  - unfold BaseModel_setattr, BaseModel_setattr_with.
    rewrite (field_name_is_public _ _ Hin), Hfrozen,
      (module_classes_assign_unvalidated c Hc), (field_name_found _ _ Hin).
    reflexivity.
  - split; [apply dict_get_set_same|].
    intros other Hne. now apply dict_get_set_other.
Qed.

Lemma fields_can_be_reassigned_witness :
  frozen (model_config SegmentModel) = false /\
  exists o',
    BaseModel_setattr SegmentModel
      (PyObject "SegmentModel" [("start_ea", PyInt 0); ("bitness", PyInt 2)])
      "bitness" (PyInt 7) = Some o' /\
    getattr o' "bitness" = Some (PyInt 7) /\
    forall other, other <> "bitness" ->
      getattr o' other =
      getattr (PyObject "SegmentModel"
                 [("start_ea", PyInt 0); ("bitness", PyInt 2)]) other.
Proof.
  assert (Hc : In SegmentModel module_classes).
  { unfold module_classes. repeat first [ left; reflexivity | right ]. }
  destruct (fields_can_be_reassigned SegmentModel Hc) as [Hf Hset].
  split; [exact Hf|].
  apply Hset. simpl. tauto.
Defined.

(** C6 as stated fails: a constructed [RangeModel], and a constructed
    event, have a field changed by an assignment. *)
Lemma constructed_instances_are_mutable :
  (exists m m',
     BaseModel_init RangeModel
       [("start_ea", PyInt 4096); ("end_ea", PyInt 8192)] = Return m /\
     BaseModel_setattr RangeModel m "start_ea" (PyInt 0) = Some m' /\
     getattr m "start_ea" = Some (PyInt 4096) /\
     getattr m' "start_ea" = Some (PyInt 0)) /\
  (exists e e',
     BaseModel_init func_deleted_event
       [ ("event_name", PyStr "func_deleted"); ("timestamp", PyDatetime 0);
         ("func_ea", PyInt 4198400) ] = Return e /\
     BaseModel_setattr func_deleted_event e "func_ea" (PyInt 0) = Some e' /\
     getattr e "func_ea" = Some (PyInt 4198400) /\
     getattr e' "func_ea" = Some (PyInt 0)).
Proof.
  split; eexists; eexists; (split; [reflexivity|]);
    (split; [reflexivity|]); split; reflexivity.
Qed.

(** ** What a validation failure reports *)















(** The texts.  The text of [validate_bitness] is the same for every value
    it refuses, and the range validators end theirs with the value. *)
Lemma validator_texts :
  validate_bitness 3 =
    Raise (ValueError "bitness must be 0 (16bit), 1 (32bit), or 2 (64bit)") /\
  validate_bitness 7 =
    Raise (ValueError "bitness must be 0 (16bit), 1 (32bit), or 2 (64bit)") /\
  validate_align 300 =
    Raise (ValueError "align must be in range 0-255, got 300") /\
  validate_flags (-1) =
    Raise (ValueError "flags must be in range 0-65535, got -1") /\
  validate_defsr_length [0; 0] =
    Raise (ValueError "defsr must have exactly 16 elements, got 2").
Proof. repeat split; reflexivity. Qed.


(** ** Round trip through the serialized form *)

Lemma pyobj_nested_ind (P : pyobj -> Prop) :
  P PyNone -> (forall z, P (PyInt z)) -> (forall b, P (PyBool b)) ->
  (forall s, P (PyStr s)) -> (forall t, P (PyDatetime t)) ->
  (forall h, P (PyHost h)) ->
  (forall l, Forall P l -> P (PyList l)) ->
  (forall d, Forall (fun kv => P (snd kv)) d -> P (PyDict d)) ->
  (forall c d, Forall (fun kv => P (snd kv)) d -> P (PyObject c d)) ->
  forall v, P v.
Proof.
  intros Hn Hi Hb Hs Ht Hh Hl Hd Ho.
  fix IH 1. intros [| z | b | s | t | h | l | d | c d].
  - exact Hn.
  - apply Hi.
  - apply Hb.
  - apply Hs.
  - apply Ht.
  - apply Hh.
  - apply Hl.
    induction l as [|x l IHl]; constructor; [apply IH | exact IHl].
  - apply Hd.
    induction d as [|[k x] d IHd]; constructor; [apply IH | exact IHd].
  - apply Ho.
    induction d as [|[k x] d IHd]; constructor; [apply IH | exact IHd].
Qed.

Lemma pyobj_eqb_eq (a : pyobj) : forall b, pyobj_eqb a b = true -> a = b.
Proof.
  induction a using pyobj_nested_ind; intros b' E; destruct b';
    simpl in E; try discriminate.
  - reflexivity.
  - apply Z.eqb_eq in E. now subst.
  - apply Bool.eqb_prop in E. now subst.
  - apply String.eqb_eq in E. now subst.
  - apply Z.eqb_eq in E. now subst.
  - apply N.eqb_eq in E. now subst.
  - f_equal. revert items E.
    induction H as [|x l Hx _ IHl]; intros [|y m] E; try discriminate.
    + reflexivity.
    + apply andb_prop in E as [E1 E2]. f_equal; auto.
  - f_equal. revert entries E.
    induction H as [|[k x] d Hx _ IHd]; intros [|[k' y] e] E;
      try discriminate.
    + reflexivity.
    + apply andb_prop in E as [E1 E3]. apply andb_prop in E1 as [E1 E2].
      apply String.eqb_eq in E1. subst k'. simpl in Hx.
      f_equal; [f_equal; auto | auto].
  - apply andb_prop in E as [E0 E]. apply String.eqb_eq in E0. subst cls.
    f_equal. revert attrs E.
    induction H as [|[k x] d Hx _ IHd]; intros [|[k' y] e] E;
      try discriminate.
    + reflexivity.
    + apply andb_prop in E as [E1 E3]. apply andb_prop in E1 as [E1 E2].
      apply String.eqb_eq in E1. subst k'. simpl in Hx.
      f_equal; [f_equal; auto | auto].
Qed.

Lemma names_eqb_eq (l : list string) :
  forall m, names_eqb l m = true -> l = m.
Proof.
  induction l as [|x l IH]; intros [|y m] E; simpl in E; try discriminate.
  - reflexivity.
  - apply andb_prop in E as [E1 E2]. apply String.eqb_eq in E1.
    f_equal; auto.
Qed.

Lemma names_distinct_not_in (n : string) (l : list string) :
  existsb (String.eqb n) l = false -> ~ In n l.
Proof.
  intros E Hin.
  assert (existsb (String.eqb n) l = true).
  { apply existsb_exists. exists n. split; [exact Hin|apply String.eqb_refl]. }
  congruence.
Qed.

Lemma dict_get_not_in (n : string) (d : list (string * pyobj)) :
  ~ In n (map fst d) -> dict_get n d = None.
Proof.
  induction d as [|[k v] d IH]; simpl; intros H; [reflexivity|].
  destruct (String.eqb k n) eqn:E.
  - apply String.eqb_eq in E. tauto.
  - apply IH. tauto.
Qed.

Lemma dict_get_in (n : string) (d : list (string * pyobj)) (v : pyobj) :
  dict_get n d = Some v -> In n (map fst d).
Proof.
  induction d as [|[k w] d IH]; simpl; intros H; [discriminate|].
  destruct (String.eqb k n) eqn:E.
  - apply String.eqb_eq in E. auto.
  - auto.
Qed.

(** A dictionary with distinct keys is the list of its keys, each with the
    value found under it. *)
Lemma dict_by_keys (d : list (string * pyobj)) :
  names_distinct (map fst d) = true ->
  forall d0,
    (forall n v, dict_get n d = Some v -> dict_get n d0 = Some v) ->
    flat_map (fun n => match dict_get n d0 with
                       | Some v => [(n, v)]
                       | None => []
                       end) (map fst d) = d.
Proof.
  induction d as [|[k v] d IH]; simpl; intros Hd d0 H0; [reflexivity|].
  apply andb_prop in Hd as [Hk Hd]. apply negb_true_iff in Hk.
  apply names_distinct_not_in in Hk.
  rewrite (H0 k v) by now rewrite String.eqb_refl.
  simpl. f_equal. apply IH; [exact Hd|].
  intros n w Hn. apply H0.
  destruct (String.eqb k n) eqn:E; [|exact Hn].
  apply String.eqb_eq in E. subst n.
  apply dict_get_in in Hn. contradiction.
Qed.

Lemma annotation_deep_ind (P : annotation -> Prop) :
  P int_ -> P str_ -> P bool_ -> P Any_ -> P datetime_ ->
  (forall s, P (Literal_ s)) ->
  (forall item, P item -> P (list_ item)) ->
  (forall a, P a -> P (Optional_ a)) ->
  (forall name body vs cfg,
     Forall (fun x => P (attr_ann x)) body ->
     P (Model_ (class_ name body vs cfg))) ->
  forall a, P a.
Proof.
  intros Hi Hs Hb Ha Hd Hl Hlist Hopt Hm.
  fix IH 1. intros [| | | | | s | item | a | [name body vs cfg]].
  - exact Hi.
  - exact Hs.
  - exact Hb.
  - exact Ha.
  - exact Hd.
  - apply Hl.
  - apply Hlist, IH.
  - apply Hopt, IH.
  - apply Hm.
    induction body as [|[n t d] body IHb]; constructor;
      [apply IH | exact IHb].
Qed.

Lemma dump_None (a : annotation) :
  forall v, dump a v = PyNone -> v = PyNone.
Proof.
  induction a using annotation_ind; intros v H; simpl in H; auto.
  - destruct v; try discriminate; auto.
  - destruct v; auto.
  - destruct c as [name body vs cfg]. destruct v; try discriminate; auto.
Qed.

Lemma validate_items_dump (item : annotation) (l : list pyobj) :
  (forall v, valid item v = true ->
             validate item (dump item v) = Return v) ->
  forallb (valid item) l = true ->
  forall i,
    validate_items (validate item) i (map (dump item) l) = Return (l, []).
Proof.
  intros IH. induction l as [|v l IHl]; simpl; intros H i; [reflexivity|].
  apply andb_prop in H as [Hv Hl].
  rewrite (IH _ Hv). simpl. rewrite (IHl Hl). reflexivity.
Qed.

Lemma run_validators_Return_input vs name :
  forall input input' v v',
    run_validators name vs input v = Return v' ->
    run_validators name vs input' v = Return v'.
Proof.
  induction vs as [|[n f] vs IH]; simpl; intros input input' v v' H;
    [exact H|].
  destruct (String.eqb n name); [|now apply (IH input)].
  destruct (f v) as [w|[msg|msg|msg|es]]; try discriminate H.
  now apply (IH input).
Qed.

Lemma accepts_run vs name v :
  accepts vs name v = true ->
  forall input, run_validators name vs input v = Return v.
Proof.
  unfold accepts. destruct (run_validators name vs v v) as [v'|e] eqn:Er;
    [|discriminate].
  intros E input. apply pyobj_eqb_eq in E. subst v'.
  exact (run_validators_Return_input vs name v input v v Er).
Qed.

Lemma dump_fields_lookup (f : annotation -> pyobj -> pyobj)
    (d : list (string * pyobj)) (body : list attribute) :
  names_distinct
    (map attr_name
       (filter (fun a => negb (is_private_name (attr_name a))) body)) = true ->
  forall a v,
    In a body -> is_private_name (attr_name a) = false ->
    dict_get (attr_name a) d = Some v ->
    dict_get (attr_name a) (dump_fields f d body)
      = Some (f (attr_ann a) v).
Proof.
  induction body as [|h body IH]; simpl; intros Hd a v Hin Hpub Hget;
    [contradiction|].
  destruct Hin as [->|Hin].
  - rewrite Hpub, Hget. simpl. now rewrite String.eqb_refl.
  - destruct (is_private_name (attr_name h)) eqn:Hh; simpl in *.
    + now apply IH.
    + apply andb_prop in Hd as [Hn Hd]. apply negb_true_iff in Hn.
      apply names_distinct_not_in in Hn.
      assert (Hne : String.eqb (attr_name h) (attr_name a) = false).
      { apply String.eqb_neq. intros E. apply Hn. rewrite E.
        apply in_map, filter_In. split; [exact Hin|]. now rewrite Hpub. }
      destruct (dict_get (attr_name h) d); simpl; [rewrite Hne|];
        now apply IH.
Qed.

Lemma fields_accept_dump (vs : list (string * (pyobj -> result pyobj)))
    (d D : list (string * pyobj)) (body : list attribute) :
  Forall (fun a => forall v, valid (attr_ann a) v = true ->
            validate (attr_ann a) (dump (attr_ann a) v) = Return v) body ->
  valid_fields (fun t => valid t) vs d body = true ->
  (forall a v,
     In a body -> is_private_name (attr_name a) = false ->
     dict_get (attr_name a) d = Some v ->
     dict_get (attr_name a) D = Some (dump (attr_ann a) v)) ->
  fields_accept (fun t => validate t) vs D body
    (flat_map (fun n => match dict_get n d with
                        | Some v => [(n, v)]
                        | None => []
                        end)
       (map attr_name
          (filter (fun a => negb (is_private_name (attr_name a))) body))).
Proof.
  induction body as [|[name ann default] body IH]; intros Hall Hv HD;
    [reflexivity|].
  inversion Hall as [|? ? Hh Hall']; subst.
  cbn [valid_fields attr_name attr_ann] in Hv.
  apply andb_prop in Hv as [Hhead Hv].
  cbn [fields_accept filter attr_name].
  destruct (is_private_name name) eqn:Hp; cbn [negb].
  - apply IH; auto. intros a v Ha. apply HD. now right.
  - cbn [map flat_map attr_name].
    destruct (dict_get name d) as [v|] eqn:Hget; [|discriminate].
    apply andb_prop in Hhead as [Hval Hacc].
    cbn [app]. split; [reflexivity|]. split.
    + cbn [field_value].
      pose proof (HD (attr name ann default) v (or_introl eq_refl) Hp Hget)
        as HgetD.
      cbn [attr_name attr_ann] in HgetD, Hh. rewrite HgetD.
      rewrite (Hh v Hval). cbn [bind].
      rewrite (accepts_run _ _ _ Hacc). reflexivity.
    + apply IH; auto. intros a w Ha. apply HD. now right.
Qed.

(** Validating the serialized form of a valid value gives the value
    back. *)
Lemma validate_dump (a : annotation) :
  forall v, valid a v = true -> validate a (dump a v) = Return v.
Proof.
  induction a using annotation_deep_ind; intros v Hv;
    try (destruct v; simpl in *; congruence).
  - destruct v; simpl in *; try discriminate. now rewrite Hv.
  - destruct v; try discriminate. simpl in *.
    rewrite (validate_items_dump _ _ IHa Hv). reflexivity.
  - destruct v; cbn [valid] in Hv; try reflexivity;
      cbn [dump validate];
      match goal with
      | |- match dump ?a ?v with _ => _ end = _ =>
          destruct (dump a v) eqn:E;
          [apply dump_None in E; discriminate | ..];
          rewrite <- E; now apply IHa
      end.
  - destruct v; try discriminate. cbn [valid] in Hv.
    apply andb_prop in Hv as [Hv Hfields].
    apply andb_prop in Hv as [Hv Hdistinct].
    apply andb_prop in Hv as [Hcls Hnames].
    apply String.eqb_eq in Hcls. subst cls.
    apply names_eqb_eq in Hnames.
    cbn [dump validate].
    rewrite (validate_fields_accept _ _ _ _ attrs).
    + reflexivity.
    + rewrite <- (dict_by_keys attrs Hdistinct attrs (fun n v E => E)) at 2.
      rewrite Hnames.
      apply fields_accept_dump; [exact H | exact Hfields |].
      apply dump_fields_lookup. now rewrite <- Hnames.
Qed.

(** Each member of [idb_event] is found under its class name and under its
    discriminant, and declares the discriminant first. *)
Lemma idb_event_member_lookup (c : ClassDef) :
  In c idb_event ->
  find (fun c' => String.eqb (cls_name c') (cls_name c)) idb_event = Some c /\
  exists tag rest,
    cls_body c = ("event_name" ::: Literal_ tag) :: rest /\
    by_tag tag = Some c.
Proof.
  unfold idb_event at 1. intros Hc.
  repeat (destruct Hc as [<- | Hc];
          [ split; [ reflexivity
                   | eexists; eexists; split; reflexivity ] | ]).
  destruct Hc.
Qed.

(** C7. An event value, serialized and then deserialized, is the value it
    was: every field comes back with the value it had, lists entry by
    entry, and an optional field that was [None] comes back [None]. *)
Theorem serialize_deserialize_roundtrip :
  forall e, is_event e = true ->
    exists w, serialize e = Some w /\ deserialize w = Return e.
Proof.
  intros e He. unfold is_event in He.
  apply existsb_exists in He as (c & Hc & Hv).
  destruct (idb_event_member_lookup c Hc) as (Hfind & tag & rest & Hbody & Htag).
  pose proof (validate_dump (Model_ c) e Hv) as Hrt.
  destruct c as [name body vs cfg]. cbn [cls_body cls_name] in *. subst body.
  destruct e as [| | | | | | | |cls d]; try discriminate Hv.
  cbn [valid] in Hv.
  apply andb_prop in Hv as [Hv Hfields].
  apply andb_prop in Hv as [Hv Hdistinct].
  apply andb_prop in Hv as [Hcls Hnames].
  apply String.eqb_eq in Hcls. subst cls.
  apply names_eqb_eq in Hnames.
  exists (dump (Model_ (class_ name (("event_name" ::: Literal_ tag) :: rest)
                          vs cfg)) (PyObject name d)).
  split.
  - unfold serialize, class_of. now rewrite Hfind.
  - cbn [dump] in *. unfold deserialize.
    cbn [valid_fields attr_name attr_ann is_private_name Ascii.eqb Bool.eqb]
      in Hfields.
    apply andb_prop in Hfields as [Hhead _].
    destruct (dict_get "event_name" d) as [v|] eqn:Hget; [|discriminate].
    apply andb_prop in Hhead as [Hlit _].
    destruct v; try discriminate Hlit. cbn [valid] in Hlit.
    apply String.eqb_eq in Hlit. subst s.
    pose proof (dump_fields_lookup (fun t => dump t) d
                  (("event_name" ::: Literal_ tag) :: rest)
                  ltac:(now rewrite <- Hnames)
                  ("event_name" ::: Literal_ tag) (PyStr tag)
                  (or_introl eq_refl) eq_refl Hget) as HgetD.
    cbn [dump attr_name attr_ann] in HgetD. rewrite HgetD.
    rewrite Htag. exact Hrt.
Qed.

Lemma serialize_deserialize_roundtrip_witness :
  is_event example_event = true /\
  exists w, serialize example_event = Some w /\
            deserialize w = Return example_event.
Proof.
  split; [reflexivity|].
  apply (serialize_deserialize_roundtrip example_event). reflexivity.
Defined.

(** The example event is what the constructors return. *)
Lemma example_event_constructed :
  BaseModel_init SegmentModel
    (SegmentModel_kwargs 4198400 4202496 1 2 0 16 1 7 2 8 1 (repeat 0 16) 2 0
       None (Some "CODE")) = Return example_segment /\
  BaseModel_init adding_segm_event
    [ ("event_name", PyStr "adding_segm");
      ("timestamp", PyDatetime 1730700000000);
      ("s", example_segment) ] = Return example_event /\
  serialize example_event =
    Some (PyDict
      [ ("event_name", PyStr "adding_segm");
        ("timestamp", PyDatetime 1730700000000);
        ("s", PyDict
           [ ("start_ea", PyInt 4198400); ("end_ea", PyInt 4202496);
             ("name", PyInt 1); ("sclass", PyInt 2); ("orgbase", PyInt 0);
             ("align", PyInt 16); ("comb", PyInt 1); ("perm", PyInt 7);
             ("bitness", PyInt 2); ("flags", PyInt 8); ("sel", PyInt 1);
             ("defsr", PyList (repeat (PyInt 0) 16)); ("type", PyInt 2);
             ("color", PyInt 0); ("segment_name", PyNone);
             ("segment_class", PyStr "CODE") ]) ]).
Proof. repeat split; reflexivity. Qed.

(** ** The union and its discriminants *)

Lemma distinct_NoDup (l : list (option string)) :
  distinct l = true -> NoDup l.
Proof.
  induction l as [|x l IH]; simpl; intros H; constructor.
  - apply andb_prop in H as [H _].
    intros Hin. apply negb_true_iff in H.
    assert (E : existsb (fun y => match x, y with
                                  | Some a, Some b => String.eqb a b
                                  | None, None => true
                                  | _, _ => false
                                  end) l = true).
    { apply existsb_exists. exists x. split; [exact Hin|].
      destruct x; [apply String.eqb_refl | reflexivity]. }
    congruence.
  - apply IH. apply andb_prop in H as [_ H]. exact H.
Qed.

(** C4. Every class of the module named [..._event] is a member of the
    union [idb_event], and the union has no other member: a consumer that
    branches over the members of [idb_event] meets every event kind the
    module defines. *)
Theorem idb_event_covers_every_event_class :
  (forall c, In c module_classes -> is_event_class c = true ->
             In c idb_event) /\
  (forall c, In c idb_event ->
             In c module_classes /\ is_event_class c = true).
Proof.
  split.
  - intros c Hc Hev.
    unfold module_classes in Hc.
    repeat (destruct Hc as [<- | Hc];
            [ first [ discriminate Hev
                    | unfold idb_event;
                      repeat first [ left; reflexivity | right ] ] | ]).
    destruct Hc.
  - intros c Hc.
    unfold idb_event in Hc.
    repeat (destruct Hc as [<- | Hc];
            [ split; [ unfold module_classes;
                       repeat first [ left; reflexivity | right ]
                     | reflexivity ] | ]).
    destruct Hc.
Qed.

Lemma idb_event_covers_every_event_class_witness :
  In segm_moved_event idb_event /\
  (In segm_moved_event module_classes /\
   is_event_class segm_moved_event = true).
Proof.
  split.
  - apply (proj1 idb_event_covers_every_event_class).
    + unfold module_classes. repeat first [ left; reflexivity | right ].
    + reflexivity.
  - apply (proj2 idb_event_covers_every_event_class).
    unfold idb_event. repeat first [ left; reflexivity | right ].
Defined.

(** C5. The [event_name] literals of the members of [idb_event] are
    pairwise distinct, and every member has one. *)
Theorem idb_event_tags_distinct :
  NoDup (map event_name_literal idb_event) /\
  Forall (fun c => event_name_literal c <> None) idb_event.
Proof.
  split.
  - apply distinct_NoDup. vm_compute. reflexivity.
  - unfold idb_event. repeat (constructor; [discriminate|]). constructor.
Qed.

(** ** Payload fields *)

(** C8, at the two events that annotate [_from].  The name has a leading
    underscore, so the annotation declares a private attribute, not a
    field: the keyword argument [_from] is ignored by the constructor and
    the built event holds the tag, the timestamp and the other payload
    fields only. *)
Theorem underscore_from_is_not_a_field :
  In "_from" (map attr_name (cls_body segm_moved_event)) /\
  In "_from" (map attr_name (cls_body dirtree_move_event)) /\
  field_names segm_moved_event =
    ["event_name"; "timestamp"; "to"; "size"; "changed_netmap"] /\
  field_names dirtree_move_event = ["event_name"; "timestamp"; "to"] /\
  BaseModel_init segm_moved_event
    [ ("event_name", PyStr "segm_moved"); ("timestamp", PyDatetime 0);
      ("_from", PyInt 4198400); ("to", PyInt 5246976);
      ("size", PyInt 4096); ("changed_netmap", PyBool false) ]
  = Return (PyObject "segm_moved_event"
      [ ("event_name", PyStr "segm_moved"); ("timestamp", PyDatetime 0);
        ("to", PyInt 5246976); ("size", PyInt 4096);
        ("changed_netmap", PyBool false) ]) /\
  BaseModel_init dirtree_move_event
    [ ("event_name", PyStr "dirtree_move"); ("timestamp", PyDatetime 0);
      ("_from", PyStr "/a/f"); ("to", PyStr "/b/f") ]
  = Return (PyObject "dirtree_move_event"
      [ ("event_name", PyStr "dirtree_move"); ("timestamp", PyDatetime 0);
        ("to", PyStr "/b/f") ]).
Proof.
  repeat split; try reflexivity; simpl; tauto.
Qed.

(** ** The converters on any host structure *)

(** X1. The converters of the models without validators return on every
    host structure, with each attribute copied; a function whose name the
    host cannot give has [name] [None], not an empty string. *)
Theorem plain_converters_always_return :
  (forall func,
     from_func_t func = Return (PyObject "FuncModel"
       [ ("start_ea", PyInt (ida_funcs.func_start_ea func));
         ("end_ea", PyInt (ida_funcs.func_end_ea func));
         ("flags", PyInt (ida_funcs.func_flags func));
         ("frame", PyInt (ida_funcs.func_frame func));
         ("frsize", PyInt (ida_funcs.func_frsize func));
         ("frregs", PyInt (ida_funcs.func_frregs func));
         ("argsize", PyInt (ida_funcs.func_argsize func));
         ("fpd", PyInt (ida_funcs.func_fpd func));
         ("color", PyInt (ida_funcs.func_color func));
         ("pntqty", PyInt (ida_funcs.func_pntqty func));
         ("regvarqty", PyInt (ida_funcs.func_regvarqty func));
         ("regargqty", PyInt (ida_funcs.func_regargqty func));
         ("tailqty", PyInt (ida_funcs.func_tailqty func));
         ("owner", PyInt (ida_funcs.func_owner func));
         ("refqty", PyInt (ida_funcs.func_refqty func));
         ("name", opt_str (ida_funcs.func_get_name func)) ])) /\
  (forall range_obj,
     from_range_t range_obj = Return (PyObject "RangeModel"
       [ ("start_ea", PyInt (ida_range.range_start_ea range_obj));
         ("end_ea", PyInt (ida_range.range_end_ea range_obj)) ])) /\
  (forall udm,
     from_udm_t udm = Return (PyObject "UdmModel"
       [ ("offset", PyInt (ida_typeinf.udm_offset udm));
         ("size", PyInt (ida_typeinf.udm_size udm));
         ("name", PyStr (ida_typeinf.udm_name udm));
         ("cmt", PyStr (ida_typeinf.udm_cmt udm));
         ("tid", PyInt (ida_typeinf.udm_type_tid udm));
         ("repr", PyStr (ida_typeinf.udm_repr_str udm));
         ("effalign", PyInt (ida_typeinf.udm_effalign udm));
         ("tafld_bits", PyInt (ida_typeinf.udm_tafld_bits udm));
         ("fda", PyInt (ida_typeinf.udm_fda udm)) ])) /\
  (forall edm,
     from_edm_t edm = Return (PyObject "EdmModel"
       [ ("name", PyStr (ida_typeinf.edm_name edm));
         ("comment", PyStr (ida_typeinf.edm_cmt edm));
         ("value", PyInt (ida_typeinf.edm_value edm));
         ("tid", PyInt (ida_typeinf.edm_get_tid edm)) ])).
Proof.
  split; [|split; [|split]]; intros.
  - unfold from_func_t. destruct (ida_funcs.func_get_name func); reflexivity.
  - reflexivity.
  - reflexivity.
  - reflexivity.
Qed.

Lemma from_insn_t_short insn :
  (List.length (ida_ua.insn_ops insn) < 8)%nat ->
  from_insn_t insn = Raise (IndexError "index out of range").
Proof.
  intros Hlen. unfold from_insn_t.
  destruct (ida_ua.insn_ops insn)
    as [|o0 [|o1 [|o2 [|o3 [|o4 [|o5 [|o6 [|o7 rest]]]]]]]];
    simpl in Hlen; try lia;
    cbn [mapM range seq getitem nth_error bind];
    rewrite ?from_op_t_returns; reflexivity.
Qed.

(** X2. [from_insn_t] reads the host operand array at indices 0 to 7 and
    nowhere else: an array with fewer than 8 slots makes it raise an
    [IndexError], whatever the other attributes, and slots past the eighth
    are never copied. *)
Theorem from_insn_t_reads_eight_slots :
  forall insn,
    ((List.length (ida_ua.insn_ops insn) < 8)%nat ->
     exists msg, from_insn_t insn = Raise (IndexError msg)) /\
    ((8 <= List.length (ida_ua.insn_ops insn))%nat ->
     from_insn_t insn =
     from_insn_t (insn_with_ops insn (firstn 8 (ida_ua.insn_ops insn)))).
Proof.
  intros insn. split.
  - intros H. eexists. now apply from_insn_t_short.
  - intros Hlen. unfold from_insn_t, insn_with_ops. cbn [ida_ua.insn_ops
      ida_ua.insn_cs ida_ua.insn_ip ida_ua.insn_ea ida_ua.insn_itype
      ida_ua.insn_size ida_ua.insn_auxpref ida_ua.insn_auxpref_u16
      ida_ua.insn_auxpref_u8 ida_ua.insn_segpref ida_ua.insn_insnpref
      ida_ua.insn_flags].
    destruct (ida_ua.insn_ops insn)
      as [|o0 [|o1 [|o2 [|o3 [|o4 [|o5 [|o6 [|o7 rest]]]]]]]];
      simpl in Hlen; try lia.
    cbn [firstn mapM range seq getitem nth_error bind]. reflexivity.
Qed.

Lemma from_insn_t_reads_eight_slots_witness :
  (exists msg,
     from_insn_t (insn_with_ops example_insn [op_void 0; op_void 1])
     = Raise (IndexError msg)) /\
  from_insn_t (insn_with_ops example_insn
                 (ida_ua.insn_ops example_insn ++ [op_void 8]))
  = from_insn_t
      (insn_with_ops
         (insn_with_ops example_insn
            (ida_ua.insn_ops example_insn ++ [op_void 8]))
         (firstn 8 (ida_ua.insn_ops example_insn ++ [op_void 8]))).
Proof.
  split.
  - apply (proj1 (from_insn_t_reads_eight_slots
                    (insn_with_ops example_insn [op_void 0; op_void 1]))).
    simpl. lia.
  - apply (proj2 (from_insn_t_reads_eight_slots
                    (insn_with_ops example_insn
                       (ida_ua.insn_ops example_insn ++ [op_void 8])))).
    simpl. lia.
Defined.
(** ** Calls with any arguments *)

(** *** Validation with and without conversions *)

Lemma validate_items_ext (f g : pyobj -> result pyobj) :
  (forall v, f v = g v) ->
  forall l i, validate_items f i l = validate_items g i l.
Proof.
  intros Hfg. induction l as [|v l IH]; intros i; simpl; [reflexivity|].
  now rewrite Hfg, IH.
Qed.

Lemma validate_fields_agree f g vs data body :
  (forall a v, In a body -> is_private_name (attr_name a) = false ->
     dict_get (attr_name a) data = Some v ->
     f (attr_ann a) v = g (attr_ann a) v) ->
  validate_fields f vs data body = validate_fields g vs data body.
Proof.
  induction body as [|a body IH]; intros H; simpl; [reflexivity|].
  assert (Hrest : validate_fields f vs data body
                  = validate_fields g vs data body).
  { apply IH. intros a' v Hin. apply H. now right. }
  destruct (is_private_name (attr_name a)) eqn:Hp; [exact Hrest|].
  rewrite Hrest. f_equal.
  destruct a as [name ann default]. cbn [field_value].
  destruct (dict_get name data) as [v|] eqn:Hget; [|reflexivity].
  pose proof (H (attr name ann default) v (or_introl eq_refl) Hp Hget) as E.
  cbn [attr_ann] in E. now rewrite E.
Qed.

(** Without conversions, validation is [validate]. *)
Lemma validate_with_no_conversion (a : annotation) :
  forall v, validate_with no_conversion a v = validate a v.
Proof.
  induction a as [| | | | | s | item IH | a IH | name body vs cfg IH]
    using annotation_deep_ind; intros v;
    try (destruct v; reflexivity).
  - destruct v; try reflexivity. cbn [validate_with validate].
    now rewrite (validate_items_ext _ _ IH).
  - destruct v; cbn [validate_with validate]; auto.
  - destruct v; try reflexivity. cbn [validate_with validate].
    rewrite (validate_fields_agree (fun t => validate_with no_conversion t)
               (fun t => validate t)); [reflexivity|].
    intros a v Hin _ _. rewrite Forall_forall in IH. now apply IH.
Qed.

Lemma BaseModel_init_no_conversion (c : ClassDef)
    (kwargs : list (string * pyobj)) :
  BaseModel_init_with no_conversion c kwargs = BaseModel_init c kwargs.
Proof. apply validate_with_no_conversion. Qed.

(** A value of the annotated type is accepted as it is, whatever the
    conversions. *)
Lemma validate_with_isinstance (conv : Conversions) (a : annotation) :
  forall v, isinstance a v = true -> validate_with conv a v = Return v.
Proof.
  induction a using annotation_ind; intros v H;
    try (destruct v; simpl in *; congruence).
  - destruct v; simpl in *; try discriminate. now rewrite H.
  - destruct v; try discriminate. cbn [validate_with isinstance] in *.
    rewrite (validate_items_isinstance _ _ _ IHa H). reflexivity.
  - destruct v; simpl in *; auto.
  - destruct c as [name body vs cfg]. destruct v; simpl in *; try discriminate.
    now rewrite H.
Qed.

(** So a call whose arguments have the annotated types has the outcome
    [BaseModel_init] gives it, whatever the conversions. *)
Lemma typed_call_needs_no_conversion (conv : Conversions) (c : ClassDef)
    (kwargs : list (string * pyobj)) :
  (forall a v, In a (cls_body c) ->
     dict_get (attr_name a) kwargs = Some v ->
     isinstance (attr_ann a) v = true) ->
  BaseModel_init_with conv c kwargs = BaseModel_init c kwargs.
Proof.
  destruct c as [name body vs cfg]. unfold BaseModel_init_with, BaseModel_init.
  cbn [validate_with validate cls_body]. intros H.
  rewrite (validate_fields_agree (fun t => validate_with conv t)
             (fun t => validate t)); [reflexivity|].
  intros a v Hin _ Hget.
  rewrite (validate_with_isinstance conv _ _ (H a v Hin Hget)).
  now rewrite (validate_isinstance _ _ (H a v Hin Hget)).
Qed.

(** *** What a successful construction guarantees *)

Lemma converted_Raise {A} (r : A + error_type) build v es :
  converted r build v = Raise (ValidationError es) -> es <> [].
Proof.
  destruct r; simpl; intros H; [discriminate|].
  injection H as <-. discriminate.
Qed.

(** A validation error always has an error line. *)
Lemma validate_errors_nonempty (conv : Conversions) (a : annotation) :
  forall v es, validate_with conv a v = Raise (ValidationError es) -> es <> [].
Proof.
  induction a using annotation_ind; intros v es H.
  - destruct v; simpl in H; try discriminate;
      now apply converted_Raise in H.
  - destruct v; simpl in H; try discriminate;
      now apply converted_Raise in H.
  - destruct v; simpl in H; try discriminate;
      now apply converted_Raise in H.
  - discriminate.
  - destruct v; simpl in H; try discriminate;
      now apply converted_Raise in H.
  - destruct v; simpl in H; try (injection H as <-; discriminate).
    destruct (String.eqb s0 s); [discriminate|].
    injection H as <-. discriminate.
  - cbn [validate_with] in H.
    destruct (match v with PyList l => inl l | _ => to_list conv v end)
      as [l|t]; [|injection H as <-; discriminate].
    destruct (validate_items (validate_with conv a) 0 l) as [r|e] eqn:E;
      simpl in H.
    + eapply finish_Raise. exact H.
    + injection H as ->. exfalso.
      eapply validate_items_Raise; [exact E | reflexivity].
  - destruct v; simpl in H; try discriminate; eauto.
  - destruct c as [name body vs cfg].
    destruct v; simpl in H; try (injection H as <-; discriminate).
    + destruct (validate_fields (fun t => validate_with conv t) vs entries body)
        as [r|e] eqn:E; simpl in H.
      * eapply finish_Raise. exact H.
      * injection H as ->. exfalso.
        eapply validate_fields_Raise; [exact E | reflexivity].
    + destruct (String.eqb cls name); [discriminate|].
      injection H as <-. discriminate.
Qed.

Lemma run_validators_Raise vs name :
  plain_validators vs ->
  forall input v e, run_validators name vs input v = Raise e ->
    (exists d, e = ValidationError [d]) \/ (exists msg, e = TypeError msg).
Proof.
  intros Hvs. induction vs as [|[n f] vs IH]; simpl; intros input v e H;
    [discriminate|].
  assert (Hvs' : plain_validators vs).
  { intros n' f' Hin. apply (Hvs n' f'). now right. }
  destruct (String.eqb n name); [|now apply (IH Hvs' input v)].
  destruct (f v) as [v'|e'] eqn:Ef; [now apply (IH Hvs' input v')|].
  destruct (Hvs n f (or_introl eq_refl) v e' Ef) as [[msg ->]|[msg ->]].
  - unfold fail in H. injection H as <-. left. eauto.
  - injection H as <-. right. eauto.
Qed.

Lemma field_value_inr_nonempty conv vs data a es :
  plain_validators vs ->
  field_value (fun t => validate_with conv t) vs data a = Return (inr es) ->
  es <> [].
Proof.
  intros Hvs. destruct a as [name ann default]. simpl.
  destruct (dict_get name data) as [v|].
  - intros H. apply attempt_inr in H.
    destruct (validate_with conv ann v) as [v'|e] eqn:Ev; simpl in H.
    + destruct (run_validators_Raise vs name Hvs v v' _ H) as [[d E]|[msg E]];
        [|discriminate]. injection E as ->. discriminate.
    + injection H as ->. eapply validate_errors_nonempty. exact Ev.
  - destruct default; intros H; [discriminate|].
    injection H as <-. discriminate.
Qed.

Lemma validate_fields_Return_inv f vs data body kvs :
  (forall a es, In a body ->
     field_value f vs data a = Return (inr es) -> es <> []) ->
  validate_fields f vs data body = Return (kvs, []) ->
  fields_accept f vs data body kvs.
Proof.
  revert kvs. induction body as [|a body IH]; simpl; intros kvs Hne H.
  - now injection H as <-.
  - assert (Hne' : forall a0 es, In a0 body ->
               field_value f vs data a0 = Return (inr es) -> es <> []).
    { intros a0 es Hin. apply Hne. now right. }
    destruct (is_private_name (attr_name a)); [now apply IH|].
    destruct (field_value f vs data a) as [r|e] eqn:Ea; simpl in H;
      [|discriminate].
    destruct (validate_fields f vs data body) as [[kvs' es']|e] eqn:El;
      simpl in H; [|discriminate].
    destruct r as [v|e]; simpl in H.
    + injection H as <- ->. split; [reflexivity|]. split; [reflexivity|].
      now apply IH.
    + injection H as _ H. apply app_eq_nil in H as [H _].
      destruct e as [|e0 e]; [|discriminate H].
      exfalso. now apply (Hne a [] (or_introl eq_refl)).
Qed.

(** The instance a construction returns holds one accepted value for each
    field of the class. *)
Lemma init_Return_inv conv c kwargs m :
  plain_validators (cls_validators c) ->
  BaseModel_init_with conv c kwargs = Return m ->
  exists kvs,
    m = PyObject (cls_name c) kvs /\
    fields_accept (fun t => validate_with conv t) (cls_validators c) kwargs
      (cls_body c) kvs.
Proof.
  destruct c as [name body vs cfg]. unfold BaseModel_init_with. simpl.
  intros Hvs H.
  destruct (validate_fields (fun t => validate_with conv t) vs kwargs body)
    as [[kvs [|e es]]|e] eqn:E; simpl in H; try discriminate.
  injection H as <-. exists kvs. split; [reflexivity|].
  apply validate_fields_Return_inv; [|exact E].
  intros a es _. now apply field_value_inr_nonempty.
Qed.

Lemma on_int_plain (g : Z -> result Z) :
  (forall z e, g z = Raise e -> exists msg, e = ValueError msg) ->
  forall v e, on_int g v = Raise e ->
    (exists msg, e = ValueError msg) \/ (exists msg, e = TypeError msg).
Proof.
  intros Hg v e H. destruct v; simpl in H;
    try (injection H as <-; right; eauto).
  destruct (g z) as [z'|e'] eqn:E; simpl in H; [discriminate|].
  injection H as <-. left. eauto.
Qed.

Lemma on_int_list_plain (g : list Z -> result (list Z)) :
  (forall l e, g l = Raise e -> exists msg, e = ValueError msg) ->
  forall v e, on_int_list g v = Raise e ->
    (exists msg, e = ValueError msg) \/ (exists msg, e = TypeError msg).
Proof.
  intros Hg v e H. destruct v; simpl in H;
    try (injection H as <-; right; eauto).
  destruct (as_ints items) as [zs|]; [|injection H as <-; right; eauto].
  destruct (g zs) as [zs'|e'] eqn:E; simpl in H; [discriminate|].
  injection H as <-. left. eauto.
Qed.

Ltac raises_ValueError cases :=
  let z := fresh "z" in let e := fresh "e" in let H := fresh "H" in
  intros z e H;
  destruct (cases z) as [[_ E]|[_ E]]; rewrite E in H;
  [discriminate | injection H as <-; eauto].

Lemma SegmentModel_plain_validators :
  plain_validators (cls_validators SegmentModel).
Proof.
  intros n f Hin. simpl in Hin. unfold field_validator in Hin.
  destruct Hin as [E|[E|[E|[E|[E|[E|[E|[]]]]]]]]; injection E as _ <-.
  - apply on_int_plain. raises_ValueError validate_bitness_cases.
  - apply on_int_list_plain. raises_ValueError validate_defsr_length_cases.
  - apply on_int_plain. raises_ValueError validate_align_cases.
  - apply on_int_plain. raises_ValueError validate_comb_cases.
  - apply on_int_plain. raises_ValueError validate_perm_cases.
  - apply on_int_plain. raises_ValueError validate_type_cases.
  - apply on_int_plain. raises_ValueError validate_flags_cases.
Qed.

(** What the annotation hands to the field validators: an integer for
    [int], integers for [list[int]], a string or [None] for
    [Optional[str]], be the input of that type or converted to it. *)
Lemma validate_int_Return conv v v' :
  validate_with conv int_ v = Return v' -> exists z, v' = PyInt z.
Proof.
  destruct v; simpl; intros H;
    try (destruct (to_int conv _) as [?|?]; simpl in H;
         [injection H as <-; eauto | discriminate H]).
  injection H as <-. eauto.
Qed.

Lemma validate_str_Return conv v v' :
  validate_with conv str_ v = Return v' -> exists s, v' = PyStr s.
Proof.
  destruct v; simpl; intros H;
    try (destruct (to_str conv _) as [?|?]; simpl in H;
         [injection H as <-; eauto | discriminate H]).
  injection H as <-. eauto.
Qed.

Lemma validate_items_int_inv conv (l : list pyobj) :
  forall i l', validate_items (validate_with conv int_) i l = Return (l', []) ->
    exists zs, l' = map PyInt zs.
Proof.
  induction l as [|v l IH]; intros i l' H.
  - injection H as <-. now exists [].
  - cbn [validate_items] in H.
    destruct (validate_with conv int_ v) as [v'|e] eqn:Ev.
    + destruct (validate_int_Return _ _ _ Ev) as [z ->].
      cbn [attempt bind] in H.
      destruct (validate_items (validate_with conv int_) (S i) l)
        as [[vs es]|e] eqn:E; cbn [bind fst snd] in H; [|discriminate H].
      injection H as <- ->.
      destruct (IH _ _ E) as (zs & ->). now exists (z :: zs).
    + destruct e as [msg|msg|msg|es]; cbn [attempt bind] in H;
        try discriminate H.
      destruct (validate_items (validate_with conv int_) (S i) l)
        as [[vs es']|e] eqn:E; cbn [bind fst snd] in H; [|discriminate H].
      injection H as _ H. apply app_eq_nil in H as [H _].
      apply map_eq_nil in H. subst es.
      exfalso. now apply (validate_errors_nonempty conv int_ v []).
Qed.

Lemma int_field_inv conv vs data name v :
  field_value (fun t => validate_with conv t) vs data (name ::: int_)
    = Return (inl v) ->
  exists input z, dict_get name data = Some input /\
                  run_validators name vs input (PyInt z) = Return v.
Proof.
  cbn [field_value]. destruct (dict_get name data) as [w|]; [|discriminate].
  intros H. apply attempt_inl in H.
  destruct (validate_with conv int_ w) as [v'|e] eqn:Ev; cbn [bind] in H;
    [|discriminate H].
  destruct (validate_int_Return _ _ _ Ev) as [z ->]. eauto.
Qed.

Lemma validate_with_list_unfold conv (item : annotation) (v : pyobj) :
  validate_with conv (list_ item) v
  = match (match v with PyList l => inl l | _ => to_list conv v end) with
    | inl l =>
        r <- validate_items (validate_with conv item) 0 l ;; finish r PyList
    | inr t => fail t v
    end.
Proof. reflexivity. Qed.

Lemma int_list_field_inv conv vs data name v :
  field_value (fun t => validate_with conv t) vs data (name ::: list_ int_)
    = Return (inl v) ->
  exists input zs, dict_get name data = Some input /\
                   run_validators name vs input (PyList (map PyInt zs))
                   = Return v.
Proof.
  cbn [field_value]. destruct (dict_get name data) as [w|]; [|discriminate].
  intros H. apply attempt_inl in H. rewrite validate_with_list_unfold in H.
  destruct (match w with PyList l => inl l | _ => to_list conv w end)
    as [l|t]; [|discriminate H].
  destruct (validate_items (validate_with conv int_) 0 l)
    as [[l' [|e es]]|e] eqn:E; cbn [bind finish] in H; try discriminate H.
  destruct (validate_items_int_inv _ _ _ _ E) as (zs & ->). eauto.
Qed.

Lemma validate_opt_str_Return conv w v' :
  validate_with conv (Optional_ str_) w = Return v' ->
  exists s, v' = opt_str s.
Proof.
  intros H.
  destruct w;
    try (match type of H with
         | validate_with _ _ ?x = _ =>
             apply (validate_str_Return conv x) in H as [? ->]
         end; eexists (Some _); reflexivity).
  injection H as <-. now exists None.
Qed.

Lemma opt_str_field_inv conv vs data name v :
  field_value (fun t => validate_with conv t) vs data
    (name ::: Optional_ str_ := PyNone) = Return (inl v) ->
  (exists input s, dict_get name data = Some input /\
                   run_validators name vs input (opt_str s) = Return v) \/
  (dict_get name data = None /\ v = PyNone).
Proof.
  cbn [field_value]. destruct (dict_get name data) as [w|].
  - intros H. apply attempt_inl in H. left.
    destruct (validate_with conv (Optional_ str_) w) as [v'|e] eqn:Ev;
      cbn [bind] in H; [|discriminate H].
    destruct (validate_opt_str_Return _ _ _ Ev) as [s ->]. eauto.
  - intros H. injection H as <-. now right.
Qed.

Ltac run_named_validators H :=
  cbn [run_validators cls_validators field_validator String.eqb Ascii.eqb
       Bool.eqb on_int on_int_list] in H;
  rewrite ?as_ints_map in H.

Ltac plain_int_field H z :=
  let input := fresh "input" in
  let Hget := fresh "Hget" in
  apply int_field_inv in H as (input & z & Hget & H);
  run_named_validators H; injection H as <-.

Ltac checked_int_field H z cases Hdom :=
  let input := fresh "input" in
  let Hget := fresh "Hget" in
  let E := fresh "E" in
  apply int_field_inv in H as (input & z & Hget & H);
  run_named_validators H;
  destruct (cases z) as [[Hdom E]|[_ E]]; rewrite E in H; cbn in H;
  [injection H as <- | discriminate H].

(** X3. Whatever the keyword arguments, and whatever pydantic converts
    them to, a [SegmentModel] that the constructor returns holds all
    sixteen fields with values of the annotated types, and they are in the
    declared domains: [bitness] is 0, 1 or 2, [align], [comb], [perm] and
    [type] are within 0..255, [flags] within 0..65535, and [defsr] has
    exactly 16 integers. *)
Theorem SegmentModel_instances_in_domain :
  forall conv kwargs m,
    BaseModel_init_with conv SegmentModel kwargs = Return m ->
    exists start_ea end_ea name sclass orgbase align comb perm bitness flags
           sel defsr type color segment_name segment_class,
      m = PyObject "SegmentModel"
            (SegmentModel_kwargs start_ea end_ea name sclass orgbase align
               comb perm bitness flags sel defsr type color segment_name
               segment_class) /\
      In bitness [0; 1; 2] /\
      0 <= align <= 255 /\ 0 <= comb <= 255 /\ 0 <= perm <= 255 /\
      0 <= type <= 255 /\ 0 <= flags <= 65535 /\
      List.length defsr = 16%nat.
Proof.
  intros conv kwargs m Hm.
  destruct (init_Return_inv _ _ _ _ SegmentModel_plain_validators Hm)
    as (kvs & -> & Hacc).
  unfold SegmentModel in Hacc.
  cbn [cls_body fields_accept attr_name is_private_name Ascii.eqb Bool.eqb]
    in Hacc.
  do 16 (destruct kvs as [|[? ?] kvs]; [contradiction|];
         destruct Hacc as (-> & ? & Hacc)).
  subst kvs.
  repeat match goal with
  | H : field_value _ _ _ (_ ::: Optional_ str_ := PyNone) = _ |- _ =>
      apply opt_str_field_inv in H
  end.
  plain_int_field H start_ea.
  plain_int_field H0 end_ea.
  plain_int_field H1 name.
  plain_int_field H2 sclass.
  plain_int_field H3 orgbase.
  checked_int_field H4 align validate_align_cases Halign.
  checked_int_field H5 comb validate_comb_cases Hcomb.
  checked_int_field H6 perm validate_perm_cases Hperm.
  checked_int_field H7 bitness validate_bitness_cases Hbitness.
  checked_int_field H8 flags validate_flags_cases Hflags.
  plain_int_field H9 sel.
  apply int_list_field_inv in H10 as (input10 & defsr & _ & H10).
  run_named_validators H10.
  destruct (validate_defsr_length_cases defsr) as [[Hdefsr Ed]|[_ Ed]];
    rewrite Ed in H10; cbn in H10; [injection H10 as <- | discriminate H10].
  checked_int_field H11 type validate_type_cases Htype.
  plain_int_field H12 color.
  assert (Hn : exists s, p13 = opt_str s).
  { destruct H13 as [(input13 & s & _ & H13)|[_ ->]]; [|now exists None].
    run_named_validators H13. injection H13 as <-. eauto. }
  assert (Hc : exists s, p14 = opt_str s).
  { destruct H14 as [(input14 & s & _ & H14)|[_ ->]]; [|now exists None].
    run_named_validators H14. injection H14 as <-. eauto. }
  destruct Hn as [segment_name ->]. destruct Hc as [segment_class ->].
  exists start_ea, end_ea, name, sclass, orgbase, align, comb, perm, bitness,
    flags, sel, defsr, type, color, segment_name, segment_class.
  repeat split; assumption || apply Halign || apply Hcomb || apply Hperm
    || apply Htype || apply Hflags || idtac.
Qed.

Lemma SegmentModel_instances_in_domain_witness :
  exists start_ea end_ea name sclass orgbase align comb perm bitness flags
         sel defsr type color segment_name segment_class,
    PyObject "SegmentModel"
      (SegmentModel_kwargs 4096 8192 1 2 0 16 1 7 1 8 1 (repeat 0 16) 2 0
         None (Some "CODE"))
    = PyObject "SegmentModel"
        (SegmentModel_kwargs start_ea end_ea name sclass orgbase align
           comb perm bitness flags sel defsr type color segment_name
           segment_class) /\
    In bitness [0; 1; 2] /\
    0 <= align <= 255 /\ 0 <= comb <= 255 /\ 0 <= perm <= 255 /\
    0 <= type <= 255 /\ 0 <= flags <= 65535 /\
    List.length defsr = 16%nat.
Proof.
  apply (SegmentModel_instances_in_domain example_conversions
           [ ("start_ea", PyInt 4096); ("end_ea", PyInt 8192);
             ("name", PyInt 1); ("sclass", PyInt 2); ("orgbase", PyInt 0);
             ("align", PyStr "16"); ("comb", PyInt 1); ("perm", PyInt 7);
             ("bitness", PyBool true); ("flags", PyInt 8); ("sel", PyInt 1);
             ("defsr", PyList (repeat (PyInt 0) 16)); ("type", PyInt 2);
             ("color", PyInt 0); ("segment_class", PyStr "CODE") ]).
  reflexivity.
Defined.


(** ** The segment converter and the default-register array *)

Lemma skipn_cons_nth_error {A} (l : list A) :
  forall k x, nth_error l k = Some x -> skipn k l = x :: skipn (S k) l.
Proof.
  induction l as [|y l IH]; intros [|k] x H; simpl in *; try discriminate.
  - now injection H as ->.
  - now apply IH.
Qed.

(** Reading indices [k, k+n) of a host array: the entries when they all
    exist, an [IndexError] as soon as one does not. *)
Lemma mapM_getitem_ok {A} (l : list A) :
  forall n k, (k + n <= List.length l)%nat ->
    mapM (fun i => getitem l i) (seq k n) = Return (firstn n (skipn k l)).
Proof.
  induction n as [|n IH]; intros k Hk; cbn [seq mapM]; [reflexivity|].
  unfold getitem at 1.
  destruct (nth_error l k) as [x|] eqn:Ex.
  - cbn [bind]. rewrite IH by lia. cbn [bind].
    rewrite (skipn_cons_nth_error l k x Ex). reflexivity.
  - apply nth_error_None in Ex. lia.
Qed.

Lemma mapM_getitem_short {A} (l : list A) :
  forall n k, (List.length l < k + n)%nat -> (0 < n)%nat ->
    mapM (fun i => getitem l i) (seq k n)
    = Raise (IndexError "index out of range").
Proof.
  induction n as [|n IH]; intros k Hk Hn; [lia|]. cbn [seq mapM].
  unfold getitem at 1.
  destruct (nth_error l k) as [x|] eqn:Ex; [|reflexivity].
  cbn [bind].
  assert (Hlt : (k < List.length l)%nat).
  { apply nth_error_Some. congruence. }
  rewrite IH by lia. reflexivity.
Qed.

(** Every error line of a failed construction is under a field whose own
    validation failed. *)
Lemma validate_fields_error_fields f vs data body kvs es :
  validate_fields f vs data body = Return (kvs, es) ->
  forall e, In e es ->
    exists a es_a,
      In a body /\ is_private_name (attr_name a) = false /\
      field_value f vs data a = Return (inr es_a) /\
      error_field e = Some (attr_name a).
Proof.
  revert kvs es. induction body as [|a body IH]; simpl; intros kvs es H e He.
  - injection H as <- <-. contradiction.
  - destruct (is_private_name (attr_name a)) eqn:Hp.
    + destruct (IH _ _ H e He) as (a' & es' & Hin & Hrest).
      exists a', es'. auto.
    + destruct (field_value f vs data a) as [r|x] eqn:Ea; simpl in H;
        [|discriminate].
      destruct (validate_fields f vs data body) as [[kvs' es']|x] eqn:El;
        simpl in H; [|discriminate].
      destruct r as [v|ea]; simpl in H; injection H as <- <-.
      * destruct (IH _ _ eq_refl e He) as (a' & es0 & Hin & Hrest).
        exists a', es0. auto.
      * apply in_app_or in He as [He|He].
        -- apply in_map_iff in He as (e0 & <- & _).
           exists a, ea. auto.
        -- destruct (IH _ _ eq_refl e He) as (a' & es0 & Hin & Hrest).
           exists a', es0. auto.
Qed.

Lemma init_error_fields c kwargs e :
  In e (errors_of (BaseModel_init c kwargs)) ->
  exists a es_a,
    In a (cls_body c) /\ is_private_name (attr_name a) = false /\
    field_value (fun t => validate t) (cls_validators c) kwargs a
      = Return (inr es_a) /\
    error_field e = Some (attr_name a).
Proof.
  destruct c as [name body vs cfg]. unfold BaseModel_init. simpl.
  destruct (validate_fields (fun t => validate t) vs kwargs body)
    as [[kvs [|e0 es]]|x] eqn:E; simpl; try contradiction.
  - apply (validate_fields_error_fields _ _ _ _ _ _ E).
  - destruct x; simpl; try contradiction.
    exfalso. eapply validate_fields_Raise; [exact E | reflexivity].
Qed.

Lemma from_segment_t_unfold segment :
  (16 <= List.length (ida_segment.seg_defsr segment))%nat ->
  from_segment_t segment =
  BaseModel_init SegmentModel
    (SegmentModel_kwargs
       (ida_segment.seg_start_ea segment) (ida_segment.seg_end_ea segment)
       (ida_segment.seg_name segment) (ida_segment.seg_sclass segment)
       (ida_segment.seg_orgbase segment) (ida_segment.seg_align segment)
       (ida_segment.seg_comb segment) (ida_segment.seg_perm segment)
       (ida_segment.seg_bitness segment) (ida_segment.seg_flags segment)
       (ida_segment.seg_sel segment)
       (firstn 16 (ida_segment.seg_defsr segment))
       (ida_segment.seg_type segment) (ida_segment.seg_color segment)
       (Some (ida_segment.get_segm_name segment))
       (Some (ida_segment.get_segm_class segment))).
Proof.
  intros Hlen. unfold from_segment_t, range.
  rewrite mapM_getitem_ok by (simpl; lia). reflexivity.
Qed.

(** X4. [from_segment_t] reads the host default-register array at indices
    0 to 15.  With fewer entries it raises an [IndexError]; otherwise it is
    the construction of a [SegmentModel] from the first sixteen entries and
    the resolved name and class, so an error it reports is never about
    [defsr]: on this path the length validator cannot fire. *)
Theorem from_segment_t_reads_sixteen_registers :
  forall segment,
    ((List.length (ida_segment.seg_defsr segment) < 16)%nat ->
     exists msg, from_segment_t segment = Raise (IndexError msg)) /\
    ((16 <= List.length (ida_segment.seg_defsr segment))%nat ->
     from_segment_t segment =
     BaseModel_init SegmentModel
       (SegmentModel_kwargs
          (ida_segment.seg_start_ea segment) (ida_segment.seg_end_ea segment)
          (ida_segment.seg_name segment) (ida_segment.seg_sclass segment)
          (ida_segment.seg_orgbase segment) (ida_segment.seg_align segment)
          (ida_segment.seg_comb segment) (ida_segment.seg_perm segment)
          (ida_segment.seg_bitness segment) (ida_segment.seg_flags segment)
          (ida_segment.seg_sel segment)
          (firstn 16 (ida_segment.seg_defsr segment))
          (ida_segment.seg_type segment) (ida_segment.seg_color segment)
          (Some (ida_segment.get_segm_name segment))
          (Some (ida_segment.get_segm_class segment))) /\
     forall e, In e (errors_of (from_segment_t segment)) ->
               error_field e <> Some "defsr").
Proof.
  intros segment. split.
  - intros Hlen. eexists. unfold from_segment_t, range.
    rewrite mapM_getitem_short by (simpl; lia). reflexivity.
  - intros Hlen. split; [now apply from_segment_t_unfold|].
    rewrite (from_segment_t_unfold _ Hlen). intros e He Hf.
    destruct (init_error_fields _ _ _ He) as (a & es_a & Hin & _ & Hv & Ha).
    rewrite Hf in Ha. injection Ha as Ha.
    unfold SegmentModel in Hin. cbn [cls_body] in Hin.
    repeat (destruct Hin as [<- | Hin]; [try discriminate Ha|]);
      [|destruct Hin].
    unfold SegmentModel, SegmentModel_kwargs, cls_validators in Hv.
    revert Hv. eval_field.
    destruct (validate_defsr_length_cases
                (firstn 16 (ida_segment.seg_defsr segment)))
      as [[_ E]|[Hne _]].
    + rewrite E. discriminate.
    + exfalso. apply Hne. rewrite length_firstn. lia.
Qed.

Lemma from_segment_t_reads_sixteen_registers_witness :
  (exists msg,
     from_segment_t
       {| ida_segment.seg_start_ea := 4096; ida_segment.seg_end_ea := 8192;
          ida_segment.seg_name := 1; ida_segment.seg_sclass := 2;
          ida_segment.seg_orgbase := 0; ida_segment.seg_align := 16;
          ida_segment.seg_comb := 1; ida_segment.seg_perm := 7;
          ida_segment.seg_bitness := 2; ida_segment.seg_flags := 8;
          ida_segment.seg_sel := 1; ida_segment.seg_defsr := repeat 0 15;
          ida_segment.seg_type := 2; ida_segment.seg_color := 0;
          ida_segment.get_segm_name := ".text";
          ida_segment.get_segm_class := "CODE" |}
     = Raise (IndexError msg)) /\
  forall e, In e (errors_of (from_segment_t (scenario_segment 3))) ->
            error_field e <> Some "defsr".
Proof.
  split.
  - apply (proj1 (from_segment_t_reads_sixteen_registers _)). simpl. lia.
  - apply (proj2 (from_segment_t_reads_sixteen_registers
                    (scenario_segment 3))). simpl. lia.
Defined.

(** ** Construction of the events *)

Lemma validate_fields_rejected f vs data body a e es :
  In a body -> is_private_name (attr_name a) = false ->
  field_value f vs data a = Return (inr (e :: es)) ->
  forall kvs, validate_fields f vs data body <> Return (kvs, []).
Proof.
  induction body as [|b body IH]; simpl; [contradiction|].
  intros Hin Hpub Hrej kvs H.
  destruct Hin as [->|Hin].
  - rewrite Hpub, Hrej in H. simpl in H.
    destruct (validate_fields f vs data body) as [[kvs' es']|x];
      simpl in H; discriminate.
  - destruct (is_private_name (attr_name b)); [now apply (IH Hin Hpub Hrej kvs)|].
    destruct (field_value f vs data b) as [r|x]; simpl in H; [|discriminate].
    destruct (validate_fields f vs data body) as [[kvs' es']|x] eqn:El;
      simpl in H; [|discriminate].
    destruct r as [v|eb]; simpl in H; injection H as _ H.
    + subst es'. now apply (IH Hin Hpub Hrej kvs').
    + apply app_eq_nil in H as [_ ->]. now apply (IH Hin Hpub Hrej kvs').
Qed.

Lemma init_rejected c kwargs a e es :
  In a (cls_body c) -> is_private_name (attr_name a) = false ->
  field_value (fun t => validate t) (cls_validators c) kwargs a
    = Return (inr (e :: es)) ->
  exists x, BaseModel_init c kwargs = Raise x.
Proof.
  destruct c as [name body vs cfg]. unfold BaseModel_init. simpl.
  intros Hin Hpub Hrej.
  destruct (validate_fields (fun t => validate t) vs kwargs body)
    as [[kvs [|e0 es0]]|x] eqn:E; simpl; eauto.
  exfalso.
  exact (validate_fields_rejected _ _ _ _ _ _ _ Hin Hpub Hrej kvs E).
Qed.

Lemma idb_event_fields_required (c : ClassDef) :
  In c idb_event ->
  cls_validators c = [] /\
  Forall (fun a => attr_default a = None) (cls_body c).
Proof.
  unfold idb_event. intros Hc.
  repeat (destruct Hc as [<- | Hc];
          [ split; [reflexivity | repeat constructor] | ]).
  destruct Hc.
Qed.

(** X5. No field of an event class has a default: a call of an event class
    that leaves out any of its fields, the timestamp or the discriminant
    as much as a payload field, fails. *)
Theorem event_fields_are_required :
  forall c a kwargs,
    In c idb_event -> In a (model_fields c) ->
    dict_get (attr_name a) kwargs = None ->
    exists x, BaseModel_init c kwargs = Raise x.
Proof.
  intros c a kwargs Hc Ha Hget.
  destruct (idb_event_fields_required c Hc) as [_ Hreq].
  unfold model_fields in Ha. apply filter_In in Ha as [Hin Hpub].
  apply negb_true_iff in Hpub.
  rewrite Forall_forall in Hreq. specialize (Hreq a Hin).
  eapply (init_rejected c kwargs a); [exact Hin | exact Hpub |].
  destruct a as [name ann default]. simpl in *. subst default.
  rewrite Hget. reflexivity.
Qed.

Lemma event_fields_are_required_witness :
  exists x,
    BaseModel_init func_deleted_event
      [ ("event_name", PyStr "func_deleted"); ("func_ea", PyInt 4198400) ]
    = Raise x.
Proof.
  apply (event_fields_are_required func_deleted_event
           ("timestamp" ::: datetime_)).
  - unfold idb_event. repeat first [ left; reflexivity | right ].
  - simpl. tauto.
  - reflexivity.
Defined.

Lemma literal_field_inv conv vs data name tag v :
  field_value (fun t => validate_with conv t) vs data (name ::: Literal_ tag)
    = Return (inl v) ->
  dict_get name data = Some (PyStr tag) /\
  run_validators name vs (PyStr tag) (PyStr tag) = Return v.
Proof.
  cbn [field_value]. destruct (dict_get name data) as [w|]; [|discriminate].
  intros H. apply attempt_inl in H.
  destruct w; cbn in H; try discriminate H.
  destruct (String.eqb s tag) eqn:E; cbn in H; [|discriminate H].
  apply String.eqb_eq in E. subst s. auto.
Qed.

Lemma event_tag_of_instance conv c kwargs m :
  In c idb_event ->
  BaseModel_init_with conv c kwargs = Return m ->
  exists tag,
    by_tag tag = Some c /\
    event_name_literal c = Some tag /\
    dict_get "event_name" kwargs = Some (PyStr tag) /\
    getattr m "event_name" = Some (PyStr tag).
Proof.
  intros Hc Hm.
  destruct (idb_event_member_lookup c Hc) as (_ & tag & rest & Hbody & Htag).
  destruct (idb_event_fields_required c Hc) as [Hvs _].
  assert (Hplain : plain_validators (cls_validators c)).
  { rewrite Hvs. intros n f []. }
  destruct (init_Return_inv conv c kwargs m Hplain Hm) as (kvs & -> & Hacc).
  rewrite Hbody, Hvs in Hacc.
  cbn [fields_accept attr_name is_private_name Ascii.eqb Bool.eqb] in Hacc.
  destruct kvs as [|[n v] kvs]; [contradiction|].
  destruct Hacc as (-> & Hf & _).
  apply literal_field_inv in Hf as [Hget Hrun].
  cbn in Hrun. injection Hrun as <-.
  exists tag. repeat split; auto.
  unfold event_name_literal. rewrite Hbody. reflexivity.
Qed.

(** X6. An event that a class of the union builds, from any keyword
    arguments and whatever pydantic converts them to, carries under
    [event_name] the literal of that class; and the same keyword arguments
    are never accepted by two different classes of the union, so the
    discriminant decides the class. *)
Theorem discriminant_decides_the_event_class :
  (forall conv c kwargs m,
     In c idb_event -> BaseModel_init_with conv c kwargs = Return m ->
     exists tag,
       event_name_literal c = Some tag /\
       getattr m "event_name" = Some (PyStr tag)) /\
  (forall conv1 conv2 c1 c2 kwargs m1 m2,
     In c1 idb_event -> In c2 idb_event ->
     BaseModel_init_with conv1 c1 kwargs = Return m1 ->
     BaseModel_init_with conv2 c2 kwargs = Return m2 ->
     c1 = c2).
Proof.
  split.
  - intros conv c kwargs m Hc Hm.
    destruct (event_tag_of_instance conv c kwargs m Hc Hm)
      as (tag & _ & Hlit & _ & Hget). eauto.
  - intros conv1 conv2 c1 c2 kwargs m1 m2 Hc1 Hc2 Hm1 Hm2.
    destruct (event_tag_of_instance conv1 c1 kwargs m1 Hc1 Hm1)
      as (t1 & Ht1 & _ & Hk1 & _).
    destruct (event_tag_of_instance conv2 c2 kwargs m2 Hc2 Hm2)
      as (t2 & Ht2 & _ & Hk2 & _).
    rewrite Hk1 in Hk2. injection Hk2 as <-. congruence.
Qed.

Lemma discriminant_decides_the_event_class_witness :
  (exists tag,
     event_name_literal func_deleted_event = Some tag /\
     getattr (PyObject "func_deleted_event"
                [ ("event_name", PyStr "func_deleted");
                  ("timestamp", PyDatetime 0); ("func_ea", PyInt 4198400) ])
       "event_name" = Some (PyStr tag)) /\
  func_deleted_event = func_deleted_event.
Proof.
  assert (Hc : In func_deleted_event idb_event).
  { unfold idb_event. repeat first [ left; reflexivity | right ]. }
  assert (Hm : BaseModel_init_with example_conversions func_deleted_event
                 [ ("event_name", PyStr "func_deleted");
                   ("timestamp", PyDatetime 0);
                   ("func_ea", PyStr "4198400") ]
               = Return (PyObject "func_deleted_event"
                   [ ("event_name", PyStr "func_deleted");
                     ("timestamp", PyDatetime 0);
                     ("func_ea", PyInt 4198400) ])) by reflexivity.
  split.
  - exact (proj1 discriminant_decides_the_event_class _ _ _ _ Hc Hm).
  - exact (proj2 discriminant_decides_the_event_class _ _ _ _ _ _ _
             Hc Hc Hm Hm).
Defined.

(** X7. The two events that annotate [_from] never record it: whatever is
    given for [_from], and whatever the other arguments are, the call has
    the same outcome, so two moves that differ in their source only give
    equal events. *)
Theorem from_argument_never_matters :
  (forall event_name timestamp from1 from2 to size changed_netmap,
     BaseModel_init segm_moved_event
       [ ("event_name", event_name); ("timestamp", timestamp);
         ("_from", from1); ("to", to); ("size", size);
         ("changed_netmap", changed_netmap) ]
     = BaseModel_init segm_moved_event
       [ ("event_name", event_name); ("timestamp", timestamp);
         ("_from", from2); ("to", to); ("size", size);
         ("changed_netmap", changed_netmap) ]) /\
  (forall event_name timestamp from1 from2 to,
     BaseModel_init dirtree_move_event
       [ ("event_name", event_name); ("timestamp", timestamp);
         ("_from", from1); ("to", to) ]
     = BaseModel_init dirtree_move_event
       [ ("event_name", event_name); ("timestamp", timestamp);
         ("_from", from2); ("to", to) ]).
Proof. split; intros; reflexivity. Qed.
(** ** tag_func: creating the directories of a tag *)

Section tag_func_facts.
Import tag_func.

Lemma split_not_nil : forall sep s, split sep s <> [].
Proof.
  intros sep s. destruct s as [|c s]; cbn [split]; [discriminate|].
  destruct (Ascii.eqb c sep); [discriminate|].
  destruct (split sep s); discriminate.
Qed.

Lemma join_cons : forall sep p q qs,
  join sep (p :: q :: qs) = (p ++ sep ++ join sep (q :: qs))%string.
Proof. reflexivity. Qed.

Lemma join_split : forall sep s, join (String sep "") (split sep s) = s.
Proof.
  intros sep s. induction s as [|c s IH]; [reflexivity|].
  cbn [split]. destruct (Ascii.eqb c sep) eqn:E.
  - apply Ascii.eqb_eq in E. subst c.
    pose proof (split_not_nil sep s) as Hne.
    destruct (split sep s) as [|p ps]; [congruence|].
    rewrite join_cons, IH. reflexivity.
  - destruct (split sep s) as [|p ps] eqn:Es.
    + now destruct (split_not_nil sep s).
    + destruct ps as [|q qs].
      * cbn [join] in *. now rewrite IH.
      * rewrite join_cons in *. rewrite <- IH. reflexivity.
Qed.

Lemma split_without_sep : forall sep s,
  ~ In sep (list_ascii_of_string s) -> split sep s = [s].
Proof.
  intros sep s. induction s as [|c s IH]; intros H; [reflexivity|].
  cbn [split]. cbn in H. destruct (Ascii.eqb c sep) eqn:E.
  - apply Ascii.eqb_eq in E. tauto.
  - rewrite IH by tauto. reflexivity.
Qed.

Lemma split_with_sep : forall sep s,
  In sep (list_ascii_of_string s) -> (2 <= List.length (split sep s))%nat.
Proof.
  intros sep s. induction s as [|c s IH]; intros H; [destruct H|].
  cbn [split]. destruct (Ascii.eqb c sep) eqn:E.
  - pose proof (split_not_nil sep s) as Hne.
    destruct (split sep s); [congruence|]. cbn. lia.
  - destruct H as [H|H]; [subst c; now rewrite Ascii.eqb_refl in E|].
    specialize (IH H). destruct (split sep s); cbn in *; lia.
Qed.

Variable h : Host.

Lemma mkdirs_loop_existing : forall (st : State h) parts indices,
  (forall i, In i indices ->
     isdir h (func_dir st) (join "/" (firstn i parts)) = true) ->
  dirtree_mkdirs_loop h st parts indices = (st, DTE_OK h).
Proof.
  intros st parts indices. induction indices as [|i rest IH]; intros H;
    [reflexivity|].
  cbn [dirtree_mkdirs_loop]. rewrite (H i) by now left.
  cbn [negb]. apply IH. intros j Hj. apply H. now right.
Qed.

(** X8. [dirtree_mkdirs] changes nothing, logs nothing and answers
    [DTE_OK] when every prefix of the path it looks at (the first two
    components, the first three, and so on up to the path) is already a
    directory: the host's [mkdir] is not consulted. *)
Theorem dirtree_mkdirs_existing_path_is_untouched :
  forall (st : State h) (path : string),
    (forall i, (2 <= i <= List.length (split "/" path))%nat ->
       isdir h (func_dir st) (join "/" (firstn i (split "/" path))) = true) ->
    dirtree_mkdirs h st path = (st, DTE_OK h).
Proof.
  intros st path H. unfold dirtree_mkdirs. apply mkdirs_loop_existing.
  intros i Hi. apply H. unfold range_from in Hi. apply in_seq in Hi. lia.
Qed.

(** X9. A path without a slash is never created: [dirtree_mkdirs] starts
    at the first two components, so for a single component it answers
    [DTE_OK] with the tree and the log as they were, whether or not the
    directory exists and whatever the host would do. *)
Theorem dirtree_mkdirs_ignores_single_component :
  forall (st : State h) (path : string),
    ~ In "/"%char (list_ascii_of_string path) ->
    dirtree_mkdirs h st path = (st, DTE_OK h).
Proof.
  intros st path H. unfold dirtree_mkdirs.
  rewrite (split_without_sep _ _ H). reflexivity.
Qed.

Lemma mkdirs_loop_ok : forall parts indices (st st' : State h),
  (forall d p d', mkdir h d p = (d', DTE_OK h) -> isdir h d' p = true) ->
  (forall d p d' e q, mkdir h d p = (d', e) ->
     isdir h d q = true -> isdir h d' q = true) ->
  dirtree_mkdirs_loop h st parts indices = (st', DTE_OK h) ->
  (forall q, isdir h (func_dir st) q = true ->
     isdir h (func_dir st') q = true) /\
  (forall i, In i indices ->
     isdir h (func_dir st') (join "/" (firstn i parts)) = true) /\
  logged st' = logged st.
Proof.
  intros parts indices. induction indices as [|i rest IH];
    intros st st' Hmade Hkept Hrun.
  - cbn in Hrun. injection Hrun as <-. repeat split; auto; intros i Hi; destruct Hi.
  - cbn [dirtree_mkdirs_loop] in Hrun.
    destruct (isdir h (func_dir st) (join "/" (firstn i parts))) eqn:Ed;
      cbn [negb] in Hrun.
    + destruct (IH _ _ Hmade Hkept Hrun) as (Hk & Hi & Hl).
      repeat split; auto.
      intros j [<-|Hj]; auto.
    + destruct (mkdir h (func_dir st) (join "/" (firstn i parts)))
        as [dir' e] eqn:Em.
      destruct (e =? DTE_OK h) eqn:Ee; cbn [negb] in Hrun.
      * apply Z.eqb_eq in Ee. subst e.
        destruct (IH _ _ Hmade Hkept Hrun) as (Hk & Hi & Hl).
        cbn [with_dir func_dir logged] in *.
        repeat split; auto.
        -- intros q Hq. apply Hk. eapply Hkept; eauto.
        -- intros j [<-|Hj]; auto. apply Hk. eapply Hmade; eauto.
      * injection Hrun as _ He. rewrite He, Z.eqb_refl in Ee. discriminate.
Qed.

(** X10. On a host whose [mkdir] makes the directory it reports as made
    and keeps the directories there are, a [DTE_OK] from [dirtree_mkdirs]
    for a path with a slash means that the path is a directory
    afterwards, that the directories of before are still there, and that
    nothing was logged. *)
Theorem dirtree_mkdirs_ok_makes_the_path :
  forall (st st' : State h) (path : string),
    (forall d p d', mkdir h d p = (d', DTE_OK h) -> isdir h d' p = true) ->
    (forall d p d' e q, mkdir h d p = (d', e) ->
       isdir h d q = true -> isdir h d' q = true) ->
    In "/"%char (list_ascii_of_string path) ->
    dirtree_mkdirs h st path = (st', DTE_OK h) ->
    isdir h (func_dir st') path = true /\
    (forall q, isdir h (func_dir st) q = true ->
       isdir h (func_dir st') q = true) /\
    logged st' = logged st.
Proof.
  intros st st' path Hmade Hkept Hslash Hrun. unfold dirtree_mkdirs in Hrun.
  destruct (mkdirs_loop_ok _ _ _ _ Hmade Hkept Hrun) as (Hk & Hi & Hl).
  repeat split; auto.
  pose proof (split_with_sep _ _ Hslash) as Hlen.
  specialize (Hi (List.length (split "/" path))).
  rewrite firstn_all, join_split in Hi. apply Hi.
  unfold range_from. apply in_seq. lia.
Qed.

Lemma mkdirs_loop_failed : forall parts indices (st st' : State h) e,
  dirtree_mkdirs_loop h st parts indices = (st', e) ->
  e <> DTE_OK h ->
  exists i dir,
    In i indices /\
    isdir h dir (join "/" (firstn i parts)) = false /\
    mkdir h dir (join "/" (firstn i parts)) = (func_dir st', e) /\
    logged st' =
      logged st ++ [ {| log_level := "error"; log_format := "error: %s";
                        log_args := [arg_str (dirtree_t_errstr h e)] |} ].
Proof.
  intros parts indices. induction indices as [|i rest IH];
    intros st st' e Hrun He.
  - cbn in Hrun. injection Hrun as _ E. congruence.
  - cbn [dirtree_mkdirs_loop] in Hrun.
    destruct (isdir h (func_dir st) (join "/" (firstn i parts))) eqn:Ed;
      cbn [negb] in Hrun.
    + destruct (IH _ _ _ Hrun He) as (j & dir & Hj & H1 & H2 & H3).
      exists j, dir. repeat split; auto. now right.
    + destruct (mkdir h (func_dir st) (join "/" (firstn i parts)))
        as [dir' e0] eqn:Em.
      destruct (e0 =? DTE_OK h) eqn:Ee; cbn [negb] in Hrun.
      * destruct (IH _ _ _ Hrun He) as (j & dir & Hj & H1 & H2 & H3).
        exists j, dir. repeat split; auto. now right.
      * injection Hrun as <- <-.
        exists i, (func_dir st). cbn [log_call with_dir func_dir logged].
        repeat split; auto. now left.
Qed.

(** X11. When [dirtree_mkdirs] answers an error, it is the code of a
    [mkdir] the host refused for a prefix of the path that was not a
    directory; the tree is left as that [mkdir] left it, no later prefix
    having been tried, and the one line logged is the host's text for the
    code. *)
Theorem dirtree_mkdirs_stops_at_first_error :
  forall (st st' : State h) (path : string) (e : Z),
    dirtree_mkdirs h st path = (st', e) ->
    e <> DTE_OK h ->
    exists i dir,
      (2 <= i <= List.length (split "/" path))%nat /\
      isdir h dir (join "/" (firstn i (split "/" path))) = false /\
      mkdir h dir (join "/" (firstn i (split "/" path))) = (func_dir st', e) /\
      logged st' =
        logged st ++ [ {| log_level := "error"; log_format := "error: %s";
                          log_args := [arg_str (dirtree_t_errstr h e)] |} ].
Proof.
  intros st st' path e Hrun He. unfold dirtree_mkdirs in Hrun.
  destruct (mkdirs_loop_failed _ _ _ _ _ Hrun He) as (i & dir & Hi & H).
  exists i, dir. split; [|exact H].
  unfold range_from in Hi. apply in_seq in Hi. lia.
Qed.

(** ** tag_func: finding a function in the dirtree *)

Lemma dirtree_find_name_sound : forall fuel dir name directories cursor,
  In cursor (fst (dirtree_find_name h fuel dir name directories)) ->
  get_entry_name h dir (resolve_cursor h dir cursor) = name /\
  exists directory, In cursor (find h dir (directory ++ "*")%string).
Proof.
  induction fuel as [|fuel IH]; intros dir name directories cursor Hin.
  - destruct directories; destruct Hin.
  - destruct directories as [|directory rest]; [destruct Hin|].
    cbn [dirtree_find_name] in Hin.
    destruct (dirtree_find_name h fuel dir name _) as [more ended] eqn:Er.
    cbn [fst] in Hin. apply in_app_or in Hin. destruct Hin as [Hin|Hin].
    + apply filter_In in Hin. destruct Hin as [Hf Hn].
      apply String.eqb_eq in Hn. split; [exact Hn|].
      exists directory. exact Hf.
    + eapply IH. rewrite Er. exact Hin.
Qed.

(** X12. The path [find_function_dirtree_path] answers is the absolute
    path of a cursor the host listed under some directory, and the entry
    at that cursor is called as the database calls the function, which
    has a name that is not empty. *)
Theorem find_function_dirtree_path_names_the_function :
  forall fuel dir va path,
    find_function_dirtree_path h fuel dir va = Some (Some path) ->
    exists name cursor directory,
      get_name h va = Some name /\ name <> EmptyString /\
      In cursor (find h dir (directory ++ "*")%string) /\
      get_entry_name h dir (resolve_cursor h dir cursor) = name /\
      path = get_abspath h dir cursor.
Proof.
  intros fuel dir va path H. unfold find_function_dirtree_path in H.
  destruct (get_name h va) as [name|]; [|discriminate H].
  destruct name as [|c name]; [discriminate H|].
  destruct (dirtree_find_name h fuel dir (String c name) ["/"])
    as [[|cursor more] ended] eqn:Er.
  - destruct ended; discriminate H.
  - injection H as <-.
    destruct (dirtree_find_name_sound fuel dir (String c name) ["/"] cursor)
      as (Hn & directory & Hd).
    + rewrite Er. now left.
    + exists (String c name), cursor, directory.
      repeat split; auto. discriminate.
Qed.


Lemma dirtree_find_name_more_fuel : forall fuel extra dir name directories,
  exists more,
    fst (dirtree_find_name h (fuel + extra) dir name directories)
    = fst (dirtree_find_name h fuel dir name directories) ++ more /\
    (snd (dirtree_find_name h fuel dir name directories) = true ->
     more = [] /\
     snd (dirtree_find_name h (fuel + extra) dir name directories) = true).
Proof.
  induction fuel as [|fuel IH]; intros extra dir name directories.
  - destruct directories as [|directory rest].
    + exists []. destruct extra; cbn; auto.
    + exists (fst (dirtree_find_name h (0 + extra) dir name (directory :: rest))).
      cbn [dirtree_find_name fst snd app]. split; [reflexivity|discriminate].
  - destruct directories as [|directory rest].
    + exists []. cbn; auto.
    + cbn [Nat.add dirtree_find_name].
      match goal with
      | |- context [dirtree_find_name h fuel dir name ?ds] =>
          destruct (IH extra dir name ds) as (more & Hfst & Hsnd)
      end.
      destruct (dirtree_find_name h (fuel + extra) dir name _)
        as [ys' ended'].
      destruct (dirtree_find_name h fuel dir name _) as [ys ended].
      cbn [fst snd] in *. exists more. subst ys'.
      split; [now rewrite app_assoc|exact Hsnd].
Qed.

(** X14. An answer of [find_function_dirtree_path] does not depend on how
    long the search is let run: once it has answered, with a path or with
    [None], it gives the same answer when more directories may be read. *)
Theorem find_function_dirtree_path_answer_is_stable :
  forall fuel extra dir va answer,
    find_function_dirtree_path h fuel dir va = Some answer ->
    find_function_dirtree_path h (fuel + extra) dir va = Some answer.
Proof.
  intros fuel extra dir va answer H. unfold find_function_dirtree_path in *.
  destruct (get_name h va) as [name|]; [|exact H].
  destruct name as [|c name]; [exact H|].
  destruct (dirtree_find_name_more_fuel fuel extra dir (String c name) ["/"])
    as (more & Hfst & Hsnd).
  destruct (dirtree_find_name h (fuel + extra) dir (String c name) ["/"])
    as [ys' ended'].
  destruct (dirtree_find_name h fuel dir (String c name) ["/"])
    as [ys ended].
  cbn [fst snd] in *. subst ys'.
  destruct ys as [|cursor ys]; [|exact H].
  destruct ended; [|discriminate H].
  destruct (Hsnd eq_refl) as [-> ->]. exact H.
Qed.

(** ** tag_func: the dialog and the move *)

Lemma substring_prefix : forall a b,
  substring 0 (String.length a) (a ++ b) = a.
Proof.
  induction a as [|c a IH]; intros b.
  - destruct b; reflexivity.
  - cbn. now rewrite IH.
Qed.

Lemma length_append : forall a b,
  String.length (a ++ b) = (String.length a + String.length b)%nat.
Proof. induction a as [|c a IH]; intros b; cbn; [|rewrite IH]; reflexivity. Qed.

Lemma existing_tag_of_path : forall tag name,
  existing_tag_of ("/" ++ tag ++ "/" ++ name) name = lstrip "/" tag.
Proof.
  intros tag name. unfold existing_tag_of, slice_until_minus.
  change (String.length "/" + String.length name)%nat
    with (S (String.length name)).
  replace (String.length ("/" ++ tag ++ "/" ++ name) - S (String.length name))%nat
    with (String.length ("/" ++ tag)).
  - replace ("/" ++ tag ++ "/" ++ name)%string
      with (("/" ++ tag) ++ ("/" ++ name))%string by reflexivity.
    rewrite substring_prefix. reflexivity.
  - cbn [String.append String.length]. rewrite length_append.
    cbn [String.append String.length]. lia.
Qed.

(** X15. The tag the dialog proposes is the one the function is under:
    for a path made of a slash, a tag, a slash and the entry's name, the
    text cut out of the path is the tag, nested tags included, without
    the slashes it may begin with; for an entry directly under the root
    it is empty. *)
Theorem proposed_tag_is_the_current_tag :
  forall tag name,
    existing_tag_of ("/" ++ tag ++ "/" ++ name) name = lstrip "/" tag /\
    existing_tag_of ("/" ++ name) name = EmptyString.
Proof.
  intros tag name. split; [apply existing_tag_of_path|].
  unfold existing_tag_of, slice_until_minus.
  change (String.length "/" + String.length name)%nat
    with (S (String.length name)).
  change (String.length ("/" ++ name)) with (S (String.length name)).
  rewrite Nat.sub_diag. cbn. reflexivity.
Qed.

(** X16. Answering the dialog with the tag the function is already under
    moves nothing: when that tag's directory exists, [main] leaves the
    dirtree as it was, calls neither [mkdir] nor [rename], and logs that
    the tag exists and that the move to itself is skipped. *)
Theorem main_skips_move_to_itself :
  forall fuel (st : State h) ea tag name,
    get_func h (get_screen_ea h) = Some ea ->
    find_function_dirtree_path h fuel (func_dir st) ea
      = Some (Some ("/" ++ tag ++ "/" ++ name)%string) ->
    get_entry_name h (func_dir st)
      (resolve_path h (func_dir st) ("/" ++ tag ++ "/" ++ name)) = name ->
    ask_str h (lstrip "/" tag) 69 "tag:" = Some tag ->
    tag <> EmptyString ->
    isdir h (func_dir st) ("/" ++ tag) = true ->
    main h fuel st
      = Some (log_call "info" "skipping move to itself" []
                (log_call "debug" "tag exists: %s" [arg_str tag] st)).
Proof.
  intros fuel st ea tag name Hf Hp Hn Ha Ht Hd.
  remember ("/" ++ tag ++ "/" ++ name)%string as path eqn:Epath.
  assert (Hex : existing_tag_of path name = lstrip "/" tag)
    by (subst path; apply existing_tag_of_path).
  assert (Hfalsy : falsy (Some path) = false) by (subst path; reflexivity).
  assert (Hdst : (("/" ++ tag) ++ "/" ++ name)%string = path)
    by (subst path; reflexivity).
  assert (Htag : falsy (Some tag) = false)
    by (destruct tag; [congruence|reflexivity]).
  unfold main. rewrite Hf, Hp, Hfalsy, Hn, Hex, Ha, Htag, Hd.
  cbn [negb]. rewrite Z.eqb_refl. cbn [negb log_call func_dir].
  rewrite Hn, Hdst, String.eqb_refl. reflexivity.
Qed.

End tag_func_facts.

(** ** tag_func: the theorems on the example host *)

Lemma example_host_mkdir_makes : forall d p d',
  tag_func.mkdir (tag_func.example_host 0) d p
    = (d', tag_func.DTE_OK (tag_func.example_host 0)) ->
  tag_func.isdir (tag_func.example_host 0) d' p = true.
Proof.
  intros d p d' H. cbn in H. injection H as <-.
  cbn. now rewrite String.eqb_refl.
Qed.

Lemma example_host_mkdir_keeps : forall d p d' e q,
  tag_func.mkdir (tag_func.example_host 0) d p = (d', e) ->
  tag_func.isdir (tag_func.example_host 0) d q = true ->
  tag_func.isdir (tag_func.example_host 0) d' q = true.
Proof.
  intros d p d' e q H Hq. cbn in H. injection H as <- _.
  cbn in *. rewrite Hq. apply orb_true_r.
Qed.

Lemma dirtree_mkdirs_existing_path_is_untouched_witness :
  tag_func.dirtree_mkdirs (tag_func.example_host 0)
    (tag_func.example_state 0 tag_func.example_tree) "/lib"
  = (tag_func.example_state 0 tag_func.example_tree, 0).
Proof.
  apply (dirtree_mkdirs_existing_path_is_untouched (tag_func.example_host 0)).
  intros i Hi. simpl in Hi. assert (i = 2%nat) as -> by lia. reflexivity.
Defined.

Lemma dirtree_mkdirs_ignores_single_component_witness :
  tag_func.dirtree_mkdirs (tag_func.example_host 0)
    (tag_func.example_state 0 tag_func.example_tree) "crypto"
  = (tag_func.example_state 0 tag_func.example_tree, 0).
Proof.
  apply (dirtree_mkdirs_ignores_single_component (tag_func.example_host 0)).
  simpl. intuition discriminate.
Defined.

Lemma dirtree_mkdirs_ok_makes_the_path_witness :
  tag_func.isdir (tag_func.example_host 0)
    [ ("/lib/crypto/aes", true); ("/lib/crypto", true); ("/main", false);
      ("/lib", true); ("/lib/memcpy", false) ]
    "/lib/crypto/aes" = true.
Proof.
  refine (proj1 (dirtree_mkdirs_ok_makes_the_path (tag_func.example_host 0)
           (tag_func.example_state 0 tag_func.example_tree)
           (tag_func.example_state 0
              [ ("/lib/crypto/aes", true); ("/lib/crypto", true);
                ("/main", false); ("/lib", true); ("/lib/memcpy", false) ])
           "/lib/crypto/aes"
           example_host_mkdir_makes example_host_mkdir_keeps _ _)).
  - simpl. tauto.
  - reflexivity.
Defined.

Lemma dirtree_mkdirs_stops_at_first_error_witness :
  exists i dir,
    (2 <= i <= 3)%nat /\
    tag_func.isdir (tag_func.example_host 5) dir
      (tag_func.join "/" (firstn i [""; "lib"; "crypto"])) = false /\
    tag_func.mkdir (tag_func.example_host 5) dir
      (tag_func.join "/" (firstn i [""; "lib"; "crypto"]))
      = (tag_func.example_tree, 5) /\
    [ {| tag_func.log_level := "error"; tag_func.log_format := "error: %s";
         tag_func.log_args := [tag_func.arg_str "refused"] |} ]
    = [] ++ [ {| tag_func.log_level := "error";
                 tag_func.log_format := "error: %s";
                 tag_func.log_args := [tag_func.arg_str "refused"] |} ].
Proof.
  apply (dirtree_mkdirs_stops_at_first_error (tag_func.example_host 5)
           (tag_func.example_state 5 tag_func.example_tree)
           (tag_func.log_call "error" "error: %s"
              [tag_func.arg_str "refused"]
              (tag_func.example_state 5 tag_func.example_tree))
           "/lib/crypto" 5).
  - reflexivity.
  - simpl. lia.
Defined.

Lemma find_function_dirtree_path_names_the_function_witness :
  exists name cursor directory,
    tag_func.get_name (tag_func.example_host 0) 4198400 = Some name /\
    name <> EmptyString /\
    In cursor (tag_func.find (tag_func.example_host 0) tag_func.example_tree
                 (directory ++ "*")%string) /\
    tag_func.get_entry_name (tag_func.example_host 0) tag_func.example_tree
      (tag_func.resolve_cursor (tag_func.example_host 0)
         tag_func.example_tree cursor)
      = name /\
    "/lib/memcpy" = tag_func.get_abspath (tag_func.example_host 0)
                      tag_func.example_tree cursor.
Proof.
  apply (find_function_dirtree_path_names_the_function
           (tag_func.example_host 0) 5 tag_func.example_tree 4198400).
  reflexivity.
Defined.


Lemma find_function_dirtree_path_answer_is_stable_witness :
  tag_func.find_function_dirtree_path (tag_func.example_host 0) (3 + 4)
    tag_func.example_tree 4198400
  = Some (Some "/lib/memcpy").
Proof.
  apply (find_function_dirtree_path_answer_is_stable
           (tag_func.example_host 0) 3 4 tag_func.example_tree 4198400).
  reflexivity.
Defined.

Lemma main_skips_move_to_itself_witness :
  tag_func.main (tag_func.example_host 0) 5
    (tag_func.example_state 0 tag_func.example_tree)
  = Some (tag_func.log_call "info" "skipping move to itself" []
            (tag_func.log_call "debug" "tag exists: %s"
               [tag_func.arg_str "lib"]
               (tag_func.example_state 0 tag_func.example_tree))).
Proof.
  apply (main_skips_move_to_itself (tag_func.example_host 0) 5
           (tag_func.example_state 0 tag_func.example_tree)
           4198400 "lib" "memcpy").
  - reflexivity.
  - reflexivity.
  - reflexivity.
  - reflexivity.
  - discriminate.
  - reflexivity.
Defined.

